(** * playerdb: career-timeline normalisation, derivation, cleaning and merging

    A shallow embedding of the data pipeline of the repository:

    - [Scraper]  : the text normaliser of [optimized_career_scraper.py]
                   ([_extract_start_date], [_extract_end_date],
                   [_clean_team_name], [_extract_status]);
    - [Builder]  : [career_database_builder.py] (stints, transitions and
                   player statistics tables);
    - [Cleaner]  : [database_cleaner.py] ([is_fake_team], [clean_stints],
                   [clean_transitions]);
    - [Merger]   : [database_merger.py] ([merge_databases]);
    - [Details]  : how [get_player_details] stores a scraped career;
    - [Tier1]    : [tier1_filter.py] ([is_tier_1_team],
                   [filter_tier_1_players]);
    - [Analyzer] : [career_analyzer.py] ([parse_career_history_file]);
    - [CategoryScraper], [Advanced], [Logo] : the status rule and the
                   regions of [category_player_scraper.py], the filters of
                   [advanced_liquipedia_scraper.py], the names built by
                   [team_logo_scraper.py].

    Python strings are modelled as [string], one [ascii] per byte of the
    UTF-8 text.  The character classes of Python ([\d], [\s], [str.lower],
    [str.title], [str.strip]) are modelled on the ASCII range; a byte above
    127 is neither a digit, nor a space, nor a cased letter.  The clock
    ([datetime.now()]) is an explicit argument [now].  Exceptions are values
    of [exn] carried by [result]. *)

From Stdlib Require Import ZArith List String Ascii Bool Lia Arith Permutation Sorted QArith.
Import ListNotations.

Local Open Scope string_scope.
Local Open Scope Z_scope.

(** ** Exceptions *)

Inductive exn : Type :=
| KeyError (key : string)
| IndexError
| AttributeError
| TypeError
| ValueError
| ZeroDivisionError
| JSONDecodeError.

Inductive result (A : Type) : Type :=
| Ok (a : A)
| Raise (e : exn).

Arguments Ok {A} a.
Arguments Raise {A} e.

Definition bind {A B : Type} (r : result A) (k : A -> result B) : result B :=
  match r with
  | Ok a => k a
  | Raise e => Raise e
  end.

Notation "x <- r ;; k" := (bind r (fun x => k))
  (at level 61, r at next level, right associativity).

(** ** Python string primitives *)

Module Py.

Definition code (c : ascii) : N := N_of_ascii c.

(** [\d] and [str.isdigit] on the ASCII range. *)
Definition is_digit (c : ascii) : bool :=
  ((48 <=? code c) && (code c <=? 57))%N.

(** [\s] and [str.isspace] on the ASCII range: TAB, LF, VT, FF, CR,
    FS, GS, RS, US and the space. *)
Definition is_space (c : ascii) : bool :=
  (((9 <=? code c) && (code c <=? 13))
   || ((28 <=? code c) && (code c <=? 31))
   || (code c =? 32))%N.

Definition is_upper (c : ascii) : bool :=
  ((65 <=? code c) && (code c <=? 90))%N.

Definition is_lower (c : ascii) : bool :=
  ((97 <=? code c) && (code c <=? 122))%N.

Definition is_cased (c : ascii) : bool := is_upper c || is_lower c.

Definition lower_char (c : ascii) : ascii :=
  if is_upper c then ascii_of_N (code c + 32) else c.

Definition upper_char (c : ascii) : ascii :=
  if is_lower c then ascii_of_N (code c - 32) else c.

(** [str.lower()] *)
Fixpoint lower (s : string) : string :=
  match s with
  | EmptyString => EmptyString
  | String c r => String (lower_char c) (lower r)
  end.

(** [str.title()]: a cased character is upper-cased when the previous
    character is not cased and lower-cased otherwise. *)
Fixpoint title_from (prev_cased : bool) (s : string) : string :=
  match s with
  | EmptyString => EmptyString
  | String c r =>
      String (if prev_cased then lower_char c else upper_char c)
             (title_from (is_cased c) r)
  end.

Definition title (s : string) : string := title_from false s.

Fixpoint lstrip (s : string) : string :=
  match s with
  | EmptyString => EmptyString
  | String c r => if is_space c then lstrip r else s
  end.

Fixpoint rstrip (s : string) : string :=
  match s with
  | EmptyString => EmptyString
  | String c r =>
      match rstrip r with
      | EmptyString => if is_space c then EmptyString else String c EmptyString
      | r' => String c r'
      end
  end.

(** [str.strip()] *)
Definition strip (s : string) : string := rstrip (lstrip s).

(** [sub in s] *)
Fixpoint contains (sub s : string) : bool :=
  prefix sub s ||
  match s with
  | EmptyString => false
  | String _ r => contains sub r
  end.

(** Truth value of a string: [not s] is [negb (truthy s)]. *)
Definition truthy (s : string) : bool :=
  match s with
  | EmptyString => false
  | String _ _ => true
  end.

Fixpoint all_chars (p : ascii -> bool) (s : string) : bool :=
  match s with
  | EmptyString => true
  | String c r => p c && all_chars p r
  end.

(** The longest prefix of characters satisfying [p], and the rest. *)
Fixpoint span (p : ascii -> bool) (s : string) : string * string :=
  match s with
  | EmptyString => (EmptyString, EmptyString)
  | String c r =>
      if p c then let (a, b) := span p r in (String c a, b)
      else (EmptyString, s)
  end.

Definition digit_val (c : ascii) : option Z :=
  if is_digit c then Some (Z.of_N (code c) - 48) else None.

(** [int(s)] for a string of ASCII digits, most significant first. *)
Fixpoint int_from (acc : Z) (s : string) : option Z :=
  match s with
  | EmptyString => Some acc
  | String c r =>
      match digit_val c with
      | Some d => int_from (10 * acc + d) r
      | None => None
      end
  end.

(** [dict.get(key, default)] on a record decoded from JSON. *)
Fixpoint dict_get (d : list (string * string)) (key default : string) : string :=
  match d with
  | [] => default
  | (k, v) :: r => if String.eqb k key then v else dict_get r key default
  end.

End Py.

(** ** Regular expressions as used by [re.match(pattern, s, re.IGNORECASE)]

    The patterns of the cleaner are all of the shape [^ ... $], built from
    literals, [\d], [\s], [+], [*] and non-capturing alternation; matching an
    anchored pattern is membership of the whole string in the language, which
    Brzozowski derivatives decide. *)

Module Re.

Inductive cclass : Type :=
| CChar (c : ascii)
| CDigit
| CSpace.

Inductive regex : Type :=
| Empty
| Eps
| Class (k : cclass)
| Cat (a b : regex)
| Alt (a b : regex)
| Star (a : regex).

Definition Plus (r : regex) : regex := Cat r (Star r).

Fixpoint lit (s : string) : regex :=
  match s with
  | EmptyString => Eps
  | String c r => Cat (Class (CChar c)) (lit r)
  end.

Fixpoint alts (l : list regex) : regex :=
  match l with
  | [] => Empty
  | r :: [] => r
  | r :: t => Alt r (alts t)
  end.

Definition class_matches (ignorecase : bool) (k : cclass) (c : ascii) : bool :=
  match k with
  | CChar a =>
      if ignorecase then Ascii.eqb (Py.lower_char a) (Py.lower_char c)
      else Ascii.eqb a c
  | CDigit => Py.is_digit c
  | CSpace => Py.is_space c
  end.

Fixpoint nullable (r : regex) : bool :=
  match r with
  | Empty => false
  | Eps => true
  | Class _ => false
  | Cat a b => nullable a && nullable b
  | Alt a b => nullable a || nullable b
  | Star _ => true
  end.

Fixpoint deriv (ic : bool) (c : ascii) (r : regex) : regex :=
  match r with
  | Empty => Empty
  | Eps => Empty
  | Class k => if class_matches ic k c then Eps else Empty
  | Cat a b =>
      if nullable a then Alt (Cat (deriv ic c a) b) (deriv ic c b)
      else Cat (deriv ic c a) b
  | Alt a b => Alt (deriv ic c a) (deriv ic c b)
  | Star a => Cat (deriv ic c a) (Star a)
  end.

Fixpoint fullmatch (ic : bool) (r : regex) (s : string) : bool :=
  match s with
  | EmptyString => nullable r
  | String c t => fullmatch ic (deriv ic c r) t
  end.

Fixpoint drop_final_newline (s : string) : option string :=
  match s with
  | EmptyString => None
  | String c EmptyString => if Ascii.eqb c "010"%char then Some EmptyString else None
  | String c t =>
      match drop_final_newline t with
      | Some t' => Some (String c t')
      | None => None
      end
  end.

(** [re.match('^' r '$', s)] is not [None]: [$] matches at the end of the
    string and also just before a newline that ends the string. *)
Definition match_anchored (ic : bool) (r : regex) (s : string) : bool :=
  fullmatch ic r s ||
  match drop_final_newline s with
  | Some s' => fullmatch ic r s'
  | None => false
  end.

(** The pattern [\d{4}] matched at the start of [s]. *)
Definition four_digits_at (s : string) : option Z :=
  match s with
  | String a (String b (String c (String d _))) =>
      if Py.is_digit a && Py.is_digit b && Py.is_digit c && Py.is_digit d
      then Py.int_from 0 (substring 0 4 s)
      else None
  | _ => None
  end.

(** [re.search(r'(\d{4})', s)] followed by [int(match.group(1))]: the
    number written by the leftmost run of four digits. *)
Fixpoint search_four_digits (s : string) : option Z :=
  match four_digits_at s with
  | Some y => Some y
  | None =>
      match s with
      | EmptyString => None
      | String _ r => search_four_digits r
      end
  end.

End Re.

(** ** Text normaliser: [OptimizedCareerScraper] *)

Module Scraper.

(** The pattern [\d{4}-\d{2}-\d{2}] matched at the start of [s]: the ten
    matched characters. *)
Definition iso_date_at (s : string) : option string :=
  match s with
  | String y1 (String y2 (String y3 (String y4 (String h1
      (String m1 (String m2 (String h2 (String d1 (String d2 _))))))))) =>
      if Py.is_digit y1 && Py.is_digit y2 && Py.is_digit y3 && Py.is_digit y4
         && Ascii.eqb h1 "-" && Py.is_digit m1 && Py.is_digit m2
         && Ascii.eqb h2 "-" && Py.is_digit d1 && Py.is_digit d2
      then Some (substring 0 10 s)
      else None
  | _ => None
  end.

(** [re.search(r'(\d{4}-\d{2}-\d{2})', s)]: the leftmost match. *)
Fixpoint search_iso_date (s : string) : option string :=
  match iso_date_at s with
  | Some d => Some d
  | None =>
      match s with
      | EmptyString => None
      | String _ r => search_iso_date r
      end
  end.

(** [re.findall(r'(\d{4}-\d{2}-\d{2})', s)]: the matches from left to
    right, none overlapping another; [skip] counts the characters of the
    last match that are still to be passed over. *)
Fixpoint findall_iso_dates_from (skip : nat) (s : string) : list string :=
  match skip with
  | S k =>
      match s with
      | EmptyString => []
      | String _ r => findall_iso_dates_from k r
      end
  | O =>
      match iso_date_at s with
      | Some d =>
          d :: match s with
               | EmptyString => []
               | String _ r => findall_iso_dates_from 9 r
               end
      | None =>
          match s with
          | EmptyString => []
          | String _ r => findall_iso_dates_from 0 r
          end
      end
  end.

Definition findall_iso_dates (s : string) : list string :=
  findall_iso_dates_from 0 s.

Definition _extract_start_date (date_range : string) : string :=
  match search_iso_date date_range with
  | Some d => d
  | None => ""
  end.

Definition _extract_end_date (date_range : string) : string :=
  if Py.contains "Present" date_range || Py.contains "present" date_range
  then "Present"
  else
    let matches := findall_iso_dates date_range in
    if (1 <? List.length matches)%nat then last matches "" else "".

Definition not_rparen (c : ascii) : bool := negb (Ascii.eqb c ")").

(** The pattern [\(([^)]+)\)] matched at the start of [s]: the contents
    of the group and the text after the closing parenthesis.  [[^)]+] is
    greedy and stops only at a closing parenthesis or at the end of the
    string, so the group is the longest run of characters other than [)]. *)
Definition paren_group_at (s : string) : option (string * string) :=
  match s with
  | String "("%char r =>
      match Py.span not_rparen r with
      | (String c g, String ")"%char rest) => Some (String c g, rest)
      | _ => None
      end
  | _ => None
  end.

(** [re.search(r'\(([^)]+)\)', s)]: group 1 of the leftmost match. *)
Fixpoint search_paren_group (s : string) : option string :=
  match paren_group_at s with
  | Some (g, _) => Some g
  | None =>
      match s with
      | EmptyString => None
      | String _ r => search_paren_group r
      end
  end.

(** The pattern [\s*\([^)]+\)\s*$] matched at the start of [s]: the
    contents of the parenthesised group. *)
Definition trailing_group_at (s : string) : option string :=
  match paren_group_at (Py.lstrip s) with
  | Some (g, rest) => if Py.all_chars Py.is_space rest then Some g else None
  | None => None
  end.

(** [re.sub(r'\s*\([^)]+\)\s*$', '', s)]: the leftmost match runs to the
    end of the string, so there is at most one replacement. *)
Fixpoint sub_trailing_group (s : string) : string :=
  match trailing_group_at s with
  | Some _ => EmptyString
  | None =>
      match s with
      | EmptyString => EmptyString
      | String c r => String c (sub_trailing_group r)
      end
  end.

Definition _clean_team_name (team_text : string) : string :=
  Py.strip (sub_trailing_group team_text).

Definition _extract_status (team_text : string) : string :=
  match search_paren_group team_text with
  | Some g =>
      let status := Py.lower (Py.strip g) in
      if Py.contains "inactive" status then "Inactive"
      else if Py.contains "loan" status then "Loan"
      else if Py.contains "stand-in" status || Py.contains "standin" status
      then "Stand-in"
      else if Py.contains "trial" status then "Trial"
      else Py.title status
  | None => "Active"
  end.

(** One row of [_parse_history_table]: the entry stored for a table row
    with date cell [date_text] and team cell [team_text]. *)
Definition history_entry (date_text team_text : string) : list (string * string) :=
  [ ("date_start", _extract_start_date date_text);
    ("date_end", _extract_end_date date_text);
    ("date_range", date_text);
    ("team", _clean_team_name team_text);
    ("status", _extract_status team_text) ].

(** [_parse_history_table]: each table row is given by the texts of its
    cells; a row with fewer than two cells, or whose first cell holds no run
    of four digits, adds nothing, and the rows after it are still read. *)
Fixpoint _parse_history_table (table_rows : list (list string))
  : list (list (string * string)) :=
  match table_rows with
  | [] => []
  | cells :: more =>
      match cells with
      | date_text :: team_text :: _ =>
          match Re.search_four_digits date_text with
          | Some _ => history_entry date_text team_text :: _parse_history_table more
          | None => _parse_history_table more
          end
      | _ => _parse_history_table more
      end
  end.

End Scraper.

(** ** The copy of the normaliser in [CategoryPlayerScraper] *)

Module CategoryScraper.

(** The keys of [self.country_categories]. *)
Definition country_categories : list string :=
  [ "Brazil"; "South Korea"; "Japan"; "Indonesia"; "Vietnam"; "Malaysia";
    "Singapore"; "Taiwan"; "Hong Kong"; "Philippines"; "Thailand"; "India";
    "Pakistan"; "China" ].

Definition americas : list string :=
  [ "Brazil"; "Argentina"; "Chile"; "Mexico"; "Colombia"; "Peru";
    "Uruguay"; "Venezuela"; "Ecuador"; "Bolivia"; "Paraguay" ].

Definition asia : list string :=
  [ "South Korea"; "Japan"; "China"; "Taiwan"; "Hong Kong"; "Philippines";
    "Thailand"; "Vietnam"; "Indonesia"; "Malaysia"; "Singapore"; "India";
    "Pakistan"; "Mongolia" ].

Definition _get_region_from_country (country : string) : string :=
  if existsb (String.eqb country) americas then "Americas"
  else if existsb (String.eqb country) asia then "Asia"
  else "Unknown".

(** This copy of [_extract_status] has no branch for trials. *)
Definition _extract_status (team_text : string) : string :=
  match Scraper.search_paren_group team_text with
  | Some g =>
      let status := Py.lower (Py.strip g) in
      if Py.contains "inactive" status then "Inactive"
      else if Py.contains "loan" status then "Loan"
      else if Py.contains "stand-in" status || Py.contains "standin" status
      then "Stand-in"
      else Py.title status
  | None => "Active"
  end.

End CategoryScraper.

(** ** Tables

    A [pandas.DataFrame] built from a list of records: its column labels and
    its rows.  [pd.DataFrame(records)] takes the labels from the records, so
    the frame of an empty list has no column at all, and [df[name]] raises
    [KeyError] for a label that is not a column. *)

Record DataFrame (A : Type) : Type := mkDataFrame {
  columns : list string;
  rows : list A
}.

Arguments mkDataFrame {A} columns rows.
Arguments columns {A} d.
Arguments rows {A} d.

Definition pd_DataFrame {A : Type} (keys : list string) (records : list A) : DataFrame A :=
  {| columns := match records with [] => [] | _ :: _ => keys end;
     rows := records |}.

(** [x in l] for a list or set of strings. *)
Definition mem (x : string) (l : list string) : bool := existsb (String.eqb x) l.

Definition has_column {A : Type} (df : DataFrame A) (name : string) : bool :=
  mem name (columns df).

(** [df[name]] *)
Definition column {A B : Type} (df : DataFrame A) (name : string) (proj : A -> B)
  : result (list B) :=
  if has_column df name then Ok (map proj (rows df)) else Raise (KeyError name).

(** [Series.unique()]: the distinct values in order of first appearance. *)
Fixpoint unique_from (seen l : list string) : list string :=
  match l with
  | [] => []
  | x :: r =>
      if mem x seen then unique_from seen r
      else x :: unique_from (x :: seen) r
  end.

Definition unique (l : list string) : list string := unique_from [] l.

(** ** Calendar dates: [datetime.strptime(s, '%Y-%m-%d')] and day arithmetic *)

Module Date.

Record t : Type := mk { year : Z; month : Z; day : Z }.

Definition is_leap (y : Z) : bool :=
  (y mod 4 =? 0) && (negb (y mod 100 =? 0) || (y mod 400 =? 0)).

Definition month_lengths (y : Z) : list Z :=
  [31; if is_leap y then 29 else 28; 31; 30; 31; 30; 31; 31; 30; 31; 30; 31].

Definition days_in_month (y m : Z) : Z :=
  nth (Z.to_nat (m - 1)) (month_lengths y) 0.

Definition days_before_month (y m : Z) : Z :=
  fold_right Z.add 0 (firstn (Z.to_nat (m - 1)) (month_lengths y)).

Definition days_before_year (y : Z) : Z :=
  let p := y - 1 in p * 365 + p / 4 - p / 100 + p / 400.

(** [date.toordinal()]: 1 for 0001-01-01. *)
Definition toordinal (d : t) : Z :=
  days_before_year (year d) + days_before_month (year d) (month d) + day d.

Definition in_range (lo hi : N) (c : ascii) : bool :=
  ((lo <=? Py.code c) && (Py.code c <=? hi))%N.

Definition val (c : ascii) : Z := Z.of_N (Py.code c) - 48.

(** [%Y] is [\d\d\d\d]. *)
Definition parse_year (s : string) : option (Z * string) :=
  match s with
  | String a (String b (String c (String d r))) =>
      if Py.is_digit a && Py.is_digit b && Py.is_digit c && Py.is_digit d
      then Some (1000 * val a + 100 * val b + 10 * val c + val d, r)
      else None
  | _ => None
  end.

Definition two (p q : ascii -> bool) (s : string) : option (Z * string) :=
  match s with
  | String a (String b r) =>
      if p a && q b then Some (10 * val a + val b, r) else None
  | _ => None
  end.

Definition one (p : ascii -> bool) (s : string) : option (Z * string) :=
  match s with
  | String a r => if p a then Some (val a, r) else None
  | _ => None
  end.

Definition space_one (p : ascii -> bool) (s : string) : option (Z * string) :=
  match s with
  | String " "%char (String a r) => if p a then Some (val a, r) else None
  | _ => None
  end.

(** [%m] is [1[0-2]|0[1-9]|[1-9]]. *)
Definition month_alternatives : list (string -> option (Z * string)) :=
  [ two (in_range 49 49) (in_range 48 50);
    two (in_range 48 48) (in_range 49 57);
    one (in_range 49 57) ].

(** [%d] is [3[01]|[12]\d|0[1-9]|[1-9]| [1-9]]. *)
Definition day_alternatives : list (string -> option (Z * string)) :=
  [ two (in_range 51 51) (in_range 48 49);
    two (in_range 49 50) Py.is_digit;
    two (in_range 48 48) (in_range 49 57);
    one (in_range 49 57);
    space_one (in_range 49 57) ].

(** Ordered alternation: the first alternative after which the rest of
    the pattern [k] matches. *)
Fixpoint first_alt {A B : Type} (alternatives : list (string -> option (A * string)))
    (s : string) (k : A -> string -> option B) : option B :=
  match alternatives with
  | [] => None
  | a :: more =>
      match (match a s with Some (v, r) => k v r | None => None end) with
      | Some b => Some b
      | None => first_alt more s k
      end
  end.

Definition expect_hyphen {B : Type} (s : string) (k : string -> option B) : option B :=
  match s with
  | String "-"%char r => k r
  | _ => None
  end.

(** The match of the compiled format at the start of [s]: year, month,
    day and the unconverted rest. *)
Definition match_format (s : string) : option (Z * Z * Z * string) :=
  match parse_year s with
  | Some (y, r1) =>
      expect_hyphen r1 (fun r2 =>
        first_alt month_alternatives r2 (fun m r3 =>
          expect_hyphen r3 (fun r4 =>
            first_alt day_alternatives r4 (fun d r5 => Some (y, m, d, r5)))))
  | None => None
  end.

(** [datetime.strptime(s, '%Y-%m-%d')]: [ValueError] when the format does
    not match, when data remains after the match, or when the fields are
    not a date of the calendar (year 0, or a day past the month's end). *)
Definition strptime (s : string) : result t :=
  match match_format s with
  | Some (y, m, d, EmptyString) =>
      if (1 <=? y) && (d <=? days_in_month y m) then Ok (mk y m d)
      else Raise ValueError
  | _ => Raise ValueError
  end.

End Date.

(** ** Records of the pipeline *)

(** One element of the decoded career list.  [entry.get] exists only on a
    JSON object; any other JSON value (null, a number, a string, a list)
    makes [entry.get(...)] raise [AttributeError].  The values of an object
    are strings, as the scraper writes them. *)
Inductive raw_entry : Type :=
| Entry (fields : list (string * string))
| NotADict.

(** The [career_history] cell of a player row.  [Absent] is a cell that is
    NaN, [None] or the empty string.  [Invalid e] is a text on which
    [json.loads] raises, or whose value cannot be enumerated.  [Career l] is
    a text that decodes to the sequence [l]; a top-level JSON object or
    string enumerates to its keys or characters, all of them [NotADict]. *)
Inductive career_cell : Type :=
| Absent
| Invalid (e : exn)
| Career (entries : list raw_entry).

Module Player.
Record t : Type := mk {
  player_id : string;
  real_name : string;
  country : string;
  current_team : string;
  status : string;
  career_history : career_cell;
  teams_count : option Z;
  roles : string;
  birth_date : string;
  player_url : string
}.
End Player.

Module Stint.
Record t : Type := mk {
  stint_id : Z;
  player_id : string;
  real_name : string;
  country : string;
  current_team : string;
  player_status : string;
  stint_number : Z;
  total_stints : Z;
  team : string;
  date_start : string;
  date_end : string;
  date_range : string;
  stint_status : string;
  is_current_team : bool;
  duration_days : Z;
  year_start : option Z;
  year_end : option Z;
  roles : string;
  player_url : string
}.

Definition keys : list string :=
  [ "stint_id"; "player_id"; "real_name"; "country"; "current_team";
    "player_status"; "stint_number"; "total_stints"; "team"; "date_start";
    "date_end"; "date_range"; "stint_status"; "is_current_team";
    "duration_days"; "year_start"; "year_end"; "roles"; "player_url" ].
End Stint.

Module Transition.
Record t : Type := mk {
  transition_id : Z;
  player_id : string;
  real_name : string;
  country : string;
  from_team : string;
  to_team : string;
  from_stint_status : string;
  to_stint_status : string;
  transition_date : string;
  transition_year : option Z;
  from_duration_days : Z;
  stint_number : Z
}.

Definition keys : list string :=
  [ "transition_id"; "player_id"; "real_name"; "country"; "from_team";
    "to_team"; "from_stint_status"; "to_stint_status"; "transition_date";
    "transition_year"; "from_duration_days"; "stint_number" ].
End Transition.

Module PlayerStats.
Record t : Type := mk {
  player_id : string;
  real_name : string;
  country : string;
  current_team : string;
  player_status : string;
  total_teams : Z;
  unique_teams : Z;
  teams_played_multiple_times : Z;
  career_start_date : string;
  career_end_date : string;
  career_start_year : option Z;
  career_end_year : option Z;
  career_span_years : Z;
  total_career_days : Z;
  avg_stint_duration_days : Q;
  is_active : bool;
  has_current_team : bool;
  inactive_stints : Z;
  loan_stints : Z;
  standin_stints : Z;
  roles : string;
  birth_date : string;
  player_url : string
}.

Definition keys : list string :=
  [ "player_id"; "real_name"; "country"; "current_team"; "player_status";
    "total_teams"; "unique_teams"; "teams_played_multiple_times";
    "career_start_date"; "career_end_date"; "career_start_year";
    "career_end_year"; "career_span_years"; "total_career_days";
    "avg_stint_duration_days"; "is_active"; "has_current_team";
    "inactive_stints"; "loan_stints"; "standin_stints"; "roles";
    "birth_date"; "player_url" ].
End PlayerStats.

(** ** [CareerHistoryDatabase] *)

Module Builder.

Definition _extract_year (date_str : string) : option Z :=
  if negb (Py.truthy date_str) then None
  else Re.search_four_digits date_str.

(** ['present' in date_end.lower()] *)
Definition says_present (date_end : string) : bool :=
  Py.contains "present" (Py.lower date_end).

(** [(end_date - start_date).days] with [end_date = datetime.now()]: the
    start is a midnight, so the whole days elapsed are the difference of
    the two ordinals whatever the time of day of [now]. *)
Definition _calculate_duration (now : Date.t) (date_start date_end : string) : Z :=
  if negb (Py.truthy date_start) || negb (Py.truthy date_end) then 0
  else
    let attempt :=
      end_date <- (if says_present date_end then Ok now
                   else Date.strptime date_end) ;;
      start_date <- Date.strptime date_start ;;
      Ok (Z.max 0 (Date.toordinal end_date - Date.toordinal start_date)) in
    match attempt with
    | Ok duration => duration
    | Raise _ => 0
    end.

(** The dictionary appended to [stints] for the decoded record [e]. *)
Definition stint_row (now : Date.t) (player : Player.t) (career_len : Z)
    (stint_id stint_num : Z) (e : list (string * string)) : Stint.t :=
  let date_start := Py.dict_get e "date_start" "" in
  let date_end := Py.dict_get e "date_end" "" in
  let date_range := Py.dict_get e "date_range" "" in
  let duration_days := _calculate_duration now date_start date_end in
  let is_current :=
    if Py.truthy date_end then says_present date_end else false in
  {| Stint.stint_id := stint_id;
     Stint.player_id := Player.player_id player;
     Stint.real_name := Player.real_name player;
     Stint.country := Player.country player;
     Stint.current_team := Player.current_team player;
     Stint.player_status := Player.status player;
     Stint.stint_number := stint_num;
     Stint.total_stints :=
       match Player.teams_count player with
       | Some n => n
       | None => career_len
       end;
     Stint.team := Py.dict_get e "team" "";
     Stint.date_start := date_start;
     Stint.date_end := date_end;
     Stint.date_range := date_range;
     Stint.stint_status := Py.dict_get e "status" "Active";
     Stint.is_current_team := is_current;
     Stint.duration_days := duration_days;
     Stint.year_start := _extract_year date_start;
     Stint.year_end :=
       if Py.truthy date_end && negb (says_present date_end)
       then _extract_year date_end
       else Some (Date.year now);
     Stint.roles := Player.roles player;
     Stint.player_url := Player.player_url player |}.

(** The body of the loop over a player's career: the row appended for
    [entry], or the exception raised by [entry.get]. *)
Definition make_stint (now : Date.t) (player : Player.t) (career_len : Z)
    (stint_id stint_num : Z) (entry : raw_entry) : result Stint.t :=
  match entry with
  | NotADict => Raise AttributeError
  | Entry e => Ok (stint_row now player career_len stint_id stint_num e)
  end.

(** The state of [build_career_stints_table]: the list [stints] and the
    counter [stint_id]. *)
Definition build_state : Type := (list Stint.t * Z)%type.

(** [for stint_num, entry in enumerate(career, 1)]: an exception leaves
    the loop; what was appended before it stays appended. *)
Fixpoint career_loop (now : Date.t) (player : Player.t) (career_len : Z)
    (stint_num : Z) (entries : list raw_entry) (st : build_state)
  : build_state * option exn :=
  match entries with
  | [] => (st, None)
  | entry :: more =>
      match make_stint now player career_len (snd st) stint_num entry with
      | Ok row =>
          career_loop now player career_len (stint_num + 1) more
            ((fst st ++ [row])%list, snd st + 1)
      | Raise e => (st, Some e)
      end
  end.

(** One iteration of [for _, player in self.players_df.iterrows()]: the
    [try] block around the decoding and the career loop, whose handler
    prints the error and goes on to the next player. *)
Definition player_step (now : Date.t) (st : build_state) (player : Player.t)
  : build_state :=
  match Player.career_history player with
  | Absent => st
  | Invalid _ => st
  | Career entries =>
      fst (career_loop now player (Z.of_nat (List.length entries)) 1 entries st)
  end.

Definition build_career_stints_table (now : Date.t) (players_df : list Player.t)
  : DataFrame Stint.t :=
  pd_DataFrame Stint.keys (fst (fold_left (player_step now) players_df ([], 1))).

(** [df[name]] for each label of [names] in turn: the first missing
    label raises. *)
Fixpoint require {A : Type} (df : DataFrame A) (names : list string) : result unit :=
  match names with
  | [] => Ok tt
  | name :: more =>
      if has_column df name then require df more else Raise (KeyError name)
  end.

Fixpoint foldM {A S : Type} (f : S -> A -> result S) (l : list A) (s : S) : result S :=
  match l with
  | [] => Ok s
  | a :: more => s' <- f s a ;; foldM f more s'
  end.

(** [DataFrame.sort_values('stint_number')]: ascending; rows with equal
    numbers keep their relative order here. *)
Fixpoint insert_by_number (s : Stint.t) (l : list Stint.t) : list Stint.t :=
  match l with
  | [] => [s]
  | h :: t =>
      if Stint.stint_number s <=? Stint.stint_number h then s :: l
      else h :: insert_by_number s t
  end.

Definition sort_values (l : list Stint.t) : list Stint.t :=
  fold_right insert_by_number [] l.

(** [df[df['player_id'] == player_id]] *)
Definition select_player (player_id : string) (l : list Stint.t) : list Stint.t :=
  filter (fun s => String.eqb (Stint.player_id s) player_id) l.

(** The pairs [(l.iloc[i], l.iloc[i + 1])] for [i in range(len(l) - 1)]. *)
Fixpoint adjacent {A : Type} (l : list A) : list (A * A) :=
  match l with
  | a :: (b :: _) as t => (a, b) :: adjacent t
  | _ => []
  end.

Definition transition_state : Type := (list Transition.t * Z)%type.

Definition transition_row (transition_id : Z) (player_id : string)
    (current_stint next_stint : Stint.t) : Transition.t :=
  {| Transition.transition_id := transition_id;
     Transition.player_id := player_id;
     Transition.real_name := Stint.real_name current_stint;
     Transition.country := Stint.country current_stint;
     Transition.from_team := Stint.team current_stint;
     Transition.to_team := Stint.team next_stint;
     Transition.from_stint_status := Stint.stint_status current_stint;
     Transition.to_stint_status := Stint.stint_status next_stint;
     Transition.transition_date := Stint.date_start next_stint;
     Transition.transition_year := Stint.year_start next_stint;
     Transition.from_duration_days := Stint.duration_days current_stint;
     Transition.stint_number := Stint.stint_number current_stint |}.

Definition pair_step (df : DataFrame Stint.t) (player_id : string)
    (st : transition_state) (p : Stint.t * Stint.t) : result transition_state :=
  _ <- require df [ "real_name"; "country"; "team"; "stint_status";
                    "date_start"; "year_start"; "duration_days";
                    "stint_number" ] ;;
  Ok ((fst st ++ [transition_row (snd st) player_id (fst p) (snd p)])%list,
      snd st + 1).

Definition transitions_step (df : DataFrame Stint.t) (st : transition_state)
    (player_id : string) : result transition_state :=
  _ <- require df [ "player_id"; "stint_number" ] ;;
  let player_stints := sort_values (select_player player_id (rows df)) in
  foldM (pair_step df player_id) (adjacent player_stints) st.

Definition build_team_transitions_table (career_stints_df : DataFrame Stint.t)
  : result (DataFrame Transition.t) :=
  ids <- column career_stints_df "player_id" Stint.player_id ;;
  st <- foldM (transitions_step career_stints_df) (unique ids) ([], 1) ;;
  Ok (pd_DataFrame Transition.keys (fst st)).

(** [Series.min()] and [Series.max()] of a column of strings. *)
Definition str_min (a b : string) : string := if String.ltb b a then b else a.
Definition str_max (a b : string) : string := if String.ltb a b then b else a.

Definition series_str (f : string -> string -> string) (l : list string) : string :=
  match l with
  | [] => ""
  | x :: r => fold_left f r x
  end.

(** [Series.min()] and [Series.max()] of a column of years: missing
    values are skipped, and the result is missing when all are. *)
Definition opt_merge (f : Z -> Z -> Z) (a b : option Z) : option Z :=
  match a, b with
  | Some x, Some y => Some (f x y)
  | Some x, None => Some x
  | None, o => o
  end.

Definition series_year (f : Z -> Z -> Z) (l : list (option Z)) : option Z :=
  fold_left (opt_merge f) l None.

Definition count_status (status : string) (l : list Stint.t) : Z :=
  Z.of_nat (List.length
    (filter (fun s => String.eqb (Stint.stint_status s) status) l)).

Definition sum_Z (l : list Z) : Z := fold_left Z.add l 0.

Definition stats_row (player_info : Player.t) (player_id : string)
    (player_stints : list Stint.t) : PlayerStats.t :=
  let total_teams := Z.of_nat (List.length player_stints) in
  let unique_teams :=
    Z.of_nat (List.length (unique (map Stint.team player_stints))) in
  let year_start := series_year Z.min (map Stint.year_start player_stints) in
  let year_end := series_year Z.max (map Stint.year_end player_stints) in
  let total_days := sum_Z (map Stint.duration_days player_stints) in
  {| PlayerStats.player_id := player_id;
     PlayerStats.real_name := Player.real_name player_info;
     PlayerStats.country := Player.country player_info;
     PlayerStats.current_team := Player.current_team player_info;
     PlayerStats.player_status := Player.status player_info;
     PlayerStats.total_teams := total_teams;
     PlayerStats.unique_teams := unique_teams;
     PlayerStats.teams_played_multiple_times := total_teams - unique_teams;
     PlayerStats.career_start_date :=
       series_str str_min (map Stint.date_start player_stints);
     PlayerStats.career_end_date :=
       series_str str_max (map Stint.date_end player_stints);
     PlayerStats.career_start_year := year_start;
     PlayerStats.career_end_year := year_end;
     PlayerStats.career_span_years :=
       match year_end, year_start with
       | Some e, Some s => if e >? s then e - s else 0
       | _, _ => 0
       end;
     PlayerStats.total_career_days := total_days;
     PlayerStats.avg_stint_duration_days :=
       Qmake total_days (Pos.of_nat (List.length player_stints));
     PlayerStats.is_active := String.eqb (Player.status player_info) "Active";
     PlayerStats.has_current_team :=
       negb (String.eqb (Player.current_team player_info) "");
     PlayerStats.inactive_stints := count_status "Inactive" player_stints;
     PlayerStats.loan_stints := count_status "Loan" player_stints;
     PlayerStats.standin_stints := count_status "Stand-in" player_stints;
     PlayerStats.roles := Player.roles player_info;
     PlayerStats.birth_date := Player.birth_date player_info;
     PlayerStats.player_url := Player.player_url player_info |}.

(** [self.players_df[self.players_df['player_id'] == player_id].iloc[0]] *)
Definition player_info_of (players_df : list Player.t) (player_id : string)
  : result Player.t :=
  match filter (fun p => String.eqb (Player.player_id p) player_id) players_df with
  | p :: _ => Ok p
  | [] => Raise IndexError
  end.

Definition stats_step (players_df : list Player.t) (df : DataFrame Stint.t)
    (stats : list PlayerStats.t) (player_id : string) : result (list PlayerStats.t) :=
  _ <- require df [ "player_id" ] ;;
  let player_stints := select_player player_id (rows df) in
  player_info <- player_info_of players_df player_id ;;
  _ <- require df [ "team"; "date_start"; "date_end"; "year_start";
                    "year_end"; "duration_days"; "stint_status" ] ;;
  Ok (stats ++ [stats_row player_info player_id player_stints])%list.

Definition build_player_stats_table (players_df : list Player.t)
    (career_stints_df : DataFrame Stint.t) : result (DataFrame PlayerStats.t) :=
  ids <- column career_stints_df "player_id" Stint.player_id ;;
  stats <- foldM (stats_step players_df career_stints_df) (unique ids) [] ;;
  Ok (pd_DataFrame PlayerStats.keys stats).

End Builder.

(** ** [DatabaseCleaner] *)

Module Cleaner.

Import Re.

(** [(?:st|nd|rd|th)] *)
Definition ordinal_suffix : regex :=
  alts [lit "st"; lit "nd"; lit "rd"; lit "th"].

(** [\d+(?:st|nd|rd|th)] *)
Definition placement : regex := Cat (Plus (Class CDigit)) ordinal_suffix.

(** [self.fake_team_patterns], each pattern without its anchors. *)
Definition fake_team_patterns : list regex :=
  [ lit "S-Tier"; lit "A-Tier"; lit "B-Tier"; lit "C-Tier"; lit "D-Tier";
    placement;
    Cat placement
      (Cat (Star (Class CSpace))
         (Cat (lit "-") (Cat (Star (Class CSpace)) placement)));
    lit "Retired"; lit "Inactive"; lit "Active";
    lit "Qualifier"; lit "Showmatch";
    lit "TBD"; lit "TBA"; lit "Unknown";
    lit "N/A"; lit "None"; Star (Class CSpace);
    Plus (Class CDigit) ].

(** [self.fake_teams_exact] *)
Definition fake_teams_exact : list string :=
  [ "S-Tier"; "A-Tier"; "B-Tier"; "C-Tier"; "D-Tier";
    "Retired"; "Inactive"; "Active";
    "Qualifier"; "Qualifiers"; "Showmatch";
    "1st"; "2nd"; "3rd"; "4th"; "5th"; "6th"; "7th"; "8th";
    "3rd - 4th"; "5th - 6th"; "7th - 8th";
    "TBD"; "TBA"; "Unknown"; "N/A"; "None" ].

Definition is_fake_team (team_name : string) : bool :=
  if negb (Py.truthy team_name) || negb (Py.truthy (Py.strip team_name)) then true
  else
    let team := Py.strip team_name in
    if mem team fake_teams_exact then true
    else existsb (fun pattern => match_anchored true pattern team)
                 fake_team_patterns.

(** [removed / original_count * 100] inside the progress message: the
    division raises on an empty table. *)
Definition percent_removed (removed original_count : nat) : result Q :=
  match original_count with
  | O => Raise ZeroDivisionError
  | S _ =>
      Ok (Qmult (Qmake (Z.of_nat removed) (Pos.of_nat original_count))
                (inject_Z 100))
  end.

Definition real_stint (s : Stint.t) : bool := negb (is_fake_team (Stint.team s)).

Definition clean_stints (stints_df : DataFrame Stint.t) : result (DataFrame Stint.t) :=
  let original_count := List.length (rows stints_df) in
  _ <- column stints_df "team" Stint.team ;;
  let stints_df_clean :=
    {| columns := columns stints_df;
       rows := filter real_stint (rows stints_df) |} in
  let removed := (original_count - List.length (rows stints_df_clean))%nat in
  _ <- percent_removed removed original_count ;;
  Ok stints_df_clean.

Definition real_transition (t : Transition.t) : bool :=
  negb (is_fake_team (Transition.from_team t))
  && negb (is_fake_team (Transition.to_team t)).

Definition clean_transitions (transitions_df : DataFrame Transition.t)
  : result (DataFrame Transition.t) :=
  let original_count := List.length (rows transitions_df) in
  _ <- column transitions_df "from_team" Transition.from_team ;;
  _ <- column transitions_df "to_team" Transition.to_team ;;
  let transitions_df_clean :=
    {| columns := columns transitions_df;
       rows := filter real_transition (rows transitions_df) |} in
  let removed := (original_count - List.length (rows transitions_df_clean))%nat in
  _ <- percent_removed removed original_count ;;
  Ok transitions_df_clean.

(** [original.get(name, '')]: the value when the original statistics have
    the column, the default otherwise. *)
Definition original_get (original_stats_df : DataFrame PlayerStats.t)
    (name value : string) : string :=
  if has_column original_stats_df name then value else "".

(** The dictionary appended by [recalculate_player_stats] for one player:
    the identity fields are copied from the original statistics row, the
    aggregates are computed from the player's cleaned stints. *)
Definition recalculated_row (original_stats_df : DataFrame PlayerStats.t)
    (original : PlayerStats.t) (player_id : string)
    (player_stints : list Stint.t) : PlayerStats.t :=
  let total_teams := Z.of_nat (List.length player_stints) in
  let unique_teams :=
    Z.of_nat (List.length (unique (map Stint.team player_stints))) in
  let year_start :=
    Builder.series_year Z.min (map Stint.year_start player_stints) in
  let year_end :=
    Builder.series_year Z.max (map Stint.year_end player_stints) in
  let total_days := Builder.sum_Z (map Stint.duration_days player_stints) in
  {| PlayerStats.player_id := player_id;
     PlayerStats.real_name := PlayerStats.real_name original;
     PlayerStats.country := PlayerStats.country original;
     PlayerStats.current_team := PlayerStats.current_team original;
     PlayerStats.player_status := PlayerStats.player_status original;
     PlayerStats.total_teams := total_teams;
     PlayerStats.unique_teams := unique_teams;
     PlayerStats.teams_played_multiple_times := total_teams - unique_teams;
     PlayerStats.career_start_date :=
       Builder.series_str Builder.str_min (map Stint.date_start player_stints);
     PlayerStats.career_end_date :=
       Builder.series_str Builder.str_max (map Stint.date_end player_stints);
     PlayerStats.career_start_year := year_start;
     PlayerStats.career_end_year := year_end;
     PlayerStats.career_span_years :=
       match year_end, year_start with
       | Some e, Some s => if e >? s then e - s else 0
       | _, _ => 0
       end;
     PlayerStats.total_career_days := total_days;
     PlayerStats.avg_stint_duration_days :=
       Qmake total_days (Pos.of_nat (List.length player_stints));
     PlayerStats.is_active := PlayerStats.is_active original;
     PlayerStats.has_current_team := PlayerStats.has_current_team original;
     PlayerStats.inactive_stints := Builder.count_status "Inactive" player_stints;
     PlayerStats.loan_stints := Builder.count_status "Loan" player_stints;
     PlayerStats.standin_stints := Builder.count_status "Stand-in" player_stints;
     PlayerStats.roles :=
       original_get original_stats_df "roles" (PlayerStats.roles original);
     PlayerStats.birth_date :=
       original_get original_stats_df "birth_date" (PlayerStats.birth_date original);
     PlayerStats.player_url :=
       original_get original_stats_df "player_url" (PlayerStats.player_url original) |}.

(** One iteration of the loop of [recalculate_player_stats]: a player
    without stints, or without a row in the original statistics, is passed
    over ([continue]). *)
Definition recalc_step (stints_df : DataFrame Stint.t)
    (original_stats_df : DataFrame PlayerStats.t)
    (stats : list PlayerStats.t) (player_id : string) : result (list PlayerStats.t) :=
  _ <- Builder.require stints_df [ "player_id"; "stint_number" ] ;;
  let player_stints :=
    Builder.sort_values (Builder.select_player player_id (rows stints_df)) in
  match player_stints with
  | [] => Ok stats
  | _ :: _ =>
      _ <- Builder.require original_stats_df [ "player_id" ] ;;
      match filter (fun o => String.eqb (PlayerStats.player_id o) player_id)
                   (rows original_stats_df) with
      | [] => Ok stats
      | original :: _ =>
          _ <- Builder.require stints_df
                 [ "team"; "year_start"; "year_end"; "date_start"; "date_end";
                   "duration_days"; "stint_status" ] ;;
          _ <- Builder.require original_stats_df
                 [ "real_name"; "country"; "current_team"; "player_status";
                   "is_active"; "has_current_team" ] ;;
          Ok (stats ++ [recalculated_row original_stats_df original player_id
                          player_stints])%list
      end
  end.

Definition recalculate_player_stats (stints_df : DataFrame Stint.t)
    (original_stats_df : DataFrame PlayerStats.t) : result (DataFrame PlayerStats.t) :=
  ids <- column stints_df "player_id" Stint.player_id ;;
  stats <- Builder.foldM (recalc_step stints_df original_stats_df) (unique ids) [] ;;
  Ok (pd_DataFrame PlayerStats.keys stats).

(** [clean_database] between the loading and the saving of the files: the
    three tables as loaded ([transitions_df] is [None] when its file could
    not be read), and the three cleaned tables. *)
Definition clean_database (stints_df : DataFrame Stint.t)
    (transitions_df : option (DataFrame Transition.t))
    (stats_df : DataFrame PlayerStats.t)
  : result (DataFrame Stint.t * option (DataFrame Transition.t)
            * DataFrame PlayerStats.t) :=
  stints_clean <- clean_stints stints_df ;;
  transitions_clean <-
    match transitions_df with
    | Some t => t' <- clean_transitions t ;; Ok (Some t')
    | None => Ok None
    end ;;
  stats_clean <- recalculate_player_stats stints_clean stats_df ;;
  Ok (stints_clean, transitions_clean, stats_clean).

End Cleaner.

(** ** [merge_databases] *)

Module Merger.

(** [DataFrame.drop_duplicates(subset=['player_id'], keep='first')]: a row
    is dropped when an earlier row has its [player_id]. *)
Fixpoint drop_duplicates_from (seen : list string) (l : list Player.t) : list Player.t :=
  match l with
  | [] => []
  | p :: r =>
      if mem (Player.player_id p) seen
      then drop_duplicates_from seen r
      else p :: drop_duplicates_from (Player.player_id p :: seen) r
  end.

Definition drop_duplicates (l : list Player.t) : list Player.t :=
  drop_duplicates_from [] l.

(** [pd.concat([main_df, supp_df], ignore_index=True)] followed by the
    removal of duplicates. *)
Definition merge_databases (main_df supp_df : list Player.t) : list Player.t :=
  let combined_df := (main_df ++ supp_df)%list in
  drop_duplicates combined_df.

End Merger.

(** ** [get_player_details]: how a scraped career is stored *)

Module Details.

(** The keys ['career_history'] and ['teams_count'] of the details:
    [json.dumps(career) if career else None] and [len(career)].  The text
    written by [json.dumps] for a list of records with string values decodes
    to that list. *)
Definition career_history_of (career : list (list (string * string))) : career_cell :=
  match career with
  | [] => Absent
  | _ :: _ => Career (map Entry career)
  end.

(** [player.update(details)] for these two keys. *)
Definition update_career (player : Player.t) (career : list (list (string * string)))
  : Player.t :=
  {| Player.player_id := Player.player_id player;
     Player.real_name := Player.real_name player;
     Player.country := Player.country player;
     Player.current_team := Player.current_team player;
     Player.status := Player.status player;
     Player.career_history := career_history_of career;
     Player.teams_count := Some (Z.of_nat (List.length career));
     Player.roles := Player.roles player;
     Player.birth_date := Player.birth_date player;
     Player.player_url := Player.player_url player |}.

End Details.

(** ** [AdvancedLiquipediaScraper.scrape_with_filters]: the filters *)

Module Advanced.



End Advanced.

(** ** [TeamLogoScraper]: page addresses and file names *)

Module Logo.

Definition base_url : string := "https://liquipedia.net".

(** [\w] on the ASCII range *)
Definition is_word (c : ascii) : bool :=
  Py.is_digit c || Py.is_upper c || Py.is_lower c || Ascii.eqb c "_".

(** [re.sub(r'[^\w\s-]', '', s)] *)
Fixpoint sub_special (s : string) : string :=
  match s with
  | EmptyString => EmptyString
  | String c r =>
      if is_word c || Py.is_space c || Ascii.eqb c "-"
      then String c (sub_special r)
      else sub_special r
  end.

(** [s.replace(' ', '_')] *)
Fixpoint replace_spaces (s : string) : string :=
  match s with
  | EmptyString => EmptyString
  | String c r =>
      String (if Ascii.eqb c " " then "_"%char else c) (replace_spaces r)
  end.

Definition get_team_page_url (team_name : string) : string :=
  let clean_name := Py.strip team_name in
  let url_name := replace_spaces clean_name in
  let url_name := sub_special url_name in
  base_url ++ "/valorant/" ++ url_name.

(** The name [safe_name] in [download_logo], to which the extension is
    added. *)
Definition safe_name (team_name : string) : string :=
  let safe_name := sub_special team_name in
  replace_spaces safe_name.

End Logo.

(** ** [tier1_filter.py] *)

Module Tier1.

(** [TIER_1_TEAMS_LOWER]: the lower-cased names of [TIER_1_TEAMS], the
    repeated ones written once. *)
Definition TIER_1_TEAMS_LOWER : list string :=
  [ "sentinels"; "cloud9"; "100 thieves"; "evil geniuses"; "nrg"; "furia";
    "loud"; "leviatán"; "krü esports"; "mibr"; "g2 esports"; "envy";
    "team envy";
    "fnatic"; "team liquid"; "navi"; "team vitality"; "giants gaming";
    "giantx"; "karmine corp"; "koi"; "bbl esports"; "fut esports";
    "gentle mates"; "pcific esports"; "team heretics"; "heretics";
    "paper rex"; "drx"; "t1"; "gen.g"; "global esports"; "team secret";
    "talon esports"; "rex regum qeon"; "zeta division"; "detonation focusme";
    "boom esports"; "nongshim redforce"; "nongshim"; "ns redforce";
    "edward gaming"; "funplus phoenix"; "attacking soul esports";
    "bilibili gaming"; "jd gaming"; "trace esports"; "dragon ranger gaming";
    "nova esports";
    "optic gaming"; "the guard"; "xset"; "fpx"; "m3 champions"; "acend";
    "gambit esports"; "guild esports";
    "nrg esports"; "fnc"; "tl"; "vit";
    "prx"; "edg"; "blg"; "te"; "tec"; "kc"; "gia"; "gia gaming";
    "g2"; "th"; "boom"; "ns"; "nv" ].

Definition is_tier_1_team (team_name : string) : bool :=
  if negb (Py.truthy team_name) then false
  else
    let team_lower := Py.strip (Py.lower team_name) in
    if mem team_lower TIER_1_TEAMS_LOWER then true
    else existsb (fun tier1_team =>
                    Py.contains tier1_team team_lower
                    || Py.contains team_lower tier1_team)
                 TIER_1_TEAMS_LOWER.

(** A record of [tier_1_players]: the player's row with the two added
    keys.  [list(set(player_tier_1_teams))] lists each team once, in an
    order that depends on the hash values; the order of first appearance
    stands for it here. *)
Record row : Type := mk_row {
  player : Player.t;
  tier_1_teams : list string;
  tier_1_teams_count : Z
}.

(** [for entry in career] inside the [try] block: the teams found before
    an exception stay in [player_tier_1_teams]. *)
Fixpoint career_loop (entries : list raw_entry) (player_tier_1_teams : list string)
  : list string * option exn :=
  match entries with
  | [] => (player_tier_1_teams, None)
  | NotADict :: _ => (player_tier_1_teams, Some AttributeError)
  | Entry e :: more =>
      let team := Py.dict_get e "team" "" in
      career_loop more
        (if is_tier_1_team team then (player_tier_1_teams ++ [team])%list
         else player_tier_1_teams)
  end.

(** The list [player_tier_1_teams] at the end of one iteration over the
    players. *)
Definition player_tier_1_teams (p : Player.t) : list string :=
  let from_current :=
    if is_tier_1_team (Player.current_team p) then [Player.current_team p] else [] in
  match Player.career_history p with
  | Absent => from_current
  | Invalid _ => from_current
  | Career entries => fst (career_loop entries from_current)
  end.

Definition player_step (tier_1_players : list row) (p : Player.t) : list row :=
  match player_tier_1_teams p with
  | [] => tier_1_players
  | teams =>
      (tier_1_players ++
       [ {| player := p;
            tier_1_teams := unique teams;
            tier_1_teams_count := Z.of_nat (List.length (unique teams)) |} ])%list
  end.

(** [len(tier_1_df)/len(df)*100] inside the progress message. *)
Definition percent_of_total (found total : nat) : result Q :=
  match total with
  | O => Raise ZeroDivisionError
  | S _ => Ok (Qmult (Qmake (Z.of_nat found) (Pos.of_nat total)) (inject_Z 100))
  end.

(** [filter_tier_1_players] between the loading and the saving of the
    files: the records of the table it returns. *)
Definition filter_tier_1_players (df : list Player.t) : result (list row) :=
  let tier_1_players := fold_left player_step df [] in
  _ <- percent_of_total (List.length tier_1_players) (List.length df) ;;
  Ok tier_1_players.

End Tier1.

(** ** [career_analyzer.py] *)

Module Expanded.
Record t : Type := mk {
  player_id : string;
  real_name : string;
  country : string;
  current_team : string;
  player_status : string;
  total_teams : Z;
  date_start : string;
  date_end : string;
  date_range : string;
  team : string;
  team_status : string
}.

Definition keys : list string :=
  [ "player_id"; "real_name"; "country"; "current_team"; "player_status";
    "total_teams"; "date_start"; "date_end"; "date_range"; "team";
    "team_status" ].
End Expanded.

Module Analyzer.

(** The dictionary appended to [expanded_rows] for one element of the
    career.  [player['teams_count']] raises [KeyError] when the players
    table has no such column, and is evaluated before [entry.get]. *)
Definition expanded_row (player : Player.t) (entry : raw_entry) : result Expanded.t :=
  match Player.teams_count player with
  | None => Raise (KeyError "teams_count")
  | Some total_teams =>
      match entry with
      | NotADict => Raise AttributeError
      | Entry e =>
          Ok {| Expanded.player_id := Player.player_id player;
                Expanded.real_name := Player.real_name player;
                Expanded.country := Player.country player;
                Expanded.current_team := Player.current_team player;
                Expanded.player_status := Player.status player;
                Expanded.total_teams := total_teams;
                Expanded.date_start := Py.dict_get e "date_start" "";
                Expanded.date_end := Py.dict_get e "date_end" "";
                Expanded.date_range := Py.dict_get e "date_range" "";
                Expanded.team := Py.dict_get e "team" "";
                Expanded.team_status := Py.dict_get e "status" "Active" |}
      end
  end.

(** [for entry in career] inside the [try] block, whose handler is
    [pass]. *)
Fixpoint career_loop (player : Player.t) (entries : list raw_entry)
    (expanded_rows : list Expanded.t) : list Expanded.t * option exn :=
  match entries with
  | [] => (expanded_rows, None)
  | entry :: more =>
      match expanded_row player entry with
      | Ok row => career_loop player more (expanded_rows ++ [row])%list
      | Raise e => (expanded_rows, Some e)
      end
  end.

Definition player_step (expanded_rows : list Expanded.t) (player : Player.t)
  : list Expanded.t :=
  match Player.career_history player with
  | Absent => expanded_rows
  | Invalid _ => expanded_rows
  | Career entries => fst (career_loop player entries expanded_rows)
  end.

(** [parse_career_history_file] after the loading of the file: the pair
    [(df, expanded_df)]. *)
Definition parse_career_history_file (df : list Player.t)
  : list Player.t * DataFrame Expanded.t :=
  (df, pd_DataFrame Expanded.keys (fold_left player_step df [])).

End Analyzer.

(** ** Sample data *)

Module Sample.

Definition now : Date.t := Date.mk 2026 11 3.

Definition player (player_id : string) (career : career_cell) : Player.t :=
  {| Player.player_id := player_id;
     Player.real_name := "";
     Player.country := "France";
     Player.current_team := "";
     Player.status := "Active";
     Player.career_history := career;
     Player.teams_count := None;
     Player.roles := "";
     Player.birth_date := "";
     Player.player_url := "" |}.

Definition entry_A : raw_entry :=
  Entry (Scraper.history_entry "2019-01-10 — 2019-06-01" "Team A").
Definition entry_B : raw_entry :=
  Entry (Scraper.history_entry "2019-06-02 — 2019-06-09" "S-Tier").
Definition entry_C : raw_entry :=
  Entry (Scraper.history_entry "2019-06-10 — Present" "Team C (Loan)").

(** A player whose middle stint is a tournament tier. *)
Definition noisy_middle : list Player.t :=
  [ player "p1" (Career [entry_A; entry_B; entry_C]) ].

(** A player whose second career element is JSON [null]. *)
Definition broken_middle : list Player.t :=
  [ player "p1" (Career [entry_A; NotADict; entry_C]);
    player "p2" (Career [entry_A]) ].

(** A player whose only entry has a single date. *)
Definition single_date : list Player.t :=
  [ player "p1" (Career [Entry (Scraper.history_entry "2020-04-13" "Team X")]) ].

Definition no_career : list Player.t := [ player "p1" Absent ].

Definition batch_1 : list Player.t := [ player "p1" Absent ].
Definition batch_2 : list Player.t :=
  [ player "p1" (Career [entry_A]); player "p2" Absent ].

(** A player whose last stint is a tournament tier. *)
Definition noisy_last : list Player.t :=
  [ player "p1" (Career [entry_A; entry_C; entry_B]) ].

End Sample.

(** ** Notions used in the statements *)

(** The decoded records before the first element that is not one. *)
Fixpoint good_prefix (entries : list raw_entry) : list (list (string * string)) :=
  match entries with
  | Entry e :: more => e :: good_prefix more
  | _ => []
  end.

(** The rows of consecutive records, numbered from [stint_num] with
    identifiers from [stint_id]. *)
Fixpoint rows_from (now : Date.t) (player : Player.t) (career_len stint_id stint_num : Z)
    (es : list (list (string * string))) : list Stint.t :=
  match es with
  | [] => []
  | e :: more =>
      Builder.stint_row now player career_len stint_id stint_num e
      :: rows_from now player career_len (stint_id + 1) (stint_num + 1) more
  end.

(** What one player adds to the table when the counter stands at [stint_id]. *)
Definition player_rows (now : Date.t) (player : Player.t) (stint_id : Z) : list Stint.t :=
  match Player.career_history player with
  | Career entries =>
      rows_from now player (Z.of_nat (List.length entries)) stint_id 1
        (good_prefix entries)
  | _ => []
  end.

Fixpoint table_from (now : Date.t) (stint_id : Z) (players : list Player.t) : list Stint.t :=
  match players with
  | [] => []
  | p :: more =>
      (player_rows now p stint_id ++
       table_from now (stint_id + Z.of_nat (List.length (player_rows now p stint_id))) more)%list
  end.

(** A row with its [stint_id] replaced. *)
Definition with_id (k : Z) (s : Stint.t) : Stint.t :=
  {| Stint.stint_id := k;
     Stint.player_id := Stint.player_id s;
     Stint.real_name := Stint.real_name s;
     Stint.country := Stint.country s;
     Stint.current_team := Stint.current_team s;
     Stint.player_status := Stint.player_status s;
     Stint.stint_number := Stint.stint_number s;
     Stint.total_stints := Stint.total_stints s;
     Stint.team := Stint.team s;
     Stint.date_start := Stint.date_start s;
     Stint.date_end := Stint.date_end s;
     Stint.date_range := Stint.date_range s;
     Stint.stint_status := Stint.stint_status s;
     Stint.is_current_team := Stint.is_current_team s;
     Stint.duration_days := Stint.duration_days s;
     Stint.year_start := Stint.year_start s;
     Stint.year_end := Stint.year_end s;
     Stint.roles := Stint.roles s;
     Stint.player_url := Stint.player_url s |}.

(** The property asked of the builder by the specification: every
    well-formed element of every career list has its stint in the table. *)
Definition every_wellformed_entry_emitted (now : Date.t) (players : list Player.t) : Prop :=
  forall p entries e,
    In p players ->
    Player.career_history p = Career entries ->
    In (Entry e) entries ->
    exists s,
      In s (rows (Builder.build_career_stints_table now players)) /\
      Stint.player_id s = Player.player_id p /\
      Stint.team s = Py.dict_get e "team" "" /\
      Stint.date_range s = Py.dict_get e "date_range" "".

(** The stints and the transitions of one player. *)
Definition n_stints (player_id : string) (l : list Stint.t) : nat :=
  List.length (Builder.select_player player_id l).

Definition transitions_of_player (player_id : string) (l : list Transition.t)
  : list Transition.t :=
  filter (fun t => String.eqb (Transition.player_id t) player_id) l.

Definition n_transitions (player_id : string) (l : list Transition.t) : nat :=
  List.length (transitions_of_player player_id l).

(** Stint numbers that run 1, 2, 3, ... without a gap. *)
Definition gap_free (numbers : list Z) : Prop :=
  numbers = map Z.of_nat (seq 1 (List.length numbers)).

Definition both_real (p : Stint.t * Stint.t) : bool :=
  Cleaner.real_stint (fst p) && Cleaner.real_stint (snd p).

(** The transitions appended for one player, numbered from [tid]. *)
Fixpoint transitions_of (player_id : string) (tid : Z) (pairs : list (Stint.t * Stint.t))
  : list Transition.t :=
  match pairs with
  | [] => []
  | p :: more =>
      Builder.transition_row tid player_id (fst p) (snd p)
      :: transitions_of player_id (tid + 1) more
  end.

Definition player_pairs (player_id : string) (stints : list Stint.t)
  : list (Stint.t * Stint.t) :=
  Builder.adjacent (Builder.sort_values (Builder.select_player player_id stints)).

Fixpoint all_transitions (stints : list Stint.t) (tid : Z) (ids : list string)
  : list Transition.t :=
  match ids with
  | [] => []
  | x :: more =>
      (transitions_of x tid (player_pairs x stints) ++
       all_transitions stints (tid + Z.of_nat (List.length (player_pairs x stints))) more)%list
  end.

(** The invariant asked of the cleaned tables by the specification. *)
Definition transition_count_invariant (stints : list Stint.t)
    (transitions : list Transition.t) : Prop :=
  forall player_id,
    Z.of_nat (n_transitions player_id transitions) =
    Z.max 0 (Z.of_nat (n_stints player_id stints) - 1).

(** A run of four decimal digits. *)
Definition year_text (d : string) : Prop :=
  String.length d = 4%nat /\ Py.all_chars Py.is_digit d = true.

(** The characters of a text that [strptime] accepts for ['%Y-%m-%d']. *)
Definition plain (c : ascii) : bool :=
  Py.is_digit c || Ascii.eqb c "-" || Ascii.eqb c " ".

(** An alternative that consumes only plain characters. *)
Definition consumes_plain (f : string -> option (Z * string)) : Prop :=
  forall s v r, f s = Some (v, r) ->
    exists pre, s = pre ++ r /\ Py.all_chars plain pre = true.

(** A text of the shape [YYYY-MM-DD]. *)
Definition iso_text (d : string) : Prop :=
  exists y m dd,
    d = y ++ "-" ++ m ++ "-" ++ dd /\
    String.length y = 4%nat /\ String.length m = 2%nat /\ String.length dd = 2%nat /\
    Py.all_chars Py.is_digit y = true /\
    Py.all_chars Py.is_digit m = true /\
    Py.all_chars Py.is_digit dd = true.

Definition not_lparen (c : ascii) : bool := negb (Ascii.eqb c "(").

(** The records of a player's career that the builder turns into stints. *)
Definition career_records (p : Player.t) : list (list (string * string)) :=
  match Player.career_history p with
  | Career entries => good_prefix entries
  | _ => []
  end.


(** The order of [sort_values('stint_number')]. *)
Definition number_le (a b : Stint.t) : Prop :=
  Stint.stint_number a <= Stint.stint_number b.

(** What [recalculate_player_stats] says of a row it appends for [x]. *)
Definition recalculated_for (sdf : DataFrame Stint.t) (odf : DataFrame PlayerStats.t)
    (r : PlayerStats.t) : Prop :=
  exists x o rest,
    filter (fun o => String.eqb (PlayerStats.player_id o) x) (rows odf) = o :: rest /\
    Builder.select_player x (rows sdf) <> [] /\
    r = Cleaner.recalculated_row odf o x
          (Builder.sort_values (Builder.select_player x (rows sdf))).

(** A text written in ASCII, the range on which [str.lower] and
    [str.strip] are modelled exactly. *)
Definition ascii_text (s : string) : bool :=
  Py.all_chars (fun c => (Py.code c <? 128)%N) s.

(** A player with tier 1 experience: the current team, or the team of a
    career record read before the first element that is not a record. *)
Definition has_tier_1_experience (p : Player.t) : bool :=
  Tier1.is_tier_1_team (Player.current_team p)
  || existsb (fun e => Tier1.is_tier_1_team (Py.dict_get e "team" ""))
       (career_records p).

(** The analyzer's row for a stint of the builder. *)
Definition expanded_of_stint (s : Stint.t) : Expanded.t :=
  {| Expanded.player_id := Stint.player_id s;
     Expanded.real_name := Stint.real_name s;
     Expanded.country := Stint.country s;
     Expanded.current_team := Stint.current_team s;
     Expanded.player_status := Stint.player_status s;
     Expanded.total_teams := Stint.total_stints s;
     Expanded.date_start := Stint.date_start s;
     Expanded.date_end := Stint.date_end s;
     Expanded.date_range := Stint.date_range s;
     Expanded.team := Stint.team s;
     Expanded.team_status := Stint.stint_status s |}.

(** The characters left in a file name: word characters, the hyphen and
    white space other than the space. *)
Definition file_name_char (c : ascii) : bool :=
  Logo.is_word c || Ascii.eqb c "-" || (Py.is_space c && negb (Ascii.eqb c " ")).

(** * Properties *)

(** ** Membership tests on lists of strings *)

Lemma mem_In (x : string) (l : list string) : mem x l = true <-> In x l.
Proof.
  unfold mem. rewrite existsb_exists. split.
  - intros [y [Hy Heq]]. apply String.eqb_eq in Heq. now subst.
  - intros H. exists x. split; [assumption | apply String.eqb_refl].
Qed.

Lemma mem_false_In (x : string) (l : list string) : mem x l = false <-> ~ In x l.
Proof.
  rewrite <- mem_In. destruct (mem x l); split; congruence.
Qed.

Lemma mem_app (x : string) (a b : list string) :
  mem x (a ++ b) = mem x a || mem x b.
Proof. unfold mem. apply existsb_app. Qed.

Lemma mem_cons (x a : string) (l : list string) :
  mem x (a :: l) = String.eqb x a || mem x l.
Proof. reflexivity. Qed.

(** Two "seen" lists with the same members, compared at [x]. *)
Ltac mem_same :=
  rewrite ?mem_app, ?mem_cons, ?mem_app;
  repeat match goal with
    | |- context [String.eqb ?x ?y] =>
        let E := fresh "E" in
        destruct (String.eqb x y) eqn:E;
        [apply String.eqb_eq in E; subst |]
    end;
  repeat match goal with
    | H : mem _ _ = _ |- _ => rewrite H
    end;
  cbn [orb];
  repeat match goal with
    | |- context [mem ?x ?l] => destruct (mem x l)
    end;
  reflexivity.

(** ** The noise classifier *)

Lemma strip_empty_of_falsy (s : string) :
  Py.truthy s = false -> Py.strip s = "".
Proof. destruct s; [reflexivity | discriminate]. Qed.

Lemma truthy_false_iff (s : string) : Py.truthy s = false <-> s = "".
Proof. destruct s; split; intros H; try reflexivity; discriminate. Qed.

(** C8: the noise classifier maps every string to exactly one boolean (it
    is a total function, no input raises), it is [True] exactly on blank
    names, names of the exact denylist and names matching a denylist
    pattern, and it takes the four stated values. *)
Theorem is_fake_team_total_and_points :
  (forall s : string, exists! b : bool, Cleaner.is_fake_team s = b) /\
  (forall s : string,
      Cleaner.is_fake_team s = true <->
      Py.strip s = "" \/
      In (Py.strip s) Cleaner.fake_teams_exact \/
      exists pattern, In pattern Cleaner.fake_team_patterns /\
                      Re.match_anchored true pattern (Py.strip s) = true) /\
  Cleaner.is_fake_team "S-Tier" = true /\
  Cleaner.is_fake_team "3rd - 4th" = true /\
  Cleaner.is_fake_team "Sentinels" = false /\
  Cleaner.is_fake_team "" = true.
Proof.
  split; [| split].
  - intros s. exists (Cleaner.is_fake_team s). split; [reflexivity | auto].
  - intros s. unfold Cleaner.is_fake_team.
    destruct (Py.truthy s) eqn:Hs; cbn [negb orb].
    + destruct (Py.truthy (Py.strip s)) eqn:Hst; cbn [negb orb].
      * destruct (mem (Py.strip s) Cleaner.fake_teams_exact) eqn:Hex.
        -- split; [intros _ | reflexivity].
           right; left. now apply mem_In.
        -- rewrite existsb_exists. split.
           ++ intros H. right; right. exact H.
           ++ intros [H | [H | H]].
              ** rewrite H in Hst. discriminate.
              ** apply mem_In in H. congruence.
              ** exact H.
      * split; [intros _ | reflexivity].
        left. now apply truthy_false_iff.
    + split; [intros _ | reflexivity].
      left. now apply strip_empty_of_falsy.
  - repeat split; vm_compute; reflexivity.
Qed.

(** ** The merger *)

Section Dedup.

Import Merger.

Let pid := Player.player_id.

Lemma drop_from_ext (l : list Player.t) :
  forall s1 s2, (forall x, mem x s1 = mem x s2) ->
    drop_duplicates_from s1 l = drop_duplicates_from s2 l.
Proof.
  induction l as [| p r IH]; intros s1 s2 Hext; cbn [drop_duplicates_from];
    [reflexivity |].
  rewrite (Hext (Player.player_id p)).
  destruct (mem (Player.player_id p) s2).
  - now apply IH.
  - f_equal. apply IH. intros x. rewrite !mem_cons. now rewrite Hext.
Qed.

Lemma drop_from_filter (l : list Player.t) :
  forall s t,
    drop_duplicates_from (t ++ s) l =
    filter (fun p => negb (mem (pid p) t)) (drop_duplicates_from s l).
Proof.
  induction l as [| p r IH]; intros s t; cbn [drop_duplicates_from];
    [reflexivity |].
  rewrite mem_app.
  destruct (mem (Player.player_id p) s) eqn:Hs.
  - rewrite orb_true_r. apply IH.
  - rewrite orb_false_r. cbn [filter]. unfold pid at 1.
    destruct (mem (Player.player_id p) t) eqn:Ht; cbn [negb].
    + rewrite <- IH. apply drop_from_ext. intros x. mem_same.
    + f_equal. rewrite <- IH. apply drop_from_ext. intros x. mem_same.
Qed.

Lemma drop_from_app (l1 l2 : list Player.t) :
  forall s,
    drop_duplicates_from s (l1 ++ l2) =
    (drop_duplicates_from s l1 ++ drop_duplicates_from (map pid l1 ++ s) l2)%list.
Proof.
  induction l1 as [| p r IH]; intros s; cbn [drop_duplicates_from app map];
    [reflexivity |].
  destruct (mem (Player.player_id p) s) eqn:Hs.
  - rewrite IH. f_equal. apply drop_from_ext. intros x. unfold pid. mem_same.
  - cbn [app]. f_equal. rewrite IH. f_equal. apply drop_from_ext.
    intros x. unfold pid. mem_same.
Qed.

Lemma drop_from_ids (l : list Player.t) :
  forall s x, In x (map pid (drop_duplicates_from s l)) <->
              In x (map pid l) /\ ~ In x s.
Proof.
  induction l as [| p r IH]; intros s x; simpl; [tauto |].
  destruct (mem (Player.player_id p) s) eqn:Hs.
  - rewrite IH. apply mem_In in Hs. split.
    + tauto.
    + intros [[H | H] Hn]; [subst; contradiction | tauto].
  - apply mem_false_In in Hs. simpl. rewrite IH. simpl. split.
    + intros [H | [H Hn]]; [subst; tauto | tauto].
    + intros [[H | H] Hn]; [tauto |].
      destruct (string_dec (pid p) x); [tauto |]. right. tauto.
Qed.

Lemma drop_from_NoDup (l : list Player.t) :
  forall s, NoDup (map pid (drop_duplicates_from s l)).
Proof.
  induction l as [| p r IH]; intros s; simpl; [constructor |].
  destruct (mem (Player.player_id p) s); [apply IH |].
  simpl. constructor; [| apply IH].
  rewrite drop_from_ids. simpl. tauto.
Qed.

Lemma drop_from_find (l : list Player.t) (x : string) :
  forall s, ~ In x s ->
    find (fun p => String.eqb (pid p) x) (drop_duplicates_from s l) =
    find (fun p => String.eqb (pid p) x) l.
Proof.
  induction l as [| p r IH]; intros s Hx; simpl; [reflexivity |].
  destruct (mem (Player.player_id p) s) eqn:Hs.
  - destruct (String.eqb (pid p) x) eqn:Hp.
    + apply String.eqb_eq in Hp. apply mem_In in Hs. unfold pid in Hp.
      subst x. contradiction.
    + now apply IH.
  - simpl. destruct (String.eqb (pid p) x) eqn:Hp; [reflexivity |].
    apply IH. simpl. intros [H | H]; [| contradiction].
    unfold pid in Hp. rewrite H in Hp. rewrite String.eqb_refl in Hp. discriminate.
Qed.

Lemma drop_from_fixed (l : list Player.t) :
  forall s, NoDup (map pid l) -> (forall x, In x (map pid l) -> ~ In x s) ->
    drop_duplicates_from s l = l.
Proof.
  induction l as [| p r IH]; intros s Hnd Hdis; simpl; [reflexivity |].
  inversion Hnd as [| ? ? Hnotin Hnd']; subst.
  assert (Hs : mem (Player.player_id p) s = false).
  { apply mem_false_In. apply Hdis. now left. }
  rewrite Hs. f_equal. apply IH; [assumption |].
  intros x Hx [H | H].
  - subst x. contradiction.
  - apply (Hdis x); [now right | assumption].
Qed.

Lemma filter_none {A : Type} (f : A -> bool) (l : list A) :
  (forall a, In a l -> f a = false) -> filter f l = [].
Proof.
  induction l as [| a r IH]; intros H; simpl; [reflexivity |].
  rewrite (H a (or_introl eq_refl)). apply IH. intros b Hb. apply H. now right.
Qed.

End Dedup.

(** C9: the merged collection has no duplicate [player_id]; it is the first
    collection (without its own later duplicates) followed by the rows of the
    second one whose [player_id] the first does not have, so the record found
    under a [player_id] is the first one of the concatenation; merging a
    collection with itself gives back its [player_id]s and records, and the
    collection itself when its [player_id]s are distinct. *)
Theorem merge_first_seen_wins_and_self_merge :
  forall main_df supp_df : list Player.t,
    NoDup (map Player.player_id (Merger.merge_databases main_df supp_df)) /\
    Merger.merge_databases main_df supp_df =
      (Merger.drop_duplicates main_df ++
       filter (fun p => negb (mem (Player.player_id p) (map Player.player_id main_df)))
              (Merger.drop_duplicates supp_df))%list /\
    (forall x,
        find (fun p => String.eqb (Player.player_id p) x)
             (Merger.merge_databases main_df supp_df) =
        find (fun p => String.eqb (Player.player_id p) x) (main_df ++ supp_df)%list) /\
    (forall x,
        In x (map Player.player_id (Merger.merge_databases main_df main_df)) <->
        In x (map Player.player_id main_df)) /\
    (forall x,
        find (fun p => String.eqb (Player.player_id p) x)
             (Merger.merge_databases main_df main_df) =
        find (fun p => String.eqb (Player.player_id p) x) main_df) /\
    (NoDup (map Player.player_id main_df) ->
     Merger.merge_databases main_df main_df = main_df /\
     Merger.merge_databases main_df supp_df =
       (main_df ++
        filter (fun p => negb (mem (Player.player_id p) (map Player.player_id main_df)))
               (Merger.drop_duplicates supp_df))%list).
Proof.
  intros main_df supp_df.
  assert (Hshape : forall a b : list Player.t,
    Merger.merge_databases a b =
      (Merger.drop_duplicates a ++
       filter (fun p => negb (mem (Player.player_id p) (map Player.player_id a)))
              (Merger.drop_duplicates b))%list).
  { intros a b. unfold Merger.merge_databases, Merger.drop_duplicates.
    rewrite drop_from_app. f_equal. apply drop_from_filter. }
  assert (Hself : forall a : list Player.t,
    Merger.merge_databases a a = Merger.drop_duplicates a).
  { intros a. rewrite Hshape. rewrite filter_none; [apply app_nil_r |].
    intros p Hp. apply negb_false_iff. apply mem_In.
    apply (in_map Player.player_id) in Hp.
    unfold Merger.drop_duplicates in Hp. apply drop_from_ids in Hp. tauto. }
  repeat split.
  - apply drop_from_NoDup.
  - apply Hshape.
  - intros x. unfold Merger.merge_databases, Merger.drop_duplicates.
    apply drop_from_find. auto.
  - rewrite Hself. unfold Merger.drop_duplicates. rewrite drop_from_ids. tauto.
  - intros H. rewrite Hself. unfold Merger.drop_duplicates.
    apply drop_from_ids. simpl. tauto.
  - intros x. rewrite Hself. apply drop_from_find. auto.
  - rewrite Hself. apply drop_from_fixed; auto.
  - rewrite Hshape. f_equal. apply drop_from_fixed; auto.
Qed.

Lemma merge_first_seen_wins_and_self_merge_witness :
  NoDup (map Player.player_id Sample.batch_2) /\
  Merger.merge_databases Sample.batch_2 Sample.batch_2 = Sample.batch_2 /\
  Merger.merge_databases Sample.batch_1 Sample.batch_2 =
    [ Sample.player "p1" Absent; Sample.player "p2" Absent ].
Proof.
  assert (H1 : NoDup (map Player.player_id Sample.batch_1)).
  { repeat constructor; simpl; intuition discriminate. }
  assert (H2 : NoDup (map Player.player_id Sample.batch_2)).
  { repeat constructor; simpl; intuition discriminate. }
  split; [exact H2 |]. split.
  - exact (proj1 (proj2 (proj2 (proj2 (proj2 (proj2
      (merge_first_seen_wins_and_self_merge Sample.batch_2 Sample.batch_2))))) H2)).
  - rewrite (proj2 (proj2 (proj2 (proj2 (proj2 (proj2
      (merge_first_seen_wins_and_self_merge Sample.batch_1 Sample.batch_2))))) H1)).
    reflexivity.
Defined.

(** ** The stint builder *)

Section StintBuilder.

Variable now : Date.t.

Lemma rows_from_length (p : Player.t) (len : Z) (es : list (list (string * string))) :
  forall id num, List.length (rows_from now p len id num es) = List.length es.
Proof.
  induction es as [| e more IH]; intros id num; simpl; [reflexivity |].
  now rewrite IH.
Qed.

Lemma good_prefix_app (good : list (list (string * string))) (rest : list raw_entry) :
  good_prefix (map Entry good ++ NotADict :: rest) = good.
Proof.
  induction good as [| e more IH]; simpl; [reflexivity | now rewrite IH].
Qed.

Lemma good_prefix_all (good : list (list (string * string))) :
  good_prefix (map Entry good) = good.
Proof.
  induction good as [| e more IH]; simpl; [reflexivity | now rewrite IH].
Qed.

Lemma career_loop_rows (p : Player.t) (len : Z) (entries : list raw_entry) :
  forall num acc id,
    fst (Builder.career_loop now p len num entries (acc, id)) =
    ((acc ++ rows_from now p len id num (good_prefix entries))%list,
     id + Z.of_nat (List.length (good_prefix entries))).
Proof.
  induction entries as [| [e |] more IH]; intros num acc id.
  - simpl. now rewrite app_nil_r, Z.add_0_r.
  - cbn [Builder.career_loop Builder.make_stint fst snd good_prefix rows_from].
    rewrite IH. rewrite <- app_assoc. cbn [app List.length]. f_equal. lia.
  - simpl. now rewrite app_nil_r, Z.add_0_r.
Qed.

Lemma player_step_rows (p : Player.t) (acc : list Stint.t) (id : Z) :
  Builder.player_step now (acc, id) p =
  ((acc ++ player_rows now p id)%list,
   id + Z.of_nat (List.length (player_rows now p id))).
Proof.
  unfold Builder.player_step, player_rows.
  destruct (Player.career_history p) as [| e | entries].
  - simpl. now rewrite app_nil_r, Z.add_0_r.
  - simpl. now rewrite app_nil_r, Z.add_0_r.
  - rewrite career_loop_rows. now rewrite rows_from_length.
Qed.

Lemma fold_player_step (players : list Player.t) :
  forall acc id,
    fst (fold_left (Builder.player_step now) players (acc, id)) =
    (acc ++ table_from now id players)%list.
Proof.
  induction players as [| p more IH]; intros acc id; simpl.
  - now rewrite app_nil_r.
  - rewrite player_step_rows, IH. now rewrite app_assoc.
Qed.

Lemma build_rows (players : list Player.t) :
  rows (Builder.build_career_stints_table now players) = table_from now 1 players.
Proof.
  unfold Builder.build_career_stints_table. cbn [rows pd_DataFrame].
  now rewrite fold_player_step.
Qed.

Lemma rows_from_with_id (p : Player.t) (len : Z) (es : list (list (string * string))) (k : Z) :
  forall id id' num,
    map (with_id k) (rows_from now p len id num es) =
    map (with_id k) (rows_from now p len id' num es).
Proof.
  induction es as [| e more IH]; intros id id' num; simpl; [reflexivity |].
  f_equal. apply IH.
Qed.

Lemma player_rows_length (p : Player.t) (id id' : Z) :
  List.length (player_rows now p id) = List.length (player_rows now p id').
Proof.
  unfold player_rows. destruct (Player.career_history p); try reflexivity.
  now rewrite !rows_from_length.
Qed.

Lemma player_rows_with_id (p : Player.t) (k id id' : Z) :
  map (with_id k) (player_rows now p id) = map (with_id k) (player_rows now p id').
Proof.
  unfold player_rows. destruct (Player.career_history p); try reflexivity.
  apply rows_from_with_id.
Qed.

Lemma table_from_with_id (players : list Player.t) (k : Z) :
  forall id id',
    map (with_id k) (table_from now id players) =
    map (with_id k) (table_from now id' players).
Proof.
  induction players as [| p more IH]; intros id id'; simpl; [reflexivity |].
  rewrite !map_app. f_equal; [apply player_rows_with_id | apply IH].
Qed.

Lemma table_from_app (ps1 ps2 : list Player.t) :
  forall id,
    table_from now id (ps1 ++ ps2) =
    (table_from now id ps1 ++
     table_from now (id + Z.of_nat (List.length (table_from now id ps1))) ps2)%list.
Proof.
  induction ps1 as [| p more IH]; intros id; simpl.
  - now rewrite Z.add_0_r.
  - rewrite IH, <- app_assoc. do 3 f_equal. rewrite length_app. lia.
Qed.

Lemma rows_from_id_at (p : Player.t) (len : Z) (es : list (list (string * string))) :
  forall id num i s,
    nth_error (rows_from now p len id num es) i = Some s ->
    Stint.stint_id s = id + Z.of_nat i /\ Stint.stint_number s = num + Z.of_nat i.
Proof.
  induction es as [| e more IH]; intros id num i s H.
  - destruct i; discriminate.
  - destruct i as [| i]; simpl in H.
    + inversion H; subst. simpl. lia.
    + apply IH in H. lia.
Qed.

Lemma table_from_id_at (players : list Player.t) :
  forall id i s,
    nth_error (table_from now id players) i = Some s ->
    Stint.stint_id s = id + Z.of_nat i.
Proof.
  induction players as [| p more IH]; intros id i s H; simpl in H.
  - destruct i; discriminate.
  - destruct (Nat.lt_ge_cases i (List.length (player_rows now p id))) as [Hlt | Hge].
    + rewrite nth_error_app1 in H by assumption.
      unfold player_rows in H. destruct (Player.career_history p);
        try (destruct i; discriminate).
      apply rows_from_id_at in H. tauto.
    + rewrite nth_error_app2 in H by assumption.
      apply IH in H. lia.
Qed.

Lemma table_from_row (players : list Player.t) :
  forall id s, In s (table_from now id players) ->
    exists p len k num e,
      In p players /\ s = Builder.stint_row now p len k num e.
Proof.
  induction players as [| p more IH]; intros id s H; simpl in H; [contradiction |].
  apply in_app_or in H. destruct H as [H | H].
  - unfold player_rows in H.
    destruct (Player.career_history p) as [| x | entries]; try contradiction.
    revert H. generalize (good_prefix entries) id 1.
    intros es. induction es as [| e rest IHes]; intros k num H; [contradiction |].
    destruct H as [H | H].
    + exists p, (Z.of_nat (List.length entries)), k, num, e. split; [now left | now symmetry].
    + now apply IHes in H.
  - apply IH in H. destruct H as (q & len & k & num & e & Hq & Hs).
    exists q, len, k, num, e. split; [now right | assumption].
Qed.

End StintBuilder.

(** C3, as stated, fails: after an element that is not a record, the
    remaining entries of that player are not processed. *)
Lemma wellformed_entry_after_malformed_is_lost :
  ~ every_wellformed_entry_emitted Sample.now Sample.broken_middle.
Proof.
  intros H.
  destruct (H (Sample.player "p1" (Career [Sample.entry_A; NotADict; Sample.entry_C]))
              [Sample.entry_A; NotADict; Sample.entry_C]
              (Scraper.history_entry "2019-06-10 — Present" "Team C (Loan)"))
    as (s & Hin & _ & Hteam & _).
  - now left.
  - reflexivity.
  - right; right; now left.
  - vm_compute in Hin. destruct Hin as [Hs | [Hs | []]]; subst s;
      vm_compute in Hteam; discriminate.
Qed.

(** C3, amended: an element of the career list that is not a record ends
    the processing of that player: the entries before it give the player's
    stints, numbered from 1, and the entries after it give none; the players
    before and after contribute what they contribute on their own, and every
    row's [stint_id] is its position in the table.  The builder is a total
    function: it returns the table whatever the careers hold. *)
Theorem malformed_entry_ends_player_career :
  forall (now : Date.t) (ps1 ps2 : list Player.t) (p : Player.t)
         (good : list (list (string * string))) (rest : list raw_entry),
    Player.career_history p = Career (map Entry good ++ NotADict :: rest) ->
    let table := rows (Builder.build_career_stints_table now (ps1 ++ p :: ps2)) in
    let career_len := Z.of_nat (List.length (map Entry good ++ NotADict :: rest)) in
    map (with_id 0) table =
      (map (with_id 0) (rows (Builder.build_career_stints_table now ps1)) ++
       map (with_id 0) (rows_from now p career_len 0 1 good) ++
       map (with_id 0) (rows (Builder.build_career_stints_table now ps2)))%list /\
    (forall i s, nth_error table i = Some s -> Stint.stint_id s = 1 + Z.of_nat i) /\
    List.length table =
      (List.length (rows (Builder.build_career_stints_table now ps1)) +
       List.length good +
       List.length (rows (Builder.build_career_stints_table now ps2)))%nat.
Proof.
  intros now ps1 ps2 p good rest Hcareer table career_len.
  assert (Hshape :
    map (with_id 0) table =
      (map (with_id 0) (rows (Builder.build_career_stints_table now ps1)) ++
       map (with_id 0) (rows_from now p career_len 0 1 good) ++
       map (with_id 0) (rows (Builder.build_career_stints_table now ps2)))%list).
  { unfold table. rewrite !build_rows, table_from_app. cbn [table_from].
    rewrite !map_app. f_equal. f_equal.
    - unfold player_rows. rewrite Hcareer, good_prefix_app.
      apply rows_from_with_id.
    - apply table_from_with_id. }
  split; [exact Hshape |]. split.
  - intros i s H. unfold table in H. rewrite build_rows in H.
    now apply table_from_id_at in H.
  - apply (f_equal (@List.length Stint.t)) in Hshape.
    rewrite !length_app, !length_map, rows_from_length in Hshape. lia.
Qed.

Lemma malformed_entry_ends_player_career_witness :
  Player.career_history
    (Sample.player "p1" (Career [Sample.entry_A; NotADict; Sample.entry_C])) =
    Career (map Entry [Scraper.history_entry "2019-01-10 — 2019-06-01" "Team A"]
            ++ NotADict :: [Sample.entry_C]) /\
  List.length (rows (Builder.build_career_stints_table Sample.now Sample.broken_middle)) =
    2%nat.
Proof.
  split; [reflexivity |].
  exact (proj2 (proj2
    (malformed_entry_ends_player_career Sample.now []
       [Sample.player "p2" (Career [Sample.entry_A])]
       (Sample.player "p1" (Career [Sample.entry_A; NotADict; Sample.entry_C]))
       [Scraper.history_entry "2019-01-10 — 2019-06-01" "Team A"]
       [Sample.entry_C] eq_refl))).
Defined.

(** ** The relational deriver and the cleaner *)

(** C10: a stint table without rows has no column, so both derived-table
    builders raise [KeyError] on ['player_id'] instead of returning empty
    tables. *)
Theorem empty_stint_table_raises_KeyError :
  forall (now : Date.t) (players_df : list Player.t),
    rows (Builder.build_career_stints_table now players_df) = [] ->
    Builder.build_team_transitions_table
      (Builder.build_career_stints_table now players_df) =
      Raise (KeyError "player_id") /\
    Builder.build_player_stats_table players_df
      (Builder.build_career_stints_table now players_df) =
      Raise (KeyError "player_id").
Proof.
  intros now players_df H.
  unfold Builder.build_career_stints_table in *. cbn [rows pd_DataFrame] in H.
  rewrite H. split; reflexivity.
Qed.

Lemma empty_stint_table_raises_KeyError_witness :
  rows (Builder.build_career_stints_table Sample.now Sample.no_career) = [] /\
  Builder.build_team_transitions_table
    (Builder.build_career_stints_table Sample.now Sample.no_career) =
    Raise (KeyError "player_id") /\
  Builder.build_player_stats_table Sample.no_career
    (Builder.build_career_stints_table Sample.now Sample.no_career) =
    Raise (KeyError "player_id").
Proof.
  split; [reflexivity |].
  apply (empty_stint_table_raises_KeyError Sample.now Sample.no_career).
  reflexivity.
Defined.

Section Deriver.

Variable df : DataFrame Stint.t.
Hypothesis labelled : columns df = Stint.keys.

Lemma require_labelled (names : list string) :
  forallb (fun n => mem n Stint.keys) names = true ->
  Builder.require df names = Ok tt.
Proof.
  induction names as [| n more IH]; intros H; cbn [Builder.require]; [reflexivity |].
  cbn [forallb] in H. apply andb_prop in H. destruct H as [Hn Hmore].
  unfold has_column. rewrite labelled, Hn. now apply IH.
Qed.

Lemma transitions_of_length (x : string) (pairs : list (Stint.t * Stint.t)) :
  forall tid, List.length (transitions_of x tid pairs) = List.length pairs.
Proof.
  induction pairs as [| p more IH]; intros tid; simpl; [reflexivity | now rewrite IH].
Qed.

Lemma foldM_pair_step (x : string) (pairs : list (Stint.t * Stint.t)) :
  forall acc tid,
    Builder.foldM (Builder.pair_step df x) pairs (acc, tid) =
    Ok ((acc ++ transitions_of x tid pairs)%list, tid + Z.of_nat (List.length pairs)).
Proof.
  induction pairs as [| p more IH]; intros acc tid.
  - simpl. now rewrite app_nil_r, Z.add_0_r.
  - cbn [Builder.foldM]. unfold Builder.pair_step at 1.
    rewrite require_labelled by reflexivity.
    cbn [bind fst snd]. rewrite IH. rewrite <- app_assoc.
    cbn [app transitions_of List.length]. do 2 f_equal. lia.
Qed.

Lemma foldM_transitions_step (ids : list string) :
  forall acc tid,
    exists tid',
      Builder.foldM (Builder.transitions_step df) ids (acc, tid) =
      Ok ((acc ++ all_transitions (rows df) tid ids)%list, tid').
Proof.
  induction ids as [| x more IH]; intros acc tid.
  - exists tid. simpl. now rewrite app_nil_r.
  - cbn [Builder.foldM]. unfold Builder.transitions_step at 1.
    rewrite require_labelled by reflexivity. cbn [bind].
    rewrite foldM_pair_step. cbn [bind].
    destruct (IH (acc ++ transitions_of x tid (player_pairs x (rows df)))%list
                 (tid + Z.of_nat (List.length (player_pairs x (rows df)))))
      as [tid' Htid'].
    exists tid'. unfold player_pairs in *. rewrite Htid'.
    cbn [all_transitions]. unfold player_pairs. now rewrite <- app_assoc.
Qed.

Lemma build_transitions_labelled :
  exists tdf,
    Builder.build_team_transitions_table df = Ok tdf /\
    rows tdf = all_transitions (rows df) 1 (unique (map Stint.player_id (rows df))) /\
    (rows tdf <> [] -> columns tdf = Transition.keys).
Proof.
  unfold Builder.build_team_transitions_table, column, has_column.
  rewrite labelled. cbn [mem existsb String.eqb Ascii.eqb Bool.eqb orb Stint.keys bind].
  destruct (foldM_transitions_step (unique (map Stint.player_id (rows df))) [] 1)
    as [tid' H].
  rewrite H. cbn [bind fst app].
  eexists. split; [reflexivity |]. split; [reflexivity |].
  cbn [rows columns pd_DataFrame].
  destruct (all_transitions _ _ _); [congruence | reflexivity].
Qed.

End Deriver.

Lemma unique_from_In (l : list string) :
  forall seen x, In x (unique_from seen l) <-> In x l /\ ~ In x seen.
Proof.
  induction l as [| a r IH]; intros seen x; cbn [unique_from]; [simpl; tauto |].
  destruct (mem a seen) eqn:Ha.
  - rewrite IH. apply mem_In in Ha. simpl. split.
    + tauto.
    + intros [[H | H] Hn]; [subst; contradiction | tauto].
  - apply mem_false_In in Ha. simpl. rewrite IH. simpl. split.
    + intros [H | [H Hn]]; [subst; tauto | tauto].
    + intros [[H | H] Hn]; [tauto |].
      destruct (string_dec a x); [tauto | right; tauto].
Qed.

Lemma unique_from_NoDup (l : list string) :
  forall seen, NoDup (unique_from seen l).
Proof.
  induction l as [| a r IH]; intros seen; cbn [unique_from]; [constructor |].
  destruct (mem a seen); [apply IH |].
  constructor; [| apply IH]. rewrite unique_from_In. simpl. tauto.
Qed.

Lemma unique_In (l : list string) (x : string) : In x (unique l) <-> In x l.
Proof. unfold unique. rewrite unique_from_In. simpl. tauto. Qed.

Lemma select_player_none (x : string) (l : list Stint.t) :
  ~ In x (map Stint.player_id l) -> Builder.select_player x l = [].
Proof.
  induction l as [| s r IH]; intros H; simpl; [reflexivity |].
  simpl in H. destruct (String.eqb (Stint.player_id s) x) eqn:E.
  - apply String.eqb_eq in E. tauto.
  - apply IH. tauto.
Qed.

Lemma adjacent_length {A : Type} (l : list A) :
  List.length (Builder.adjacent l) = Nat.pred (List.length l).
Proof.
  induction l as [| a [| b t] IH]; try reflexivity.
  change (S (List.length (Builder.adjacent (b :: t))) = S (List.length t)).
  now rewrite IH.
Qed.

Lemma insert_by_number_perm (s : Stint.t) (l : list Stint.t) :
  Permutation (Builder.insert_by_number s l) (s :: l).
Proof.
  induction l as [| h t IH]; simpl; [apply Permutation_refl |].
  destruct (Stint.stint_number s <=? Stint.stint_number h).
  - apply Permutation_refl.
  - apply perm_trans with (h :: s :: t); [now apply perm_skip | apply perm_swap].
Qed.

Lemma sort_values_perm (l : list Stint.t) : Permutation (Builder.sort_values l) l.
Proof.
  induction l as [| s t IH]; simpl; [apply perm_nil |].
  apply perm_trans with (s :: Builder.sort_values t).
  - apply insert_by_number_perm.
  - now apply perm_skip.
Qed.

Lemma filter_length_perm {A : Type} (f : A -> bool) (l l' : list A) :
  Permutation l l' -> List.length (filter f l) = List.length (filter f l').
Proof.
  induction 1 as [| a l l' _ IH | a b l | l l' l'' _ IH1 _ IH2]; simpl.
  - reflexivity.
  - destruct (f a); simpl; now rewrite IH.
  - destruct (f a), (f b); reflexivity.
  - now rewrite IH1.
Qed.

Lemma filter_comm {A : Type} (f g : A -> bool) (l : list A) :
  filter f (filter g l) = filter g (filter f l).
Proof.
  induction l as [| a r IH]; simpl; [reflexivity |].
  destruct (f a) eqn:Hf, (g a) eqn:Hg; simpl; rewrite ?Hf, ?Hg, IH; reflexivity.
Qed.

Lemma adjacent_cons2 {A : Type} (a b : A) (t : list A) :
  Builder.adjacent (a :: b :: t) = (a, b) :: Builder.adjacent (b :: t).
Proof. reflexivity. Qed.

Lemma adjacent_real_le (l : list Stint.t) :
  (List.length (filter both_real (Builder.adjacent l)) <=
   Nat.pred (List.length (filter Cleaner.real_stint l)))%nat.
Proof.
  induction l as [| a r IH]; [simpl; lia |].
  destruct r as [| b t].
  - cbn [Builder.adjacent filter List.length]. lia.
  - rewrite adjacent_cons2. cbn [filter] in *.
    unfold both_real at 1. cbn [fst snd].
    destruct (Cleaner.real_stint a), (Cleaner.real_stint b);
      cbn [andb List.length Nat.pred] in *; lia.
Qed.

Lemma transitions_of_player_own (x y : string) (pairs : list (Stint.t * Stint.t)) :
  forall tid,
    transitions_of_player y (transitions_of x tid pairs) =
    if String.eqb x y then transitions_of x tid pairs else [].
Proof.
  unfold transitions_of_player.
  induction pairs as [| p more IH]; intros tid; simpl.
  - now destruct (String.eqb x y).
  - rewrite IH. now destruct (String.eqb x y).
Qed.

Lemma transitions_of_real (x : string) (pairs : list (Stint.t * Stint.t)) :
  forall tid,
    List.length (filter Cleaner.real_transition (transitions_of x tid pairs)) =
    List.length (filter both_real pairs).
Proof.
  induction pairs as [| p more IH]; intros tid; simpl; [reflexivity |].
  unfold Cleaner.real_transition at 1, both_real at 1, Cleaner.real_stint.
  cbn [Builder.transition_row Transition.from_team Transition.to_team].
  destruct (negb (Cleaner.is_fake_team (Stint.team (fst p))) &&
            negb (Cleaner.is_fake_team (Stint.team (snd p)))); simpl; now rewrite IH.
Qed.

Lemma all_transitions_of_player (stints : list Stint.t) (y : string) (ids : list string) :
  forall tid, NoDup ids ->
    exists tid',
      transitions_of_player y (all_transitions stints tid ids) =
      if mem y ids then transitions_of y tid' (player_pairs y stints) else [].
Proof.
  induction ids as [| x more IH]; intros tid Hnd.
  - exists tid. reflexivity.
  - inversion Hnd as [| ? ? Hx Hnd']; subst.
    cbn [all_transitions]. unfold transitions_of_player. rewrite filter_app.
    fold (transitions_of_player y (transitions_of x tid (player_pairs x stints))).
    fold (transitions_of_player y
            (all_transitions stints
               (tid + Z.of_nat (List.length (player_pairs x stints))) more)).
    rewrite transitions_of_player_own, mem_cons.
    destruct (IH (tid + Z.of_nat (List.length (player_pairs x stints))) Hnd')
      as [tid' Htid'].
    rewrite Htid'. rewrite (String.eqb_sym y x).
    destruct (String.eqb x y) eqn:E.
    + apply String.eqb_eq in E. subst y.
      apply mem_false_In in Hx. rewrite Hx. exists tid. cbn [orb].
      now rewrite app_nil_r.
    + exists tid'. reflexivity.
Qed.

(** C1, as stated, fails after the cleaner: the transitions into and out of
    a noisy middle stint are both dropped and none is made between its
    neighbours. *)
Lemma cleaned_transitions_break_count_invariant :
  ~ (forall (stints : list Stint.t) tdf sdf' tdf',
       Builder.build_team_transitions_table (pd_DataFrame Stint.keys stints) = Ok tdf ->
       Cleaner.clean_stints (pd_DataFrame Stint.keys stints) = Ok sdf' ->
       Cleaner.clean_transitions tdf = Ok tdf' ->
       transition_count_invariant (rows sdf') (rows tdf')).
Proof.
  intros H.
  pose (stints := rows (Builder.build_career_stints_table Sample.now Sample.noisy_middle)).
  destruct (Builder.build_team_transitions_table (pd_DataFrame Stint.keys stints))
    as [tdf | e] eqn:Ht; [| vm_compute in Ht; discriminate].
  destruct (Cleaner.clean_stints (pd_DataFrame Stint.keys stints))
    as [sdf' | e] eqn:Hs; [| vm_compute in Hs; discriminate].
  destruct (Cleaner.clean_transitions tdf)
    as [tdf' | e] eqn:Hc;
    [| vm_compute in Ht; inversion Ht; subst tdf; vm_compute in Hc; discriminate].
  specialize (H stints tdf sdf' tdf' Ht Hs Hc "p1").
  vm_compute in Ht. inversion Ht; subst tdf; clear Ht.
  vm_compute in Hs. inversion Hs; subst sdf'; clear Hs.
  vm_compute in Hc. inversion Hc; subst tdf'; clear Hc.
  vm_compute in H. discriminate.
Qed.

Lemma percent_removed_ok (removed original_count : nat) :
  original_count <> 0%nat ->
  exists q, Cleaner.percent_removed removed original_count = Ok q.
Proof.
  intros H. destruct original_count as [| n]; [congruence |].
  eexists. reflexivity.
Qed.

Lemma clean_stints_ok (df : DataFrame Stint.t) :
  rows df <> [] -> has_column df "team" = true ->
  Cleaner.clean_stints df =
  Ok {| columns := columns df; rows := filter Cleaner.real_stint (rows df) |}.
Proof.
  intros Hrows Hcol. unfold Cleaner.clean_stints, column. rewrite Hcol. cbn [bind rows].
  destruct (percent_removed_ok
              (List.length (rows df) - List.length (filter Cleaner.real_stint (rows df)))
              (List.length (rows df))) as [q Hq].
  - destruct (rows df); [congruence | discriminate].
  - now rewrite Hq.
Qed.

Lemma clean_stints_rows (df df' : DataFrame Stint.t) :
  Cleaner.clean_stints df = Ok df' ->
  rows df' = filter Cleaner.real_stint (rows df) /\ columns df' = columns df.
Proof.
  unfold Cleaner.clean_stints, column.
  destruct (has_column df "team"); cbn [bind rows]; [| discriminate].
  destruct (Cleaner.percent_removed _ _); cbn [bind]; [| discriminate].
  intros H. inversion H; subst. split; reflexivity.
Qed.

Lemma clean_transitions_ok (tdf : DataFrame Transition.t) :
  rows tdf <> [] -> columns tdf = Transition.keys ->
  Cleaner.clean_transitions tdf =
  Ok {| columns := columns tdf;
        rows := filter Cleaner.real_transition (rows tdf) |}.
Proof.
  intros Hrows Hcol. unfold Cleaner.clean_transitions, column, has_column.
  rewrite Hcol. cbn [mem existsb String.eqb Ascii.eqb Bool.eqb orb Transition.keys bind rows].
  destruct (percent_removed_ok
              (List.length (rows tdf) -
               List.length (filter Cleaner.real_transition (rows tdf)))
              (List.length (rows tdf))) as [q Hq].
  - destruct (rows tdf); [congruence | discriminate].
  - now rewrite Hq.
Qed.

Lemma clean_transitions_rows (tdf tdf' : DataFrame Transition.t) :
  Cleaner.clean_transitions tdf = Ok tdf' ->
  rows tdf' = filter Cleaner.real_transition (rows tdf).
Proof.
  unfold Cleaner.clean_transitions, column.
  destruct (has_column tdf "from_team"); cbn [bind rows]; [| discriminate].
  destruct (has_column tdf "to_team"); cbn [bind rows]; [| discriminate].
  destruct (Cleaner.percent_removed _ _); cbn [bind]; [| discriminate].
  intros H. inversion H; subst. reflexivity.
Qed.

Lemma select_player_real (x : string) (l : list Stint.t) :
  Builder.select_player x (filter Cleaner.real_stint l) =
  filter Cleaner.real_stint (Builder.select_player x l).
Proof. unfold Builder.select_player. apply filter_comm. Qed.

(** C1, amended: on a stint table with at least one row the transitions
    table is built and holds, for every player, one transition less than the
    player has stints (none for a player without stints).  The cleaner does
    not rebuild it: it keeps the built transitions whose two teams are both
    real, so a player's transitions after cleaning are the adjacent pairs of
    real stints of the uncleaned career, at most one less than the stints
    that survive. *)
Theorem transition_count_after_build_and_clean :
  forall stints : list Stint.t,
    stints <> [] ->
    exists tdf sdf',
      Builder.build_team_transitions_table (pd_DataFrame Stint.keys stints) = Ok tdf /\
      Cleaner.clean_stints (pd_DataFrame Stint.keys stints) = Ok sdf' /\
      transition_count_invariant stints (rows tdf) /\
      (rows tdf <> [] -> exists tdf', Cleaner.clean_transitions tdf = Ok tdf') /\
      (forall tdf',
          Cleaner.clean_transitions tdf = Ok tdf' ->
          rows tdf' = filter Cleaner.real_transition (rows tdf) /\
          forall player_id,
            n_transitions player_id (rows tdf') =
              List.length (filter both_real (player_pairs player_id stints)) /\
            Z.of_nat (n_transitions player_id (rows tdf')) <=
              Z.max 0 (Z.of_nat (n_stints player_id (rows sdf')) - 1)).
Proof.
  intros stints Hne.
  set (df := pd_DataFrame Stint.keys stints).
  assert (Hlab : columns df = Stint.keys).
  { unfold df, pd_DataFrame. cbn [columns]. destruct stints; [congruence | reflexivity]. }
  assert (Hrows : rows df = stints) by reflexivity.
  destruct (build_transitions_labelled df Hlab) as (tdf & Hbuild & Htrows & Htcols).
  rewrite Hrows in Htrows.
  exists tdf, {| columns := columns df; rows := filter Cleaner.real_stint (rows df) |}.
  assert (Hown : forall y,
    exists tid',
      transitions_of_player y (rows tdf) =
      if mem y (unique (map Stint.player_id stints))
      then transitions_of y tid' (player_pairs y stints) else []).
  { intros y. rewrite Htrows. apply all_transitions_of_player.
    apply unique_from_NoDup. }
  assert (Hnone : forall y,
    mem y (unique (map Stint.player_id stints)) = false ->
    Builder.select_player y stints = []).
  { intros y Hy. apply select_player_none. apply mem_false_In in Hy.
    now rewrite unique_In in Hy. }
  split; [exact Hbuild |]. split.
  { apply clean_stints_ok.
    - now rewrite Hrows.
    - unfold has_column. now rewrite Hlab. }
  split.
  { intros y. unfold n_transitions, n_stints. destruct (Hown y) as [tid' Hy].
    rewrite Hy. destruct (mem y (unique (map Stint.player_id stints))) eqn:Hm.
    - rewrite transitions_of_length. unfold player_pairs.
      rewrite adjacent_length, (Permutation_length (sort_values_perm _)). lia.
    - rewrite (Hnone y Hm). reflexivity. }
  split.
  { intros Hnonempty. eexists. apply clean_transitions_ok; auto. }
  intros tdf' Hclean. apply clean_transitions_rows in Hclean.
  split; [exact Hclean |].
  intros y.
  assert (Hcount :
    n_transitions y (rows tdf') =
    List.length (filter both_real (player_pairs y stints))).
  { unfold n_transitions, transitions_of_player. rewrite Hclean, filter_comm.
    fold (transitions_of_player y (rows tdf)).
    destruct (Hown y) as [tid' Hy]. rewrite Hy.
    destruct (mem y (unique (map Stint.player_id stints))) eqn:Hm.
    - apply transitions_of_real.
    - unfold player_pairs. now rewrite (Hnone y Hm). }
  split; [exact Hcount |].
  rewrite Hcount. unfold n_stints. cbn [rows]. rewrite Hrows, select_player_real.
  unfold player_pairs.
  pose proof (adjacent_real_le (Builder.sort_values (Builder.select_player y stints))) as Hle.
  rewrite (filter_length_perm Cleaner.real_stint _ _ (sort_values_perm _)) in Hle.
  lia.
Qed.

Lemma transition_count_after_build_and_clean_witness :
  rows (Builder.build_career_stints_table Sample.now Sample.noisy_middle) <> [] /\
  exists tdf sdf',
    Builder.build_team_transitions_table
      (pd_DataFrame Stint.keys
         (rows (Builder.build_career_stints_table Sample.now Sample.noisy_middle))) =
      Ok tdf /\
    Cleaner.clean_stints
      (pd_DataFrame Stint.keys
         (rows (Builder.build_career_stints_table Sample.now Sample.noisy_middle))) =
      Ok sdf' /\
    transition_count_invariant
      (rows (Builder.build_career_stints_table Sample.now Sample.noisy_middle))
      (rows tdf).
Proof.
  assert (H : rows (Builder.build_career_stints_table Sample.now Sample.noisy_middle) <> []).
  { vm_compute. discriminate. }
  split; [exact H |].
  destruct (transition_count_after_build_and_clean _ H)
    as (tdf & sdf' & Hb & Hs & Hinv & _).
  exists tdf, sdf'. auto.
Defined.

(** C2, as stated, fails: the cleaner leaves the surviving stints with the
    numbers they had. *)
Lemma cleaned_stints_keep_gaps :
  ~ (forall (df df' : DataFrame Stint.t) (player_id : string),
       Cleaner.clean_stints df = Ok df' ->
       gap_free (map Stint.stint_number (Builder.select_player player_id (rows df')))).
Proof.
  intros H.
  pose (df := Builder.build_career_stints_table Sample.now Sample.noisy_middle).
  destruct (Cleaner.clean_stints df) as [df' | e] eqn:Hs;
    [| vm_compute in Hs; discriminate].
  specialize (H df df' "p1" Hs).
  vm_compute in Hs. inversion Hs; subst df'; clear Hs.
  vm_compute in H. discriminate.
Qed.

(** C2, amended: the cleaner only drops rows.  The cleaned table holds, in
    their order, exactly the rows whose team is not noise, each one unchanged,
    so every surviving stint keeps its [stint_number]: in the career
    [A, B, C] with noisy [B] the survivors [A, C] carry the numbers 1 and 3.
    The cleaner returns a table for every stint table that has a row and a
    ['team'] column. *)
Theorem clean_stints_keeps_stint_numbers :
  (forall df : DataFrame Stint.t,
      rows df <> [] -> has_column df "team" = true ->
      exists df', Cleaner.clean_stints df = Ok df') /\
  (forall df df' : DataFrame Stint.t,
      Cleaner.clean_stints df = Ok df' ->
      rows df' = filter Cleaner.real_stint (rows df) /\
      columns df' = columns df /\
      (forall s, In s (rows df') <->
                 In s (rows df) /\ Cleaner.is_fake_team (Stint.team s) = false) /\
      (forall player_id,
          map Stint.stint_number (Builder.select_player player_id (rows df')) =
          map Stint.stint_number
            (filter Cleaner.real_stint (Builder.select_player player_id (rows df))))) /\
  (exists df',
      Cleaner.clean_stints
        (Builder.build_career_stints_table Sample.now Sample.noisy_middle) = Ok df' /\
      map Stint.team (rows df') = ["Team A"; "Team C"] /\
      map Stint.stint_number (rows df') = [1; 3]).
Proof.
  split; [| split].
  - intros df Hrows Hcol. eexists. now apply clean_stints_ok.
  - intros df df' H. apply clean_stints_rows in H. destruct H as [Hr Hc].
    split; [exact Hr |]. split; [exact Hc |]. split.
    + intros s. rewrite Hr, filter_In. unfold Cleaner.real_stint.
      rewrite negb_true_iff. tauto.
    + intros x. now rewrite Hr, select_player_real.
  - eexists. split; [vm_compute; reflexivity |]. split; reflexivity.
Qed.

Lemma clean_stints_keeps_stint_numbers_witness :
  rows (Builder.build_career_stints_table Sample.now Sample.noisy_middle) <> [] /\
  has_column (Builder.build_career_stints_table Sample.now Sample.noisy_middle) "team"
    = true /\
  exists df',
    Cleaner.clean_stints
      (Builder.build_career_stints_table Sample.now Sample.noisy_middle) = Ok df'.
Proof.
  assert (H1 : rows (Builder.build_career_stints_table Sample.now Sample.noisy_middle) <> []).
  { vm_compute. discriminate. }
  assert (H2 : has_column
                 (Builder.build_career_stints_table Sample.now Sample.noisy_middle)
                 "team" = true).
  { vm_compute. reflexivity. }
  split; [exact H1 |]. split; [exact H2 |].
  exact (proj1 clean_stints_keeps_stint_numbers _ H1 H2).
Defined.

(** ** Years *)

Local Open Scope string_scope.

Lemma substring_0_0 (s : string) : substring 0 0 s = "".
Proof. destruct s; reflexivity. Qed.

Lemma four_digits_at_some (s : string) (y : Z) :
  Re.four_digits_at s = Some y ->
  exists d post, s = d ++ post /\ year_text d /\ Py.int_from 0 d = Some y.
Proof.
  unfold Re.four_digits_at.
  destruct s as [| a [| b [| c [| d post]]]]; try discriminate.
  destruct (Py.is_digit a) eqn:Ha; [| discriminate].
  destruct (Py.is_digit b) eqn:Hb; [| discriminate].
  destruct (Py.is_digit c) eqn:Hc; [| discriminate].
  destruct (Py.is_digit d) eqn:Hd; [| discriminate].
  cbn [andb substring]. rewrite substring_0_0. intros H.
  exists (String a (String b (String c (String d "")))), post.
  split; [reflexivity |]. split; [| exact H].
  split; [reflexivity |]. cbn [Py.all_chars]. now rewrite Ha, Hb, Hc, Hd.
Qed.

Lemma int_from_digits (d : string) :
  Py.all_chars Py.is_digit d = true ->
  forall acc, exists y, Py.int_from acc d = Some y.
Proof.
  induction d as [| c r IH]; intros H acc; cbn [Py.int_from].
  - now exists acc.
  - cbn [Py.all_chars] in H. apply andb_prop in H. destruct H as [Hc Hr].
    unfold Py.digit_val. rewrite Hc. apply IH. exact Hr.
Qed.

Lemma four_digits_at_none (s : string) :
  Re.four_digits_at s = None ->
  forall d post, s = d ++ post -> ~ year_text d.
Proof.
  intros H d post Hs [Hlen Hdig].
  destruct d as [| a [| b [| c [| e [| ? ?]]]]]; try discriminate.
  subst s. cbn [Py.all_chars] in Hdig.
  apply andb_prop in Hdig. destruct Hdig as [Ha Hdig].
  apply andb_prop in Hdig. destruct Hdig as [Hb Hdig].
  apply andb_prop in Hdig. destruct Hdig as [Hc Hdig].
  apply andb_prop in Hdig. destruct Hdig as [He _].
  unfold Re.four_digits_at in H. cbn [append] in H.
  rewrite Ha, Hb, Hc, He in H. cbn [andb substring] in H.
  rewrite substring_0_0 in H.
  destruct (int_from_digits (String a (String b (String c (String e ""))))) with (acc := 0)
    as [y Hy].
  - cbn [Py.all_chars]. now rewrite Ha, Hb, Hc, He.
  - rewrite Hy in H. discriminate.
Qed.

Lemma search_four_digits_some (s : string) :
  forall y,
    Re.search_four_digits s = Some y ->
    exists pre d post,
      s = pre ++ d ++ post /\ year_text d /\ Py.int_from 0 d = Some y /\
      forall pre' d' post',
        s = pre' ++ d' ++ post' -> year_text d' ->
        (String.length pre <= String.length pre')%nat.
Proof.
  induction s as [| c r IH]; intros y H.
  - discriminate.
  - cbn [Re.search_four_digits] in H.
    destruct (Re.four_digits_at (String c r)) as [y' |] eqn:Hat.
    + inversion H; subst y'. apply four_digits_at_some in Hat.
      destruct Hat as (d & post & Hs & Hd & Hy).
      exists "", d, post. repeat split; try assumption; try apply Hd.
      intros. simpl. lia.
    + apply IH in H. destruct H as (pre & d & post & Hs & Hd & Hy & Hmin).
      exists (String c pre), d, post. split; [cbn [append]; now rewrite Hs |].
      split; [exact Hd |]. split; [exact Hy |].
      intros pre' d' post' Hs' Hd'. destruct pre' as [| c' pre''].
      * exfalso. exact (four_digits_at_none _ Hat d' post' Hs' Hd').
      * cbn [append] in Hs'. inversion Hs'; subst c'.
        cbn [String.length]. apply le_n_S. eapply Hmin; eassumption.
Qed.

Lemma search_four_digits_none (s : string) :
  Re.search_four_digits s = None ->
  forall pre d post, s = pre ++ d ++ post -> ~ year_text d.
Proof.
  induction s as [| c r IH]; intros H pre d post Hs Hd.
  - destruct pre; [| discriminate]. cbn [append] in Hs.
    destruct d; [destruct Hd; discriminate | discriminate].
  - cbn [Re.search_four_digits] in H.
    destruct (Re.four_digits_at (String c r)) as [y' |] eqn:Hat; [discriminate |].
    destruct pre as [| c' pre'].
    + exact (four_digits_at_none _ Hat d post Hs Hd).
    + cbn [append] in Hs. inversion Hs; subst.
      exact (IH H pre' d post eq_refl Hd).
Qed.

Lemma extract_year_search (s : string) :
  Builder._extract_year s = Re.search_four_digits s.
Proof. destruct s; reflexivity. Qed.

(** C4, as stated, fails: an empty [date_end] also gives the current
    year. *)
Lemma empty_date_end_gives_current_year :
  ~ (forall (now : Date.t) (players : list Player.t) (s : Stint.t),
       In s (rows (Builder.build_career_stints_table now players)) ->
       Stint.date_end s <> "Present" ->
       Stint.year_end s = Builder._extract_year (Stint.date_end s)).
Proof.
  intros H.
  specialize (H Sample.now Sample.single_date
                (Builder.stint_row Sample.now
                   (Sample.player "p1"
                      (Career [Entry (Scraper.history_entry "2020-04-13" "Team X")]))
                   1 1 1 (Scraper.history_entry "2020-04-13" "Team X"))).
  assert (Hin : In (Builder.stint_row Sample.now
                   (Sample.player "p1"
                      (Career [Entry (Scraper.history_entry "2020-04-13" "Team X")]))
                   1 1 1 (Scraper.history_entry "2020-04-13" "Team X"))
                (rows (Builder.build_career_stints_table Sample.now Sample.single_date))).
  { left. reflexivity. }
  specialize (H Hin). vm_compute in H.
  assert (Hne : "" <> "Present") by discriminate.
  specialize (H Hne). discriminate.
Qed.

(** C4, amended: for every stint of the built table, [year_start] is the
    year read from [date_start], and [year_end] is the current calendar year
    when [date_end] is empty or contains "present" in any letter case (so for
    "Present"), and the year read from [date_end] otherwise.  The year read
    from a text is the number written by its first run of four digits, and
    there is none when the text has no such run. *)
Theorem year_bounds_of_built_stints :
  (forall (now : Date.t) (players : list Player.t) (s : Stint.t),
      In s (rows (Builder.build_career_stints_table now players)) ->
      Stint.year_start s = Builder._extract_year (Stint.date_start s) /\
      (Stint.date_end s = "" \/ Builder.says_present (Stint.date_end s) = true ->
       Stint.year_end s = Some (Date.year now)) /\
      (Stint.date_end s = "Present" -> Stint.year_end s = Some (Date.year now)) /\
      (Stint.date_end s <> "" -> Builder.says_present (Stint.date_end s) = false ->
       Stint.year_end s = Builder._extract_year (Stint.date_end s))) /\
  (forall (text : string) (y : Z),
      Builder._extract_year text = Some y ->
      exists pre d post,
        text = pre ++ d ++ post /\ year_text d /\ Py.int_from 0 d = Some y /\
        forall pre' d' post',
          text = pre' ++ d' ++ post' -> year_text d' ->
          (String.length pre <= String.length pre')%nat) /\
  (forall text : string,
      Builder._extract_year text = None ->
      forall pre d post, text = pre ++ d ++ post -> ~ year_text d).
Proof.
  split; [| split].
  - intros now players s Hin. rewrite build_rows in Hin.
    apply table_from_row in Hin.
    destruct Hin as (p & len & k & num & e & _ & Hs). subst s.
    cbn [Builder.stint_row Stint.year_start Stint.year_end Stint.date_start Stint.date_end].
    split; [reflexivity |].
    set (date_end := Py.dict_get e "date_end" "").
    split; [| split].
    + intros [H | H].
      * rewrite H. reflexivity.
      * rewrite H. now rewrite andb_false_r.
    + intros H. rewrite H. reflexivity.
    + intros Hne Hp. rewrite Hp. destruct date_end; [congruence | reflexivity].
  - intros text y H. rewrite extract_year_search in H.
    now apply search_four_digits_some.
  - intros text H. rewrite extract_year_search in H.
    now apply search_four_digits_none.
Qed.

Lemma year_bounds_of_built_stints_witness :
  In (Builder.stint_row Sample.now
        (Sample.player "p1"
           (Career [Entry (Scraper.history_entry "2020-04-13" "Team X")]))
        1 1 1 (Scraper.history_entry "2020-04-13" "Team X"))
     (rows (Builder.build_career_stints_table Sample.now Sample.single_date)) /\
  Stint.year_start
    (Builder.stint_row Sample.now
        (Sample.player "p1"
           (Career [Entry (Scraper.history_entry "2020-04-13" "Team X")]))
        1 1 1 (Scraper.history_entry "2020-04-13" "Team X")) = Some 2020%Z.
Proof.
  assert (Hin : In (Builder.stint_row Sample.now
                   (Sample.player "p1"
                      (Career [Entry (Scraper.history_entry "2020-04-13" "Team X")]))
                   1 1 1 (Scraper.history_entry "2020-04-13" "Team X"))
                (rows (Builder.build_career_stints_table Sample.now Sample.single_date))).
  { left. reflexivity. }
  split; [exact Hin |].
  rewrite (proj1 (proj1 year_bounds_of_built_stints _ _ _ Hin)).
  reflexivity.
Defined.

(** ** Durations *)

Lemma string_app_assoc (a b c : string) : (a ++ b) ++ c = a ++ (b ++ c).
Proof.
  induction a as [| x r IH]; cbn [append]; [reflexivity | now rewrite IH].
Qed.

Lemma string_app_nil_r (a : string) : a ++ "" = a.
Proof.
  induction a as [| x r IH]; cbn [append]; [reflexivity | now rewrite IH].
Qed.

Lemma all_chars_app (p : ascii -> bool) (a b : string) :
  Py.all_chars p (a ++ b) = Py.all_chars p a && Py.all_chars p b.
Proof.
  induction a as [| c r IH]; cbn [append Py.all_chars]; [reflexivity |].
  now rewrite IH, andb_assoc.
Qed.

Lemma in_range_digit (lo hi : N) (c : ascii) :
  (48 <= lo)%N -> (hi <= 57)%N ->
  Date.in_range lo hi c = true -> Py.is_digit c = true.
Proof.
  unfold Date.in_range, Py.is_digit. intros Hlo Hhi H.
  apply andb_prop in H. destruct H as [H1 H2].
  apply N.leb_le in H1, H2. apply andb_true_intro.
  split; apply N.leb_le; lia.
Qed.

Lemma digit_plain (c : ascii) : Py.is_digit c = true -> plain c = true.
Proof. unfold plain. intros H. now rewrite H. Qed.

Lemma two_plain (p q : ascii -> bool) :
  (forall c, p c = true -> plain c = true) ->
  (forall c, q c = true -> plain c = true) ->
  consumes_plain (Date.two p q).
Proof.
  intros Hp Hq s v r H. unfold Date.two in H.
  destruct s as [| a [| b t]]; try discriminate.
  destruct (p a) eqn:Ha; [| discriminate].
  destruct (q b) eqn:Hb; [| discriminate].
  inversion H; subst. exists (String a (String b "")).
  split; [reflexivity |]. cbn [Py.all_chars]. now rewrite (Hp a Ha), (Hq b Hb).
Qed.

Lemma one_plain (p : ascii -> bool) :
  (forall c, p c = true -> plain c = true) ->
  consumes_plain (Date.one p).
Proof.
  intros Hp s v r H. unfold Date.one in H.
  destruct s as [| a t]; try discriminate.
  destruct (p a) eqn:Ha; [| discriminate].
  inversion H; subst. exists (String a "").
  split; [reflexivity |]. cbn [Py.all_chars]. now rewrite (Hp a Ha).
Qed.

Lemma space_one_plain (p : ascii -> bool) :
  (forall c, p c = true -> plain c = true) ->
  consumes_plain (Date.space_one p).
Proof.
  intros Hp s v r H. unfold Date.space_one in H.
  destruct s as [| a [| b t]]; try discriminate;
    destruct a as [[] [] [] [] [] [] [] []]; try discriminate.
  destruct (p b) eqn:Hb; [| discriminate].
  inversion H; subst. exists (String " " (String b "")).
  split; [reflexivity |]. cbn [Py.all_chars]. now rewrite (Hp b Hb).
Qed.

Lemma range_plain (lo hi : N) :
  (48 <= lo)%N -> (hi <= 57)%N ->
  forall c, Date.in_range lo hi c = true -> plain c = true.
Proof.
  intros Hlo Hhi c H. apply digit_plain. eapply in_range_digit; eassumption.
Qed.

Lemma month_alternatives_plain :
  Forall consumes_plain Date.month_alternatives.
Proof.
  repeat constructor;
    first [apply two_plain | apply one_plain];
    apply range_plain; lia.
Qed.

Lemma day_alternatives_plain :
  Forall consumes_plain Date.day_alternatives.
Proof.
  repeat constructor;
    first [apply two_plain | apply one_plain | apply space_one_plain];
    first [apply range_plain; lia | exact digit_plain].
Qed.

Lemma first_alt_some {A B : Type} (alternatives : list (string -> option (A * string)))
    (s : string) (k : A -> string -> option B) (b : B) :
  Date.first_alt alternatives s k = Some b ->
  exists a v r, In a alternatives /\ a s = Some (v, r) /\ k v r = Some b.
Proof.
  induction alternatives as [| a more IH]; cbn [Date.first_alt]; [discriminate |].
  destruct (a s) as [[v r] |] eqn:Ha.
  - destruct (k v r) as [b' |] eqn:Hk.
    + intros H. inversion H; subst. exists a, v, r. split; [now left | auto].
    + intros H. destruct (IH H) as (a' & v' & r' & Hin & Ha' & Hk').
      exists a', v', r'. split; [now right | auto].
  - intros H. destruct (IH H) as (a' & v' & r' & Hin & Ha' & Hk').
    exists a', v', r'. split; [now right | auto].
Qed.

Lemma expect_hyphen_some {B : Type} (s : string) (k : string -> option B) (b : B) :
  Date.expect_hyphen s k = Some b ->
  exists r, s = String "-" r /\ k r = Some b.
Proof.
  unfold Date.expect_hyphen. destruct s as [| c r]; [discriminate |].
  destruct c as [[] [] [] [] [] [] [] []]; try discriminate.
  intros H. now exists r.
Qed.

Lemma match_format_plain (s : string) (y m d : Z) (rest : string) :
  Date.match_format s = Some (y, m, d, rest) ->
  exists pre, s = pre ++ rest /\ Py.all_chars plain pre = true.
Proof.
  unfold Date.match_format, Date.parse_year.
  destruct s as [| a [| b [| c [| e r1]]]]; try discriminate.
  destruct (Py.is_digit a) eqn:Ha; [| discriminate].
  destruct (Py.is_digit b) eqn:Hb; [| discriminate].
  destruct (Py.is_digit c) eqn:Hc; [| discriminate].
  destruct (Py.is_digit e) eqn:He; [| discriminate].
  cbn [andb]. intros H.
  apply expect_hyphen_some in H. destruct H as (r2 & Hr1 & H).
  apply first_alt_some in H. destruct H as (am & vm & r3 & Hinm & Ham & H).
  apply expect_hyphen_some in H. destruct H as (r4 & Hr3 & H).
  apply first_alt_some in H. destruct H as (ad & vd & r5 & Hind & Had & H).
  inversion H; subst; clear H.
  pose proof (proj1 (Forall_forall _ _) month_alternatives_plain am Hinm _ _ _ Ham)
    as (pm & Hpm & Hpm').
  pose proof (proj1 (Forall_forall _ _) day_alternatives_plain ad Hind _ _ _ Had)
    as (pd & Hpd & Hpd').
  exists (String a (String b (String c (String e (String "-" (pm ++ String "-" pd)))))).
  split.
  - cbn [append]. rewrite Hpm, Hpd. do 5 f_equal.
    now rewrite string_app_assoc.
  - cbn [Py.all_chars]. rewrite (digit_plain a Ha), (digit_plain b Hb),
      (digit_plain c Hc), (digit_plain e He). cbn [andb].
    rewrite all_chars_app. cbn [Py.all_chars]. now rewrite Hpm', Hpd'.
Qed.

Lemma strptime_plain (s : string) (d : Date.t) :
  Date.strptime s = Ok d -> Py.all_chars plain s = true.
Proof.
  unfold Date.strptime.
  destruct (Date.match_format s) as [[[[y m] dd] rest] |] eqn:H; [| discriminate].
  destruct rest; [| discriminate]. intros _.
  apply match_format_plain in H. destruct H as (pre & Hs & Hp).
  rewrite Hs, all_chars_app, Hp. reflexivity.
Qed.

Lemma plain_lower (c : ascii) : plain c = true -> Py.lower_char c = c.
Proof.
  destruct c as [[] [] [] [] [] [] [] []]; try reflexivity; discriminate.
Qed.

Lemma plain_not_p (c : ascii) : plain c = true -> Ascii.eqb c "p" = false.
Proof.
  destruct c as [[] [] [] [] [] [] [] []]; try reflexivity; discriminate.
Qed.

Lemma plain_lower_text (s : string) :
  Py.all_chars plain s = true -> Py.lower s = s.
Proof.
  induction s as [| c r IH]; cbn [Py.all_chars Py.lower]; [reflexivity |].
  intros H. apply andb_prop in H. destruct H as [Hc Hr].
  now rewrite (plain_lower c Hc), (IH Hr).
Qed.

Lemma contains_needs_first (c : ascii) (sub s : string) :
  Py.all_chars (fun x => negb (Ascii.eqb x c)) s = true ->
  Py.contains (String c sub) s = false.
Proof.
  induction s as [| x r IH]; cbn [Py.all_chars Py.contains prefix]; [reflexivity |].
  intros H. apply andb_prop in H. destruct H as [Hx Hr].
  rewrite (IH Hr), orb_false_r.
  destruct (ascii_dec c x) as [E | E]; [| reflexivity].
  subst x. rewrite Ascii.eqb_refl in Hx. discriminate.
Qed.

Lemma plain_never_says_present (s : string) :
  Py.all_chars plain s = true -> Builder.says_present s = false.
Proof.
  intros H. unfold Builder.says_present. rewrite (plain_lower_text s H).
  apply contains_needs_first.
  induction s as [| c r IH]; cbn [Py.all_chars] in *; [reflexivity |].
  apply andb_prop in H. destruct H as [Hc Hr].
  now rewrite (plain_not_p c Hc), (IH Hr).
Qed.

Lemma strptime_nonempty (s : string) (d : Date.t) :
  Date.strptime s = Ok d -> Py.truthy s = true.
Proof. destruct s; [discriminate | reflexivity]. Qed.

Lemma says_present_nonempty (s : string) :
  Builder.says_present s = true -> Py.truthy s = true.
Proof. destruct s; [discriminate | reflexivity]. Qed.

(** C7: the duration of every built stint is [_calculate_duration] of its
    two bounds.  That number is never negative; it is 0 when a bound is
    empty, when the start is not a calendar date, and when the end is neither
    a calendar date nor a text saying "present"; it is the clamped number of
    days from the start to the current day when the end says "present" (as
    the sentinel "Present" does), and the clamped number of days between the
    two dates otherwise.  The range "2020-04-13 — 2020-07-02" gives 80. *)
Theorem duration_days_of_built_stints :
  (forall (now : Date.t) (players : list Player.t) (s : Stint.t),
      In s (rows (Builder.build_career_stints_table now players)) ->
      Stint.duration_days s =
        Builder._calculate_duration now (Stint.date_start s) (Stint.date_end s) /\
      0 <= Stint.duration_days s) /\
  (forall (now : Date.t) (date_start date_end : string),
      0 <= Builder._calculate_duration now date_start date_end /\
      (date_start = "" \/ date_end = "" ->
       Builder._calculate_duration now date_start date_end = 0) /\
      (forall e, Date.strptime date_start = Raise e ->
       Builder._calculate_duration now date_start date_end = 0) /\
      (forall e, Builder.says_present date_end = false ->
       Date.strptime date_end = Raise e ->
       Builder._calculate_duration now date_start date_end = 0) /\
      (forall d1, Builder.says_present date_end = true ->
       Date.strptime date_start = Ok d1 ->
       Builder._calculate_duration now date_start date_end =
         Z.max 0 (Date.toordinal now - Date.toordinal d1)) /\
      (forall d1 d2, Date.strptime date_start = Ok d1 ->
       Date.strptime date_end = Ok d2 ->
       Builder._calculate_duration now date_start date_end =
         Z.max 0 (Date.toordinal d2 - Date.toordinal d1))) /\
  Builder.says_present "Present" = true /\
  (forall (now : Date.t) (player : Player.t) (career_len stint_id stint_num : Z),
      let s := Builder.stint_row now player career_len stint_id stint_num
                 (Scraper.history_entry "2020-04-13 — 2020-07-02" "Team X (Inactive)") in
      Stint.date_start s = "2020-04-13" /\
      Stint.date_end s = "2020-07-02" /\
      Stint.team s = "Team X" /\
      Stint.stint_status s = "Inactive" /\
      Stint.duration_days s = 80).
Proof.
  assert (Hcalc : forall (now : Date.t) (date_start date_end : string),
      0 <= Builder._calculate_duration now date_start date_end /\
      (date_start = "" \/ date_end = "" ->
       Builder._calculate_duration now date_start date_end = 0) /\
      (forall e, Date.strptime date_start = Raise e ->
       Builder._calculate_duration now date_start date_end = 0) /\
      (forall e, Builder.says_present date_end = false ->
       Date.strptime date_end = Raise e ->
       Builder._calculate_duration now date_start date_end = 0) /\
      (forall d1, Builder.says_present date_end = true ->
       Date.strptime date_start = Ok d1 ->
       Builder._calculate_duration now date_start date_end =
         Z.max 0 (Date.toordinal now - Date.toordinal d1)) /\
      (forall d1 d2, Date.strptime date_start = Ok d1 ->
       Date.strptime date_end = Ok d2 ->
       Builder._calculate_duration now date_start date_end =
         Z.max 0 (Date.toordinal d2 - Date.toordinal d1))).
  { intros now ds de. unfold Builder._calculate_duration.
    split; [| split; [| split; [| split; [| split]]]].
    - destruct (negb (Py.truthy ds) || negb (Py.truthy de)); [lia |].
      destruct (Builder.says_present de); cbn [bind].
      + destruct (Date.strptime ds); cbn [bind]; lia.
      + destruct (Date.strptime de); cbn [bind]; [| lia].
        destruct (Date.strptime ds); cbn [bind]; lia.
    - intros [H | H]; subst; [reflexivity |].
      now rewrite orb_true_r.
    - intros e He.
      destruct (negb (Py.truthy ds) || negb (Py.truthy de)); [reflexivity |].
      rewrite He.
      destruct (Builder.says_present de); cbn [bind]; [reflexivity |].
      destruct (Date.strptime de); reflexivity.
    - intros e Hp He.
      destruct (negb (Py.truthy ds) || negb (Py.truthy de)); [reflexivity |].
      now rewrite Hp, He.
    - intros d1 Hp Hs.
      rewrite (strptime_nonempty _ _ Hs), (says_present_nonempty _ Hp).
      cbn [negb orb]. now rewrite Hp, Hs.
    - intros d1 d2 Hs He.
      rewrite (strptime_nonempty _ _ Hs), (strptime_nonempty _ _ He).
      cbn [negb orb].
      rewrite (plain_never_says_present _ (strptime_plain _ _ He)).
      now rewrite He, Hs. }
  split; [| split; [exact Hcalc | split]].
  - intros now players s Hin. rewrite build_rows in Hin.
    apply table_from_row in Hin.
    destruct Hin as (p & len & k & num & e & _ & Hs). subst s.
    cbn [Builder.stint_row Stint.duration_days Stint.date_start Stint.date_end].
    split; [reflexivity | apply Hcalc].
  - reflexivity.
  - intros now player career_len stint_id stint_num s.
    repeat split; vm_compute; reflexivity.
Qed.

Lemma duration_days_of_built_stints_witness :
  In (Builder.stint_row Sample.now
        (Sample.player "p1"
           (Career [Entry (Scraper.history_entry "2020-04-13" "Team X")]))
        1 1 1 (Scraper.history_entry "2020-04-13" "Team X"))
     (rows (Builder.build_career_stints_table Sample.now Sample.single_date)) /\
  Date.strptime "2019-06-10" = Ok (Date.mk 2019 6 10) /\
  Builder._calculate_duration Sample.now "2019-06-10" "Present" = 2703.
Proof.
  split; [left; reflexivity |]. split; [reflexivity |].
  rewrite (proj1 (proj2 (proj2 (proj2 (proj2
             (proj1 (proj2 duration_days_of_built_stints)
                Sample.now "2019-06-10" "Present")))))
             (Date.mk 2019 6 10) eq_refl eq_refl).
  reflexivity.
Defined.

(** ** The text normaliser *)

Lemma iso_date_at_some (s d : string) :
  Scraper.iso_date_at s = Some d ->
  exists post, s = d ++ post /\ iso_text d.
Proof.
  unfold Scraper.iso_date_at.
  destruct s as [| y1 [| y2 [| y3 [| y4 [| h1 [| m1 [| m2 [| h2 [| d1 [| d2 post]]]]]]]]]];
    try discriminate.
  destruct (Py.is_digit y1) eqn:E1; [| discriminate].
  destruct (Py.is_digit y2) eqn:E2; [| discriminate].
  destruct (Py.is_digit y3) eqn:E3; [| discriminate].
  destruct (Py.is_digit y4) eqn:E4; [| discriminate].
  destruct (Ascii.eqb h1 "-") eqn:E5; [| discriminate].
  destruct (Py.is_digit m1) eqn:E6; [| discriminate].
  destruct (Py.is_digit m2) eqn:E7; [| discriminate].
  destruct (Ascii.eqb h2 "-") eqn:E8; [| discriminate].
  destruct (Py.is_digit d1) eqn:E9; [| discriminate].
  destruct (Py.is_digit d2) eqn:E10; [| discriminate].
  cbn [andb substring]. rewrite substring_0_0. intros H. inversion H; subst d; clear H.
  apply Ascii.eqb_eq in E5, E8. subst h1 h2.
  exists post. split; [reflexivity |].
  exists (String y1 (String y2 (String y3 (String y4 "")))),
         (String m1 (String m2 "")), (String d1 (String d2 "")).
  cbn [Py.all_chars]. rewrite E1, E2, E3, E4, E6, E7, E9, E10.
  repeat split; reflexivity.
Qed.

Lemma findall_from_occurs (s : string) :
  forall skip d,
    In d (Scraper.findall_iso_dates_from skip s) ->
    exists pre post, s = pre ++ d ++ post /\ iso_text d.
Proof.
  induction s as [| c r IH]; intros skip d H.
  - destruct skip; simpl in H; contradiction.
  - destruct skip as [| k].
    + cbn [Scraper.findall_iso_dates_from] in H.
      destruct (Scraper.iso_date_at (String c r)) as [d0 |] eqn:Hat.
      * destruct H as [H | H].
        -- subst d0. apply iso_date_at_some in Hat. destruct Hat as (post & Hs & Hd).
           exists "", post. split; [exact Hs | exact Hd].
        -- apply IH in H. destruct H as (pre & post & Hs & Hd).
           exists (String c pre), post. split; [cbn [append]; now rewrite Hs | exact Hd].
      * apply IH in H. destruct H as (pre & post & Hs & Hd).
        exists (String c pre), post. split; [cbn [append]; now rewrite Hs | exact Hd].
    + cbn [Scraper.findall_iso_dates_from] in H.
      apply IH in H. destruct H as (pre & post & Hs & Hd).
      exists (String c pre), post. split; [cbn [append]; now rewrite Hs | exact Hd].
Qed.

Lemma search_is_first_found (s : string) :
  Scraper.search_iso_date s = hd_error (Scraper.findall_iso_dates s).
Proof.
  unfold Scraper.findall_iso_dates.
  induction s as [| c r IH]; [reflexivity |].
  cbn [Scraper.search_iso_date Scraper.findall_iso_dates_from].
  destruct (Scraper.iso_date_at (String c r)); [reflexivity | exact IH].
Qed.

(** C5, as stated, fails: only the spellings "Present" and "present" are
    recognised. *)
Lemma upper_case_present_is_not_recognised :
  ~ (forall date_range : string,
       Py.contains "present" (Py.lower date_range) = true ->
       Scraper._extract_end_date date_range = "Present").
Proof.
  intros H. specialize (H "2021-01-10 — PRESENT" eq_refl).
  vm_compute in H. discriminate.
Qed.

(** C5, amended: [date_end] is "Present" when the range contains the
    spelling "Present" or the spelling "present"; otherwise it is the last
    ISO date found when at least two are found, and empty when one or none
    is.  The dates found are texts [YYYY-MM-DD] occurring in the range, and
    [date_start] is the first of them, so a range with a single date gives
    that date as start and an empty end. *)
Theorem extract_end_date_cases :
  forall date_range : string,
    (Py.contains "Present" date_range = true \/
     Py.contains "present" date_range = true ->
     Scraper._extract_end_date date_range = "Present") /\
    (Py.contains "Present" date_range = false ->
     Py.contains "present" date_range = false ->
     ((2 <= List.length (Scraper.findall_iso_dates date_range))%nat ->
      Scraper._extract_end_date date_range =
        last (Scraper.findall_iso_dates date_range) "") /\
     ((List.length (Scraper.findall_iso_dates date_range) <= 1)%nat ->
      Scraper._extract_end_date date_range = "")) /\
    (forall d, In d (Scraper.findall_iso_dates date_range) ->
       exists pre post, date_range = pre ++ d ++ post /\ iso_text d) /\
    Scraper._extract_start_date date_range =
      hd "" (Scraper.findall_iso_dates date_range).
Proof.
  intros s. unfold Scraper._extract_end_date.
  split; [| split; [| split]].
  - intros [H | H]; rewrite H; [reflexivity | now rewrite orb_true_r].
  - intros H1 H2. rewrite H1, H2. cbn [orb]. split; intros Hlen.
    + apply Nat.ltb_lt in Hlen. now rewrite Hlen.
    + destruct (1 <? List.length (Scraper.findall_iso_dates s))%nat eqn:E;
        [| reflexivity].
      apply Nat.ltb_lt in E. lia.
  - intros d. apply findall_from_occurs.
  - unfold Scraper._extract_start_date. rewrite search_is_first_found.
    destruct (Scraper.findall_iso_dates s); reflexivity.
Qed.

Lemma extract_end_date_cases_witness :
  Py.contains "Present" "2020-04-13 — 2020-07-02" = false /\
  Py.contains "present" "2020-04-13 — 2020-07-02" = false /\
  (2 <= List.length (Scraper.findall_iso_dates "2020-04-13 — 2020-07-02"))%nat /\
  Scraper._extract_end_date "2020-04-13 — 2020-07-02" = "2020-07-02".
Proof.
  assert (H1 : Py.contains "Present" "2020-04-13 — 2020-07-02" = false) by reflexivity.
  assert (H2 : Py.contains "present" "2020-04-13 — 2020-07-02" = false) by reflexivity.
  assert (H3 : (2 <= List.length (Scraper.findall_iso_dates "2020-04-13 — 2020-07-02"))%nat).
  { vm_compute. apply le_n. }
  split; [exact H1 |]. split; [exact H2 |]. split; [exact H3 |].
  rewrite (proj1 (proj1 (proj2 (extract_end_date_cases "2020-04-13 — 2020-07-02"))
                    H1 H2) H3).
  reflexivity.
Defined.

Lemma span_stops (p : ascii -> bool) (g : string) (c : ascii) (rest : string) :
  Py.all_chars p g = true -> p c = false ->
  Py.span p (g ++ String c rest) = (g, String c rest).
Proof.
  intros Hg Hc. induction g as [| x r IH]; cbn [append Py.span].
  - now rewrite Hc.
  - cbn [Py.all_chars] in Hg. apply andb_prop in Hg. destruct Hg as [Hx Hr].
    now rewrite Hx, (IH Hr).
Qed.

Lemma paren_group_at_group (g post : string) :
  g <> "" -> Py.all_chars Scraper.not_rparen g = true ->
  Scraper.paren_group_at (String "(" (g ++ String ")" post)) = Some (g, post).
Proof.
  intros Hne Hg. unfold Scraper.paren_group_at.
  rewrite span_stops by (assumption || reflexivity).
  destruct g; [congruence | reflexivity].
Qed.

Lemma paren_group_at_other (c : ascii) (r : string) :
  not_lparen c = true -> Scraper.paren_group_at (String c r) = None.
Proof.
  destruct c as [[] [] [] [] [] [] [] []]; try reflexivity; discriminate.
Qed.

Lemma search_paren_group_skip (pre s : string) :
  Py.all_chars not_lparen pre = true ->
  Scraper.search_paren_group (pre ++ s) = Scraper.search_paren_group s.
Proof.
  induction pre as [| c r IH]; intros H; cbn [append]; [reflexivity |].
  cbn [Py.all_chars] in H. apply andb_prop in H. destruct H as [Hc Hr].
  cbn [Scraper.search_paren_group]. rewrite (paren_group_at_other c _ Hc).
  now apply IH.
Qed.

Lemma search_paren_group_none (s : string) :
  Py.all_chars not_lparen s = true -> Scraper.search_paren_group s = None.
Proof.
  intros H. rewrite <- (string_app_nil_r s).
  rewrite search_paren_group_skip by assumption. reflexivity.
Qed.

(** C6, as stated, fails: with two parenthesised groups the status is
    read from the first one, not from the trailing one. *)
Lemma status_is_not_read_from_trailing_group :
  ~ (forall pre g ws : string,
       g <> "" ->
       Py.all_chars Scraper.not_rparen g = true ->
       Py.all_chars Py.is_space ws = true ->
       Py.contains "inactive" (Py.lower (Py.strip g)) = true ->
       Scraper._extract_status (pre ++ "(" ++ g ++ ")" ++ ws) = "Inactive").
Proof.
  intros H.
  assert (Hne : "Inactive" <> "") by discriminate.
  specialize (H "Team X (Loan) " "Inactive" "" Hne eq_refl eq_refl eq_refl).
  vm_compute in H. discriminate.
Qed.

(** C6, amended: the status is read from the first parenthesised group of
    the label, the text between the first "(" and the next ")".  Stripped and
    lower-cased, a group containing "inactive" gives Inactive, else one
    containing "loan" gives Loan, else one containing "stand-in" or "standin"
    gives Stand-in, else one containing "trial" gives Trial, else the group
    is returned title-cased; a label without "(" gives Active. *)
Theorem extract_status_of_first_group :
  (forall team_text : string,
      Py.all_chars not_lparen team_text = true ->
      Scraper._extract_status team_text = "Active") /\
  (forall pre g post : string,
      Py.all_chars not_lparen pre = true ->
      g <> "" ->
      Py.all_chars Scraper.not_rparen g = true ->
      let status := Py.lower (Py.strip g) in
      let result := Scraper._extract_status (pre ++ "(" ++ g ++ ")" ++ post) in
      (Py.contains "inactive" status = true -> result = "Inactive") /\
      (Py.contains "inactive" status = false ->
       Py.contains "loan" status = true -> result = "Loan") /\
      (Py.contains "inactive" status = false ->
       Py.contains "loan" status = false ->
       Py.contains "stand-in" status = true \/ Py.contains "standin" status = true ->
       result = "Stand-in") /\
      (Py.contains "inactive" status = false ->
       Py.contains "loan" status = false ->
       Py.contains "stand-in" status = false ->
       Py.contains "standin" status = false ->
       Py.contains "trial" status = true -> result = "Trial") /\
      (Py.contains "inactive" status = false ->
       Py.contains "loan" status = false ->
       Py.contains "stand-in" status = false ->
       Py.contains "standin" status = false ->
       Py.contains "trial" status = false -> result = Py.title status)).
Proof.
  split.
  - intros s H. unfold Scraper._extract_status.
    now rewrite search_paren_group_none.
  - intros pre g post Hpre Hne Hg status result.
    assert (Hfound :
      Scraper.search_paren_group (pre ++ "(" ++ g ++ ")" ++ post) = Some g).
    { rewrite search_paren_group_skip by assumption.
      change ("(" ++ g ++ ")" ++ post) with (String "(" (g ++ String ")" post)).
      cbn [Scraper.search_paren_group].
      now rewrite paren_group_at_group. }
    unfold result, Scraper._extract_status. rewrite Hfound. fold status.
    repeat split.
    + intros H1. now rewrite H1.
    + intros H1 H2. now rewrite H1, H2.
    + intros H1 H2 [H3 | H3]; rewrite H1, H2, H3;
        [reflexivity | now rewrite orb_true_r].
    + intros H1 H2 H3 H4 H5. now rewrite H1, H2, H3, H4, H5.
    + intros H1 H2 H3 H4 H5. now rewrite H1, H2, H3, H4, H5.
Qed.

Lemma extract_status_of_first_group_witness :
  Py.all_chars not_lparen "Team X " = true /\
  "Inactive" <> "" /\
  Py.all_chars Scraper.not_rparen "Inactive" = true /\
  Py.contains "inactive" (Py.lower (Py.strip "Inactive")) = true /\
  Scraper._extract_status "Team X (Inactive)" = "Inactive".
Proof.
  assert (H1 : Py.all_chars not_lparen "Team X " = true) by reflexivity.
  assert (H2 : "Inactive" <> "") by discriminate.
  assert (H3 : Py.all_chars Scraper.not_rparen "Inactive" = true) by reflexivity.
  assert (H4 : Py.contains "inactive" (Py.lower (Py.strip "Inactive")) = true)
    by reflexivity.
  split; [exact H1 |]. split; [exact H2 |]. split; [exact H3 |]. split; [exact H4 |].
  exact (proj1 (proj2 extract_status_of_first_group "Team X " "Inactive" "" H1 H2 H3) H4).
Defined.

(** The table parser reads each row on its own: what a row adds does not
    depend on the rows around it, so a row without a year is passed over and
    the rows after it are still read. *)
Lemma parse_history_table_app (a b : list (list string)) :
  Scraper._parse_history_table (a ++ b) =
  (Scraper._parse_history_table a ++ Scraper._parse_history_table b)%list.
Proof.
  induction a as [| cells more IH]; [reflexivity |].
  cbn [app Scraper._parse_history_table].
  destruct cells as [| date_text [| team_text rest]]; try exact IH.
  destruct (Re.search_four_digits date_text); [| exact IH].
  cbn [app]. now rewrite IH.
Qed.

(** ** Worked examples *)

Example parse_history_table_skips_boilerplate :
  map (fun e => Py.dict_get e "team" "")
    (Scraper._parse_history_table
       [ ["2019-01-10 — 2019-06-01"; "Team A"];
         ["Join Date"; "Team"];
         ["2019-06-10 — Present"; "Team C (Loan)"] ]) =
  ["Team A"; "Team C"].
Proof. vm_compute. reflexivity. Qed.

Example history_entry_inactive :
  Scraper.history_entry "2020-04-13 — 2020-07-02" "Team X (Inactive)" =
  [ ("date_start", "2020-04-13"); ("date_end", "2020-07-02");
    ("date_range", "2020-04-13 — 2020-07-02");
    ("team", "Team X"); ("status", "Inactive") ].
Proof. vm_compute. reflexivity. Qed.

Example current_team_sentinels :
  forall player career_len stint_id stint_num,
    let s := Builder.stint_row Sample.now player career_len stint_id stint_num
               (Scraper.history_entry "2021-01-10 — Present" "Sentinels") in
    Stint.is_current_team s = true /\ Stint.year_end s = Some (Date.year Sample.now).
Proof. intros. split; reflexivity. Qed.

Example strptime_leap_day : Date.strptime "2020-02-29" = Ok (Date.mk 2020 2 29).
Proof. reflexivity. Qed.

Example strptime_no_such_day : Date.strptime "2021-02-29" = Raise ValueError.
Proof. reflexivity. Qed.

Example strptime_short_fields : Date.strptime "2020-4-7" = Ok (Date.mk 2020 4 7).
Proof. reflexivity. Qed.

Example toordinal_2020_04_13 : Date.toordinal (Date.mk 2020 4 13) = 737528.
Proof. reflexivity. Qed.

Example is_fake_team_lower_case_tier : Cleaner.is_fake_team "s-tier" = true.
Proof. vm_compute. reflexivity. Qed.

Example is_fake_team_placement_range : Cleaner.is_fake_team " 12th  -  13TH " = true.
Proof. vm_compute. reflexivity. Qed.

Example is_fake_team_real_name_with_digits : Cleaner.is_fake_team "100 Thieves" = false.
Proof. vm_compute. reflexivity. Qed.

Example merge_scenario :
  map Player.player_id (Merger.merge_databases Sample.batch_1 Sample.batch_2) =
  ["p1"; "p2"] /\
  hd_error (Merger.merge_databases Sample.batch_1 Sample.batch_2) =
  hd_error Sample.batch_1.
Proof. split; reflexivity. Qed.

Example title_case_fallback :
  Scraper._extract_status "Team X (acad 2nd-team)" = "Acad 2Nd-Team".
Proof. vm_compute. reflexivity. Qed.

(** * Further properties of the pipeline *)

Local Open Scope Z_scope.

(** ** Stint identifiers and stint numbers *)

Lemma rows_from_player_id (now : Date.t) (p : Player.t) (len : Z)
    (es : list (list (string * string))) :
  forall id num s, In s (rows_from now p len id num es) ->
    Stint.player_id s = Player.player_id p.
Proof.
  induction es as [| e more IH]; intros id num s H; [contradiction |].
  destruct H as [H | H]; [now subst s | eauto].
Qed.

Lemma player_rows_player_id (now : Date.t) (p : Player.t) (id : Z) (s : Stint.t) :
  In s (player_rows now p id) -> Stint.player_id s = Player.player_id p.
Proof.
  unfold player_rows. destruct (Player.career_history p); try contradiction.
  apply rows_from_player_id.
Qed.

Lemma select_player_all (x : string) (l : list Stint.t) :
  (forall s, In s l -> Stint.player_id s = x) -> Builder.select_player x l = l.
Proof.
  induction l as [| s r IH]; intros H; [reflexivity |].
  cbn [Builder.select_player filter].
  rewrite (H s (or_introl eq_refl)), String.eqb_refl. f_equal.
  apply IH. intros t Ht. apply H. now right.
Qed.

Lemma select_player_app (x : string) (a b : list Stint.t) :
  Builder.select_player x (a ++ b) =
  (Builder.select_player x a ++ Builder.select_player x b)%list.
Proof. unfold Builder.select_player. apply filter_app. Qed.

Lemma table_from_player_ids (now : Date.t) (players : list Player.t) :
  forall id s, In s (table_from now id players) ->
    In (Stint.player_id s) (map Player.player_id players).
Proof.
  induction players as [| p more IH]; intros id s H; [contradiction |].
  cbn [table_from] in H. apply in_app_or in H. destruct H as [H | H].
  - left. symmetry. eapply player_rows_player_id; eassumption.
  - right. eapply IH; eassumption.
Qed.

Lemma table_from_select (now : Date.t) (players : list Player.t) (p : Player.t) :
  NoDup (map Player.player_id players) -> In p players ->
  forall id, exists k,
    Builder.select_player (Player.player_id p) (table_from now id players) =
    player_rows now p k.
Proof.
  induction players as [| q more IH]; intros Hnd Hin id; [contradiction |].
  inversion Hnd as [| ? ? Hq Hnd']; subst.
  cbn [table_from]. rewrite select_player_app.
  destruct Hin as [Hin | Hin].
  - subst q. exists id.
    rewrite (select_player_all _ (player_rows now p id))
      by (intros s Hs; eapply player_rows_player_id; eassumption).
    rewrite select_player_none; [apply app_nil_r |].
    intros H. apply in_map_iff in H. destruct H as (s & Hs & Hin).
    apply table_from_player_ids in Hin. congruence.
  - destruct (IH Hnd' Hin
               (id + Z.of_nat (List.length (player_rows now q id)))) as [k Hk].
    exists k. rewrite Hk.
    rewrite select_player_none; [reflexivity |].
    intros H. apply in_map_iff in H. destruct H as (s & Hs & Hs').
    apply player_rows_player_id in Hs'.
    apply Hq. rewrite <- Hs', Hs. now apply in_map.
Qed.

Lemma rows_from_numbers (now : Date.t) (p : Player.t) (len : Z)
    (es : list (list (string * string))) :
  forall id n,
    map Stint.stint_number (rows_from now p len id (Z.of_nat n) es) =
    map Z.of_nat (seq n (List.length es)).
Proof.
  induction es as [| e more IH]; intros id n; [reflexivity |].
  cbn [rows_from map List.length seq]. f_equal.
  replace (Z.of_nat n + 1) with (Z.of_nat (S n)) by lia. apply IH.
Qed.

Lemma rows_from_ranges (now : Date.t) (p : Player.t) (len : Z)
    (es : list (list (string * string))) :
  forall id num,
    map Stint.date_range (rows_from now p len id num es) =
    map (fun e => Py.dict_get e "date_range" "") es /\
    map Stint.team (rows_from now p len id num es) =
    map (fun e => Py.dict_get e "team" "") es.
Proof.
  induction es as [| e more IH]; intros id num; [split; reflexivity |].
  cbn [rows_from map]. destruct (IH (id + 1) (num + 1)) as [H1 H2].
  rewrite H1, H2. split; reflexivity.
Qed.

(** The [stint_id] of a row is its position in the table, counted from 1.
    When the players have distinct [player_id]s, the stints of a player are
    those of the records of the career, in the order of the career, and
    their [stint_number]s run 1, 2, 3, ... without a gap. *)
Theorem stint_ids_and_numbers_follow_the_career :
  forall (now : Date.t) (players : list Player.t),
    let table := rows (Builder.build_career_stints_table now players) in
    (forall i s, nth_error table i = Some s -> Stint.stint_id s = Z.of_nat i + 1) /\
    (NoDup (map Player.player_id players) ->
     forall p, In p players ->
       let mine := Builder.select_player (Player.player_id p) table in
       gap_free (map Stint.stint_number mine) /\
       map Stint.date_range mine =
         map (fun e => Py.dict_get e "date_range" "") (career_records p) /\
       map Stint.team mine =
         map (fun e => Py.dict_get e "team" "") (career_records p)).
Proof.
  intros now players table. split.
  - intros i s H. unfold table in H. rewrite build_rows in H.
    apply table_from_id_at in H. lia.
  - intros Hnd p Hin mine. unfold mine, table. rewrite build_rows.
    destruct (table_from_select now players p Hnd Hin 1) as [k Hk].
    rewrite Hk. unfold player_rows, career_records.
    destruct (Player.career_history p) as [| e | entries].
    + repeat split.
    + repeat split.
    + split.
      * unfold gap_free. rewrite length_map, rows_from_length.
        apply (rows_from_numbers now p _ (good_prefix entries) k 1%nat).
      * apply rows_from_ranges.
Qed.

Lemma stint_ids_and_numbers_follow_the_career_witness :
  NoDup (map Player.player_id Sample.broken_middle) /\
  In (Sample.player "p2" (Career [Sample.entry_A])) Sample.broken_middle /\
  map Stint.team
    (Builder.select_player "p2"
       (rows (Builder.build_career_stints_table Sample.now Sample.broken_middle))) =
  ["Team A"].
Proof.
  assert (H1 : NoDup (map Player.player_id Sample.broken_middle)).
  { repeat constructor; simpl; intuition discriminate. }
  assert (H2 : In (Sample.player "p2" (Career [Sample.entry_A])) Sample.broken_middle).
  { right; left; reflexivity. }
  split; [exact H1 |]. split; [exact H2 |].
  exact (proj2 (proj2 (proj2
    (stint_ids_and_numbers_follow_the_career Sample.now Sample.broken_middle)
    H1 _ H2))).
Defined.

(** ** From a scraped table row to a stint *)

Lemma iso_text_plain (d : string) : iso_text d -> Py.all_chars plain d = true.
Proof.
  intros (y & m & dd & Hd & _ & _ & _ & Hy & Hm & Hdd). subst d.
  assert (Hdig : forall t, Py.all_chars Py.is_digit t = true ->
                           Py.all_chars plain t = true).
  { induction t as [| c r IH]; cbn [Py.all_chars]; [reflexivity |].
    intros H. apply andb_prop in H. destruct H as [Hc Hr].
    now rewrite (digit_plain c Hc), (IH Hr). }
  rewrite !all_chars_app. cbn [Py.all_chars].
  rewrite (Hdig y Hy), (Hdig m Hm), (Hdig dd Hdd). reflexivity.
Qed.

Lemma last_In {A : Type} (l : list A) (d : A) : l <> [] -> In (last l d) l.
Proof.
  induction l as [| a [| b r] IH]; intros H; [congruence | now left |].
  right. apply IH. discriminate.
Qed.

Lemma extract_end_date_present (date_range : string) :
  Builder.says_present (Scraper._extract_end_date date_range) =
  Py.contains "Present" date_range || Py.contains "present" date_range.
Proof.
  unfold Scraper._extract_end_date.
  destruct (Py.contains "Present" date_range || Py.contains "present" date_range);
    [reflexivity |].
  destruct (1 <? List.length (Scraper.findall_iso_dates date_range))%nat eqn:E;
    [| reflexivity].
  apply plain_never_says_present, iso_text_plain.
  assert (Hin : In (last (Scraper.findall_iso_dates date_range) "")
                   (Scraper.findall_iso_dates date_range)).
  { apply last_In. intros H. rewrite H in E. discriminate. }
  apply findall_from_occurs in Hin. destruct Hin as (pre & post & _ & Hd). exact Hd.
Qed.

(** The stint built from the entry that the scraper stores for a table row
    carries the normalised fields of that row, and it is the current team
    exactly when the date cell contains "Present" or "present"; its
    [year_end] is then the current year. *)
Theorem stint_of_scraped_row :
  forall (now : Date.t) (player : Player.t) (career_len stint_id stint_num : Z)
         (date_text team_text : string),
    let s := Builder.stint_row now player career_len stint_id stint_num
               (Scraper.history_entry date_text team_text) in
    Stint.date_range s = date_text /\
    Stint.date_start s = Scraper._extract_start_date date_text /\
    Stint.date_end s = Scraper._extract_end_date date_text /\
    Stint.team s = Scraper._clean_team_name team_text /\
    Stint.stint_status s = Scraper._extract_status team_text /\
    Stint.is_current_team s =
      (Py.contains "Present" date_text || Py.contains "present" date_text) /\
    (Stint.is_current_team s = true -> Stint.year_end s = Some (Date.year now)).
Proof.
  intros now player career_len stint_id stint_num d t s.
  assert (Hend : Stint.date_end s = Scraper._extract_end_date d) by reflexivity.
  assert (Hcur : Stint.is_current_team s =
                 if Py.truthy (Scraper._extract_end_date d)
                 then Builder.says_present (Scraper._extract_end_date d) else false)
    by reflexivity.
  assert (Hyear : Stint.year_end s =
                  if Py.truthy (Scraper._extract_end_date d)
                     && negb (Builder.says_present (Scraper._extract_end_date d))
                  then Builder._extract_year (Scraper._extract_end_date d)
                  else Some (Date.year now)) by reflexivity.
  assert (Hcur' : Stint.is_current_team s =
                  Builder.says_present (Scraper._extract_end_date d)).
  { rewrite Hcur. destruct (Scraper._extract_end_date d); reflexivity. }
  repeat split; try reflexivity.
  - rewrite Hcur'. apply extract_end_date_present.
  - intros H. rewrite Hyear. rewrite Hcur' in H. rewrite H.
    now rewrite andb_false_r.
Qed.

Lemma stint_of_scraped_row_witness :
  Stint.is_current_team
    (Builder.stint_row Sample.now (Sample.player "p1" Absent) 1 1 1
       (Scraper.history_entry "2021-01-10 — Present" "Sentinels")) = true /\
  Stint.year_end
    (Builder.stint_row Sample.now (Sample.player "p1" Absent) 1 1 1
       (Scraper.history_entry "2021-01-10 — Present" "Sentinels")) = Some 2026.
Proof.
  assert (H : Stint.is_current_team
    (Builder.stint_row Sample.now (Sample.player "p1" Absent) 1 1 1
       (Scraper.history_entry "2021-01-10 — Present" "Sentinels")) = true)
    by reflexivity.
  split; [exact H |].
  exact (proj2 (proj2 (proj2 (proj2 (proj2 (proj2
    (stint_of_scraped_row Sample.now (Sample.player "p1" Absent) 1 1 1
       "2021-01-10 — Present" "Sentinels")))))) H).
Defined.


(** ** The shape of the transitions table *)

Lemma built_frame_labelled (stints : list Stint.t) :
  stints <> [] -> columns (pd_DataFrame Stint.keys stints) = Stint.keys.
Proof. destruct stints; [congruence | reflexivity]. Qed.

Lemma built_transitions_rows (stints : list Stint.t) (tdf : DataFrame Transition.t) :
  stints <> [] ->
  Builder.build_team_transitions_table (pd_DataFrame Stint.keys stints) = Ok tdf ->
  rows tdf = all_transitions stints 1 (unique (map Stint.player_id stints)).
Proof.
  intros Hne Hb.
  destruct (build_transitions_labelled _ (built_frame_labelled stints Hne))
    as (tdf' & Hb' & Hrows & _).
  rewrite Hb in Hb'. inversion Hb'; subst tdf'. exact Hrows.
Qed.

Lemma list_sum_cons (a : nat) (l : list nat) :
  list_sum (a :: l) = (a + list_sum l)%nat.
Proof. reflexivity. Qed.

Lemma all_transitions_length (stints : list Stint.t) (ids : list string) :
  forall tid,
    List.length (all_transitions stints tid ids) =
    list_sum (map (fun x => List.length (player_pairs x stints)) ids).
Proof.
  induction ids as [| x more IH]; intros tid; [reflexivity |].
  cbn [all_transitions map]. rewrite list_sum_cons. rewrite length_app, transitions_of_length.
  now rewrite IH.
Qed.

Lemma count_one (x : string) (ids : list string) :
  NoDup ids -> In x ids ->
  list_sum (map (fun y => if String.eqb x y then 1%nat else 0%nat) ids) = 1%nat.
Proof.
  induction ids as [| y more IH]; intros Hnd Hin; [contradiction |].
  inversion Hnd as [| ? ? Hy Hnd']; subst. cbn [map]. rewrite ?list_sum_cons.
  destruct (String.eqb x y) eqn:E.
  - apply String.eqb_eq in E. subst y.
    assert (H0 : list_sum (map (fun y => if String.eqb x y then 1%nat else 0%nat) more)
                 = 0%nat).
    { clear IH Hnd Hnd' Hin. induction more as [| z r IHr]; [reflexivity |].
      cbn [map]. rewrite ?list_sum_cons. destruct (String.eqb x z) eqn:Ez.
      - apply String.eqb_eq in Ez. subst z. exfalso. apply Hy. now left.
      - rewrite IHr; [reflexivity |]. intros H. apply Hy. now right. }
    now rewrite H0.
  - destruct Hin as [Hin | Hin]; [subst; rewrite String.eqb_refl in E; discriminate |].
    now rewrite (IH Hnd' Hin).
Qed.

Lemma list_sum_map_add {A : Type} (f g : A -> nat) (l : list A) :
  list_sum (map (fun x => f x + g x)%nat l) =
  (list_sum (map f l) + list_sum (map g l))%nat.
Proof.
  induction l as [| a r IH]; [reflexivity |]. cbn [map]. rewrite ?list_sum_cons. rewrite IH. lia.
Qed.

Lemma stints_split_by_player (ids : list string) (l : list Stint.t) :
  NoDup ids -> (forall s, In s l -> In (Stint.player_id s) ids) ->
  list_sum (map (fun x => n_stints x l) ids) = List.length l.
Proof.
  intros Hnd. induction l as [| s r IH]; intros Hcov.
  - unfold n_stints. cbn. induction ids; [reflexivity |].
    cbn [map]. rewrite ?list_sum_cons. inversion Hnd; subst. now rewrite IHids.
  - assert (Heq : forall x, n_stints x (s :: r) =
                 ((if String.eqb (Stint.player_id s) x then 1 else 0)
                  + n_stints x r)%nat).
    { intros x. unfold n_stints. cbn [Builder.select_player filter].
      destruct (String.eqb (Stint.player_id s) x); reflexivity. }
    rewrite (map_ext _ _ Heq), list_sum_map_add.
    rewrite count_one; [| assumption | apply Hcov; now left].
    rewrite IH; [reflexivity |]. intros t Ht. apply Hcov. now right.
Qed.

Lemma pairs_plus_one (ids : list string) (l : list Stint.t) :
  (forall x, In x ids -> n_stints x l <> 0%nat) ->
  (list_sum (map (fun x => List.length (player_pairs x l)) ids) + List.length ids)%nat =
  list_sum (map (fun x => n_stints x l) ids).
Proof.
  induction ids as [| x more IH]; intros H; [reflexivity |].
  cbn [map List.length]. rewrite !list_sum_cons.
  assert (Hx : (List.length (player_pairs x l) + 1)%nat = n_stints x l).
  { unfold player_pairs. rewrite adjacent_length,
      (Permutation_length (sort_values_perm _)).
    fold (n_stints x l). specialize (H x (or_introl eq_refl)). lia. }
  specialize (IH (fun y Hy => H y (or_intror Hy))). lia.
Qed.

Lemma select_player_some (x : string) (l : list Stint.t) :
  In x (map Stint.player_id l) -> n_stints x l <> 0%nat.
Proof.
  unfold n_stints. induction l as [| s r IH]; intros H; [contradiction |].
  cbn [Builder.select_player filter].
  destruct (String.eqb (Stint.player_id s) x) eqn:E; [discriminate |].
  apply IH. destruct H as [H | H]; [| exact H].
  cbn in H. rewrite H, String.eqb_refl in E. discriminate.
Qed.

Lemma transitions_of_id_at (x : string) (pairs : list (Stint.t * Stint.t)) :
  forall tid i t,
    nth_error (transitions_of x tid pairs) i = Some t ->
    Transition.transition_id t = tid + Z.of_nat i.
Proof.
  induction pairs as [| p more IH]; intros tid i t H.
  - destruct i; discriminate.
  - destruct i as [| i]; cbn in H.
    + inversion H; subst. cbn. lia.
    + apply IH in H. lia.
Qed.

Lemma all_transitions_id_at (stints : list Stint.t) (ids : list string) :
  forall tid i t,
    nth_error (all_transitions stints tid ids) i = Some t ->
    Transition.transition_id t = tid + Z.of_nat i.
Proof.
  induction ids as [| x more IH]; intros tid i t H; cbn [all_transitions] in H.
  - destruct i; discriminate.
  - destruct (Nat.lt_ge_cases i
               (List.length (transitions_of x tid (player_pairs x stints))))
      as [Hlt | Hge].
    + rewrite nth_error_app1 in H by assumption.
      now apply transitions_of_id_at in H.
    + rewrite nth_error_app2 in H by assumption.
      apply IH in H. rewrite transitions_of_length in *. lia.
Qed.

(** The transitions table has one row less per player than the stints
    table: its length is the number of stints minus the number of distinct
    players; the [transition_id] of a row is its position, counted from 1. *)
Theorem transition_table_size_and_ids :
  forall (stints : list Stint.t) (tdf : DataFrame Transition.t),
    stints <> [] ->
    Builder.build_team_transitions_table (pd_DataFrame Stint.keys stints) = Ok tdf ->
    (List.length (rows tdf) + List.length (unique (map Stint.player_id stints)))%nat =
      List.length stints /\
    (forall i t, nth_error (rows tdf) i = Some t ->
                 Transition.transition_id t = Z.of_nat i + 1).
Proof.
  intros stints tdf Hne Hb.
  rewrite (built_transitions_rows stints tdf Hne Hb). split.
  - rewrite all_transitions_length, pairs_plus_one.
    + apply stints_split_by_player; [apply unique_from_NoDup |].
      intros s Hs. apply unique_In. now apply in_map.
    + intros x Hx. apply select_player_some. now apply unique_In.
  - intros i t H. apply all_transitions_id_at in H. lia.
Qed.

Lemma transition_table_size_and_ids_witness :
  rows (Builder.build_career_stints_table Sample.now Sample.noisy_middle) <> [] /\
  exists tdf,
    Builder.build_team_transitions_table
      (pd_DataFrame Stint.keys
         (rows (Builder.build_career_stints_table Sample.now Sample.noisy_middle)))
      = Ok tdf /\
    (List.length (rows tdf) + 1)%nat = 3%nat.
Proof.
  assert (H : rows (Builder.build_career_stints_table Sample.now Sample.noisy_middle) <> []).
  { vm_compute. discriminate. }
  split; [exact H |].
  eexists. split; [vm_compute; reflexivity |].
  exact (proj1 (transition_table_size_and_ids _ _ H eq_refl)).
Defined.

Lemma adjacent_In {A : Type} (l : list A) (a b : A) :
  In (a, b) (Builder.adjacent l) ->
  exists pre post, l = (pre ++ a :: b :: post)%list.
Proof.
  induction l as [| x r IH]; intros H; [contradiction |].
  destruct r as [| y t]; [contradiction |].
  rewrite adjacent_cons2 in H. destruct H as [H | H].
  - inversion H; subst. now exists [], t.
  - destruct (IH H) as (pre & post & Hl). exists (x :: pre), post.
    cbn [app]. now rewrite Hl.
Qed.

Lemma insert_by_number_sorted (s : Stint.t) (l : list Stint.t) :
  Sorted number_le l -> Sorted number_le (Builder.insert_by_number s l).
Proof.
  induction l as [| h t IH]; intros H; cbn [Builder.insert_by_number].
  - repeat constructor.
  - destruct (Stint.stint_number s <=? Stint.stint_number h) eqn:E.
    + constructor; [exact H |]. constructor. unfold number_le. now apply Z.leb_le.
    + apply Z.leb_gt in E. inversion H as [| ? ? Ht Hh]; subst.
      constructor; [now apply IH |].
      destruct t as [| h' t']; cbn [Builder.insert_by_number].
      * constructor. unfold number_le. lia.
      * destruct (Stint.stint_number s <=? Stint.stint_number h').
        -- constructor. unfold number_le. lia.
        -- inversion Hh; subst. now constructor.
Qed.

Lemma sort_values_sorted (l : list Stint.t) :
  Sorted number_le (Builder.sort_values l).
Proof.
  induction l as [| s t IH]; cbn; [constructor |].
  now apply insert_by_number_sorted.
Qed.

Lemma sorted_middle (pre post : list Stint.t) (a b : Stint.t) :
  Sorted number_le (pre ++ a :: b :: post) -> number_le a b.
Proof.
  induction pre as [| x r IH]; cbn [app]; intros H.
  - inversion H as [| ? ? _ Hh]; subst. now inversion Hh.
  - inversion H; subst. now apply IH.
Qed.

Lemma transitions_of_In (x : string) (pairs : list (Stint.t * Stint.t)) :
  forall tid t, In t (transitions_of x tid pairs) ->
    exists k a b, In (a, b) pairs /\ t = Builder.transition_row k x a b.
Proof.
  induction pairs as [| p r IH]; intros tid t H; [contradiction |].
  destruct H as [H | H].
  - exists tid, (fst p), (snd p). split; [left; now destruct p | now symmetry].
  - destruct (IH _ _ H) as (k & a & b & Hin & Ht).
    exists k, a, b. split; [now right | exact Ht].
Qed.

Lemma all_transitions_In (stints : list Stint.t) (ids : list string) :
  forall tid t, In t (all_transitions stints tid ids) ->
    exists x k a b,
      In (a, b) (player_pairs x stints) /\ t = Builder.transition_row k x a b.
Proof.
  induction ids as [| x more IH]; intros tid t H; [contradiction |].
  cbn [all_transitions] in H. apply in_app_or in H. destruct H as [H | H].
  - apply transitions_of_In in H. destruct H as (k & a & b & Hin & Ht).
    now exists x, k, a, b.
  - eapply IH; eassumption.
Qed.

(** Every transition joins two stints of one player that follow each other
    when that player's stints are put in the order of their stint numbers;
    its teams, statuses, date, year and duration are those of the two
    stints.  No transition joins stints of two players. *)
Theorem transitions_join_consecutive_stints :
  forall (stints : list Stint.t) (tdf : DataFrame Transition.t),
    stints <> [] ->
    Builder.build_team_transitions_table (pd_DataFrame Stint.keys stints) = Ok tdf ->
    forall t, In t (rows tdf) ->
      exists pre a b post,
        Builder.sort_values (Builder.select_player (Transition.player_id t) stints) =
          (pre ++ a :: b :: post)%list /\
        In a stints /\ In b stints /\
        Stint.player_id a = Transition.player_id t /\
        Stint.player_id b = Transition.player_id t /\
        Stint.stint_number a <= Stint.stint_number b /\
        Transition.from_team t = Stint.team a /\
        Transition.to_team t = Stint.team b /\
        Transition.from_stint_status t = Stint.stint_status a /\
        Transition.to_stint_status t = Stint.stint_status b /\
        Transition.transition_date t = Stint.date_start b /\
        Transition.transition_year t = Stint.year_start b /\
        Transition.from_duration_days t = Stint.duration_days a /\
        Transition.stint_number t = Stint.stint_number a.
Proof.
  intros stints tdf Hne Hb t Ht.
  rewrite (built_transitions_rows stints tdf Hne Hb) in Ht.
  apply all_transitions_In in Ht. destruct Ht as (x & k & a & b & Hin & Ht).
  subst t. cbn [Builder.transition_row Transition.player_id Transition.from_team
                Transition.to_team Transition.from_stint_status
                Transition.to_stint_status Transition.transition_date
                Transition.transition_year Transition.from_duration_days
                Transition.stint_number].
  unfold player_pairs in Hin. apply adjacent_In in Hin.
  destruct Hin as (pre & post & Hl).
  assert (Hmem : forall s, In s (pre ++ a :: b :: post)%list ->
                           In s stints /\ Stint.player_id s = x).
  { intros s Hs. rewrite <- Hl in Hs.
    apply (Permutation_in _ (sort_values_perm _)) in Hs.
    unfold Builder.select_player in Hs. apply filter_In in Hs.
    destruct Hs as [Hs Hx]. apply String.eqb_eq in Hx. now split. }
  destruct (Hmem a) as [Ha1 Ha2]; [apply in_or_app; right; now left |].
  destruct (Hmem b) as [Hb1 Hb2]; [apply in_or_app; right; right; now left |].
  exists pre, a, b, post.
  split; [exact Hl |].
  repeat split; try assumption.
  apply (sorted_middle pre post). rewrite <- Hl. apply sort_values_sorted.
Qed.

Lemma transitions_join_consecutive_stints_witness :
  rows (Builder.build_career_stints_table Sample.now Sample.noisy_middle) <> [] /\
  exists tdf t,
    Builder.build_team_transitions_table
      (pd_DataFrame Stint.keys
         (rows (Builder.build_career_stints_table Sample.now Sample.noisy_middle)))
      = Ok tdf /\
    In t (rows tdf) /\
    exists pre a b post,
      Builder.sort_values
        (Builder.select_player (Transition.player_id t)
           (rows (Builder.build_career_stints_table Sample.now Sample.noisy_middle))) =
      (pre ++ a :: b :: post)%list.
Proof.
  assert (H : rows (Builder.build_career_stints_table Sample.now Sample.noisy_middle) <> []).
  { vm_compute. discriminate. }
  split; [exact H |].
  destruct (Builder.build_team_transitions_table
      (pd_DataFrame Stint.keys
         (rows (Builder.build_career_stints_table Sample.now Sample.noisy_middle))))
    as [tdf | e] eqn:Hb; [| vm_compute in Hb; discriminate].
  destruct (rows tdf) as [| t r] eqn:Hr;
    [vm_compute in Hb; inversion Hb; subst tdf; vm_compute in Hr; discriminate |].
  exists tdf, t. split; [reflexivity |]. split; [rewrite Hr; now left |].
  destruct (transitions_join_consecutive_stints _ tdf H Hb t)
    as (pre & a & b & post & Hl & _).
  - rewrite Hr. now left.
  - now exists pre, a, b, post.
Defined.

(** ** The player statistics table *)

Lemma player_info_of_find (players : list Player.t) (x : string) :
  Builder.player_info_of players x =
  match find (fun p => String.eqb (Player.player_id p) x) players with
  | Some p => Ok p
  | None => Raise IndexError
  end.
Proof.
  unfold Builder.player_info_of.
  induction players as [| p r IH]; [reflexivity |].
  cbn [filter find]. destruct (String.eqb (Player.player_id p) x); [reflexivity | exact IH].
Qed.

Lemma find_player_some (players : list Player.t) (x : string) :
  In x (map Player.player_id players) ->
  exists p, find (fun p => String.eqb (Player.player_id p) x) players = Some p.
Proof.
  induction players as [| p r IH]; intros H; [contradiction |].
  cbn [find]. destruct (String.eqb (Player.player_id p) x) eqn:E.
  - now exists p.
  - apply IH. destruct H as [H | H]; [| exact H].
    cbn in H. rewrite H, String.eqb_refl in E. discriminate.
Qed.

Lemma find_player_none (players : list Player.t) (x : string) :
  ~ In x (map Player.player_id players) ->
  find (fun p => String.eqb (Player.player_id p) x) players = None.
Proof.
  induction players as [| p r IH]; intros H; [reflexivity |].
  cbn [find]. destruct (String.eqb (Player.player_id p) x) eqn:E.
  - apply String.eqb_eq in E. exfalso. apply H. now left.
  - apply IH. intros Hin. apply H. now right.
Qed.

Section Statistics.

Variable players : list Player.t.
Variable df : DataFrame Stint.t.
Hypothesis labelled : columns df = Stint.keys.

Lemma stats_step_labelled (stats : list PlayerStats.t) (x : string) :
  Builder.stats_step players df stats x =
  match find (fun p => String.eqb (Player.player_id p) x) players with
  | Some p =>
      Ok (stats ++ [Builder.stats_row p x (Builder.select_player x (rows df))])%list
  | None => Raise IndexError
  end.
Proof.
  unfold Builder.stats_step.
  rewrite (require_labelled df labelled) by reflexivity. cbn [bind].
  rewrite player_info_of_find.
  destruct (find _ players); cbn [bind]; [| reflexivity].
  rewrite (require_labelled df labelled) by reflexivity. reflexivity.
Qed.

Lemma foldM_stats_ok (ids : list string) :
  (forall x, In x ids -> In x (map Player.player_id players)) ->
  forall acc, exists added,
    Builder.foldM (Builder.stats_step players df) ids acc = Ok (acc ++ added)%list /\
    Forall2 (fun x r =>
               exists p,
                 find (fun p => String.eqb (Player.player_id p) x) players = Some p /\
                 r = Builder.stats_row p x (Builder.select_player x (rows df)))
            ids added.
Proof.
  induction ids as [| x more IH]; intros Hall acc.
  - exists []. split; [cbn; now rewrite app_nil_r | constructor].
  - cbn [Builder.foldM]. rewrite stats_step_labelled.
    destruct (find_player_some players x (Hall x (or_introl eq_refl))) as [p Hp].
    rewrite Hp. cbn [bind].
    destruct (IH (fun y Hy => Hall y (or_intror Hy))
                 (acc ++ [Builder.stats_row p x (Builder.select_player x (rows df))])%list)
      as (added & Hfold & Hrows).
    exists (Builder.stats_row p x (Builder.select_player x (rows df)) :: added).
    split.
    + rewrite Hfold, <- app_assoc. reflexivity.
    + constructor; [now exists p | exact Hrows].
Qed.

Lemma foldM_stats_missing (ids : list string) :
  (exists x, In x ids /\ ~ In x (map Player.player_id players)) ->
  forall acc,
    Builder.foldM (Builder.stats_step players df) ids acc = Raise IndexError.
Proof.
  induction ids as [| x more IH]; intros (y & Hy & Hmiss) acc; [contradiction |].
  cbn [Builder.foldM]. rewrite stats_step_labelled.
  destruct (find (fun p => String.eqb (Player.player_id p) x) players) as [p |] eqn:Hp;
    cbn [bind]; [| reflexivity].
  apply IH. exists y. split; [| exact Hmiss].
  destruct Hy as [Hy | Hy]; [| exact Hy]. subst y. exfalso.
  rewrite find_player_none in Hp by assumption. discriminate.
Qed.

End Statistics.

Lemma unique_from_length_le (l : list string) :
  forall seen, (List.length (unique_from seen l) <= List.length l)%nat.
Proof.
  induction l as [| a r IH]; intros seen; cbn [unique_from List.length]; [lia |].
  destruct (mem a seen); cbn [List.length]; [specialize (IH seen) | specialize (IH (a :: seen))];
    lia.
Qed.

Lemma unique_nonempty (l : list string) :
  l <> [] -> (1 <= List.length (unique l))%nat.
Proof.
  destruct l as [| a r]; [congruence |]. intros _. cbn. lia.
Qed.

Lemma status_counts_le (l : list Stint.t) :
  Builder.count_status "Inactive" l + Builder.count_status "Loan" l
  + Builder.count_status "Stand-in" l <= Z.of_nat (List.length l).
Proof.
  unfold Builder.count_status.
  induction l as [| s r IH]; [cbn; lia |].
  cbn [filter List.length].
  destruct (String.eqb (Stint.stint_status s) "Inactive") eqn:E1;
  destruct (String.eqb (Stint.stint_status s) "Loan") eqn:E2;
  destruct (String.eqb (Stint.stint_status s) "Stand-in") eqn:E3;
    try (apply String.eqb_eq in E1); try (apply String.eqb_eq in E2);
    try (apply String.eqb_eq in E3); try congruence;
    cbn [List.length]; lia.
Qed.

Lemma Forall2_In_r {A B : Type} (R : A -> B -> Prop) (l : list A) (l' : list B) (b : B) :
  Forall2 R l l' -> In b l' -> exists a, In a l /\ R a b.
Proof.
  induction 1 as [| a b' l l' Hab _ IH]; intros H; [contradiction |].
  destruct H as [H | H].
  - subst b'. exists a. split; [now left | exact Hab].
  - destruct (IH H) as (a' & Ha' & HR). exists a'. split; [now right | exact HR].
Qed.

Lemma Forall2_map_l {A B C : Type} (R : A -> B -> Prop) (f : B -> C) (g : A -> C)
    (l : list A) (l' : list B) :
  Forall2 R l l' -> (forall a b, R a b -> f b = g a) -> map f l' = map g l.
Proof.
  induction 1 as [| a b l l' Hab _ IH]; intros H; [reflexivity |].
  cbn [map]. rewrite (H a b Hab), (IH H). reflexivity.
Qed.

(** When every stint's player has a row in the players table, the
    statistics table is built: it has one row per distinct [player_id] of the
    stints, in the order of first appearance.  The identity fields of a row
    come from the first players row with that [player_id]; its [total_teams]
    is the number of that player's stints and is at least 1;
    [unique_teams] lies between 1 and [total_teams];
    [teams_played_multiple_times] is their difference; [career_span_years]
    is never negative; the three status counters together do not exceed
    [total_teams]. *)
Theorem player_stats_rows_and_invariants :
  forall (players : list Player.t) (stints : list Stint.t),
    stints <> [] ->
    (forall s, In s stints -> In (Stint.player_id s) (map Player.player_id players)) ->
    exists sdf,
      Builder.build_player_stats_table players (pd_DataFrame Stint.keys stints) = Ok sdf /\
      map PlayerStats.player_id (rows sdf) = unique (map Stint.player_id stints) /\
      forall r, In r (rows sdf) ->
        (exists p,
            find (fun p => String.eqb (Player.player_id p) (PlayerStats.player_id r))
                 players = Some p /\
            PlayerStats.real_name r = Player.real_name p /\
            PlayerStats.country r = Player.country p /\
            PlayerStats.current_team r = Player.current_team p /\
            PlayerStats.player_status r = Player.status p) /\
        PlayerStats.total_teams r =
          Z.of_nat (n_stints (PlayerStats.player_id r) stints) /\
        1 <= PlayerStats.unique_teams r <= PlayerStats.total_teams r /\
        PlayerStats.teams_played_multiple_times r =
          PlayerStats.total_teams r - PlayerStats.unique_teams r /\
        0 <= PlayerStats.career_span_years r /\
        PlayerStats.inactive_stints r + PlayerStats.loan_stints r
        + PlayerStats.standin_stints r <= PlayerStats.total_teams r.
Proof.
  intros players stints Hne Hall.
  set (df := pd_DataFrame Stint.keys stints).
  assert (Hlab : columns df = Stint.keys) by now apply built_frame_labelled.
  destruct (foldM_stats_ok players df Hlab (unique (map Stint.player_id stints)))
    with (acc := @nil PlayerStats.t) as (added & Hfold & Hrows).
  { intros x Hx. rewrite unique_In in Hx. apply in_map_iff in Hx.
    destruct Hx as (s & Hs & Hin). subst x. now apply Hall. }
  exists (pd_DataFrame PlayerStats.keys added).
  split.
  { unfold Builder.build_player_stats_table, column, has_column.
    rewrite Hlab. cbn [mem existsb String.eqb Ascii.eqb Bool.eqb orb Stint.keys bind].
    cbn [rows df pd_DataFrame] in *. rewrite Hfold. reflexivity. }
  cbn [rows pd_DataFrame]. split.
  { rewrite (Forall2_map_l _ PlayerStats.player_id (fun x => x) _ _ Hrows).
    - apply map_id.
    - intros x r (p & _ & Hr). now subst r. }
  intros r Hr. destruct (Forall2_In_r _ _ _ r Hrows Hr) as (x & Hx & p & Hp & Hrow).
  subst r. cbn [Builder.stats_row PlayerStats.player_id PlayerStats.real_name
                PlayerStats.country PlayerStats.current_team PlayerStats.player_status
                PlayerStats.total_teams PlayerStats.unique_teams
                PlayerStats.teams_played_multiple_times PlayerStats.career_span_years
                PlayerStats.inactive_stints PlayerStats.loan_stints
                PlayerStats.standin_stints].
  cbn [rows df pd_DataFrame].
  assert (Hsome : n_stints x stints <> 0%nat).
  { apply select_player_some. now apply unique_In. }
  unfold n_stints in *.
  set (mine := Builder.select_player x stints) in *.
  pose proof (unique_from_length_le (map Stint.team mine) []) as Hle.
  rewrite length_map in Hle. fold (unique (map Stint.team mine)) in Hle.
  assert (Hone : (1 <= List.length (unique (map Stint.team mine)))%nat).
  { apply unique_nonempty. destruct mine; [cbn in Hsome; congruence | discriminate]. }
  split; [exists p; repeat split; assumption |].
  split; [reflexivity |]. split; [lia |]. split; [reflexivity |]. split.
  - destruct (Builder.series_year Z.max (map Stint.year_end mine)) as [e |]; [| lia].
    destruct (Builder.series_year Z.min (map Stint.year_start mine)) as [s |]; [| lia].
    destruct (e >? s) eqn:E; [| lia]. apply Z.gtb_lt in E. lia.
  - apply status_counts_le.
Qed.

Lemma player_stats_rows_and_invariants_witness :
  rows (Builder.build_career_stints_table Sample.now Sample.broken_middle) <> [] /\
  exists sdf,
    Builder.build_player_stats_table Sample.broken_middle
      (pd_DataFrame Stint.keys
         (rows (Builder.build_career_stints_table Sample.now Sample.broken_middle)))
      = Ok sdf /\
    map PlayerStats.player_id (rows sdf) = ["p1"; "p2"].
Proof.
  assert (H : rows (Builder.build_career_stints_table Sample.now Sample.broken_middle) <> []).
  { vm_compute. discriminate. }
  split; [exact H |].
  destruct (player_stats_rows_and_invariants Sample.broken_middle _ H)
    as (sdf & Hb & Hids & _).
  - intros s Hs. vm_compute in Hs. destruct Hs as [Hs | [Hs | []]]; subst s;
      vm_compute; tauto.
  - exists sdf. split; [exact Hb | exact Hids].
Defined.

(** When some stint belongs to a player without a row in the players table,
    the statistics builder raises [IndexError] (the [.iloc[0]] of an empty
    selection) and returns no table at all. *)
Theorem player_stats_missing_player_raises_IndexError :
  forall (players : list Player.t) (stints : list Stint.t) (s : Stint.t),
    In s stints ->
    ~ In (Stint.player_id s) (map Player.player_id players) ->
    Builder.build_player_stats_table players (pd_DataFrame Stint.keys stints) =
    Raise IndexError.
Proof.
  intros players stints s Hs Hmiss.
  assert (Hne : stints <> []) by (intros H; subst; contradiction).
  set (df := pd_DataFrame Stint.keys stints).
  assert (Hlab : columns df = Stint.keys) by now apply built_frame_labelled.
  unfold Builder.build_player_stats_table, column, has_column.
  rewrite Hlab. cbn [mem existsb String.eqb Ascii.eqb Bool.eqb orb Stint.keys bind].
  rewrite (foldM_stats_missing players df Hlab); [reflexivity |].
  exists (Stint.player_id s). split; [| exact Hmiss].
  apply unique_In. cbn [rows df pd_DataFrame]. now apply in_map.
Qed.

Lemma player_stats_missing_player_raises_IndexError_witness :
  Builder.build_player_stats_table []
    (Builder.build_career_stints_table Sample.now Sample.single_date) =
  Raise IndexError.
Proof.
  apply (player_stats_missing_player_raises_IndexError []
           (rows (Builder.build_career_stints_table Sample.now Sample.single_date))
           (Builder.stint_row Sample.now
              (Sample.player "p1"
                 (Career [Entry (Scraper.history_entry "2020-04-13" "Team X")]))
              1 1 1 (Scraper.history_entry "2020-04-13" "Team X"))).
  - left. reflexivity.
  - intros H. exact H.
Defined.

Lemma calculate_duration_nonneg (now : Date.t) (date_start date_end : string) :
  0 <= Builder._calculate_duration now date_start date_end.
Proof.
  unfold Builder._calculate_duration.
  destruct (negb (Py.truthy date_start) || negb (Py.truthy date_end)); [lia |].
  destruct (Builder.says_present date_end); cbn [bind].
  - destruct (Date.strptime date_start); cbn [bind]; lia.
  - destruct (Date.strptime date_end); cbn [bind]; [| lia].
    destruct (Date.strptime date_start); cbn [bind]; lia.
Qed.

Lemma fold_add_nonneg (l : list Z) :
  (forall z, In z l -> 0 <= z) -> forall acc, acc <= fold_left Z.add l acc.
Proof.
  induction l as [| a r IH]; intros H acc; cbn [fold_left]; [lia |].
  specialize (IH (fun z Hz => H z (or_intror Hz)) (acc + a)).
  specialize (H a (or_introl eq_refl)). lia.
Qed.

(** The three builders compose: when the stints table built from the
    players has at least one row, the transitions table and the statistics
    table are both built from it, without an error, and every player's
    [total_career_days] is a sum of non-negative durations. *)
Theorem derived_tables_of_built_stints :
  forall (now : Date.t) (players : list Player.t),
    rows (Builder.build_career_stints_table now players) <> [] ->
    exists tdf sdf,
      Builder.build_team_transitions_table
        (Builder.build_career_stints_table now players) = Ok tdf /\
      Builder.build_player_stats_table players
        (Builder.build_career_stints_table now players) = Ok sdf /\
      (forall r, In r (rows sdf) ->
         In (PlayerStats.player_id r) (map Player.player_id players) /\
         0 <= PlayerStats.total_career_days r).
Proof.
  intros now players Hne.
  set (stints := rows (Builder.build_career_stints_table now players)) in *.
  assert (Hdf : Builder.build_career_stints_table now players =
                pd_DataFrame Stint.keys stints) by reflexivity.
  rewrite Hdf.
  assert (Hall : forall s, In s stints ->
                   In (Stint.player_id s) (map Player.player_id players)).
  { intros s Hs. unfold stints in Hs. rewrite build_rows in Hs.
    eapply table_from_player_ids; eassumption. }
  destruct (build_transitions_labelled _ (built_frame_labelled stints Hne))
    as (tdf & Hb & _).
  set (df := pd_DataFrame Stint.keys stints).
  assert (Hlab : columns df = Stint.keys) by now apply built_frame_labelled.
  destruct (foldM_stats_ok players df Hlab (unique (map Stint.player_id stints)))
    with (acc := @nil PlayerStats.t) as (added & Hfold & Hrows).
  { intros x Hx. rewrite unique_In in Hx. apply in_map_iff in Hx.
    destruct Hx as (s & Hs & Hin). subst x. now apply Hall. }
  exists tdf, (pd_DataFrame PlayerStats.keys added).
  split; [exact Hb |]. split.
  { unfold Builder.build_player_stats_table, column, has_column. fold df.
    rewrite Hlab. cbn [mem existsb String.eqb Ascii.eqb Bool.eqb orb Stint.keys bind].
    cbn [rows df pd_DataFrame] in *. rewrite Hfold. reflexivity. }
  cbn [rows pd_DataFrame]. intros r Hr.
  destruct (Forall2_In_r _ _ _ r Hrows Hr) as (x & Hx & p & Hp & Hrow).
  subst r. cbn [Builder.stats_row PlayerStats.player_id PlayerStats.total_career_days].
  split.
  - rewrite unique_In in Hx. apply in_map_iff in Hx.
    destruct Hx as (s & Hs & Hin). subst x. now apply Hall.
  - unfold Builder.sum_Z. apply fold_add_nonneg.
    intros z Hz. apply in_map_iff in Hz. destruct Hz as (s & Hs & Hin). subst z.
    cbn [rows df pd_DataFrame] in Hin.
    unfold Builder.select_player in Hin. apply filter_In in Hin. destruct Hin as [Hin _].
    unfold stints in Hin. rewrite build_rows in Hin. apply table_from_row in Hin.
    destruct Hin as (q & len & k & num & e & _ & Hs). subst s.
    apply calculate_duration_nonneg.
Qed.

Lemma derived_tables_of_built_stints_witness :
  rows (Builder.build_career_stints_table Sample.now Sample.noisy_middle) <> [] /\
  exists tdf sdf,
    Builder.build_team_transitions_table
      (Builder.build_career_stints_table Sample.now Sample.noisy_middle) = Ok tdf /\
    Builder.build_player_stats_table Sample.noisy_middle
      (Builder.build_career_stints_table Sample.now Sample.noisy_middle) = Ok sdf.
Proof.
  assert (H : rows (Builder.build_career_stints_table Sample.now Sample.noisy_middle) <> []).
  { vm_compute. discriminate. }
  split; [exact H |].
  destruct (derived_tables_of_built_stints Sample.now Sample.noisy_middle H)
    as (tdf & sdf & H1 & H2 & _).
  now exists tdf, sdf.
Defined.

(** ** Edge cases of the cleaner *)

Lemma unique_from_fixed (l : list string) :
  forall seen, NoDup l -> (forall x, In x l -> ~ In x seen) ->
    unique_from seen l = l.
Proof.
  induction l as [| a r IH]; intros seen Hnd Hdis; [reflexivity |].
  cbn [unique_from]. inversion Hnd as [| ? ? Ha Hnd']; subst.
  assert (Hs : mem a seen = false).
  { apply mem_false_In. apply Hdis. now left. }
  rewrite Hs. f_equal. apply IH; [assumption |].
  intros x Hx [H | H]; [subst; contradiction | apply (Hdis x); [now right | assumption]].
Qed.

Lemma build_transitions_frame (stints : list Stint.t) :
  stints <> [] ->
  exists transitions,
    Builder.build_team_transitions_table (pd_DataFrame Stint.keys stints) =
    Ok (pd_DataFrame Transition.keys transitions) /\
    transitions = all_transitions stints 1 (unique (map Stint.player_id stints)).
Proof.
  intros Hne. set (df := pd_DataFrame Stint.keys stints).
  assert (Hlab : columns df = Stint.keys) by now apply built_frame_labelled.
  unfold Builder.build_team_transitions_table, column, has_column.
  rewrite Hlab. cbn [mem existsb String.eqb Ascii.eqb Bool.eqb orb Stint.keys bind].
  destruct (foldM_transitions_step df Hlab (unique (map Stint.player_id (rows df))) [] 1)
    as [tid' H].
  rewrite H. cbn [bind fst app]. eexists. split; reflexivity.
Qed.

(** The cleaner fails on empty tables.  [clean_stints] raises
    [ZeroDivisionError] on a stints table that has its columns and no row
    (the percentage of removed rows divides by the row count), and [KeyError]
    when the ['team'] column is missing.  When no player has a second stint,
    the transitions table is built without rows or columns, and
    [clean_transitions] raises [KeyError] on ['from_team']. *)
Theorem cleaner_fails_on_empty_tables :
  (forall df : DataFrame Stint.t,
      has_column df "team" = true -> rows df = [] ->
      Cleaner.clean_stints df = Raise ZeroDivisionError) /\
  (forall df : DataFrame Stint.t,
      has_column df "team" = false ->
      Cleaner.clean_stints df = Raise (KeyError "team")) /\
  (forall stints : list Stint.t,
      stints <> [] -> NoDup (map Stint.player_id stints) ->
      exists tdf,
        Builder.build_team_transitions_table (pd_DataFrame Stint.keys stints) = Ok tdf /\
        rows tdf = [] /\
        Cleaner.clean_transitions tdf = Raise (KeyError "from_team")).
Proof.
  split; [| split].
  - intros df Hcol Hrows. unfold Cleaner.clean_stints, column.
    rewrite Hcol, Hrows. reflexivity.
  - intros df Hcol. unfold Cleaner.clean_stints, column. now rewrite Hcol.
  - intros stints Hne Hnd.
    destruct (build_transitions_frame stints Hne) as (transitions & Hb & Ht).
    assert (Hnil : transitions = []).
    { apply length_zero_iff_nil. rewrite Ht.
      set (ids := unique (map Stint.player_id stints)).
      assert (Hp : (list_sum (map (fun x => List.length (player_pairs x stints)) ids)
                    + List.length ids)%nat =
                   list_sum (map (fun x => n_stints x stints) ids)).
      { apply pairs_plus_one. intros x Hx. apply select_player_some.
        now apply unique_In. }
      assert (Hs : list_sum (map (fun x => n_stints x stints) ids) = List.length stints).
      { apply stints_split_by_player; [apply unique_from_NoDup |].
        intros s Hin. apply unique_In. now apply in_map. }
      assert (Hu : List.length ids = List.length stints).
      { unfold ids, unique. rewrite unique_from_fixed by auto. apply length_map. }
      rewrite all_transitions_length. fold ids. lia. }
    subst transitions. rewrite Hnil in Hb.
    eexists. split; [exact Hb |]. split; reflexivity.
Qed.

Lemma cleaner_fails_on_empty_tables_witness :
  rows (Builder.build_career_stints_table Sample.now Sample.single_date) <> [] /\
  NoDup (map Stint.player_id
           (rows (Builder.build_career_stints_table Sample.now Sample.single_date))) /\
  exists tdf,
    Builder.build_team_transitions_table
      (pd_DataFrame Stint.keys
         (rows (Builder.build_career_stints_table Sample.now Sample.single_date))) = Ok tdf /\
    rows tdf = [] /\
    Cleaner.clean_transitions tdf = Raise (KeyError "from_team").
Proof.
  assert (H1 : rows (Builder.build_career_stints_table Sample.now Sample.single_date) <> []).
  { vm_compute. discriminate. }
  assert (H2 : NoDup (map Stint.player_id
           (rows (Builder.build_career_stints_table Sample.now Sample.single_date)))).
  { vm_compute. repeat constructor. intros []. }
  split; [exact H1 |]. split; [exact H2 |].
  exact (proj2 (proj2 cleaner_fails_on_empty_tables) _ H1 H2).
Defined.

(** ** Cleaning twice, and cleaning a table without noise *)

Lemma filter_idempotent {A : Type} (f : A -> bool) (l : list A) :
  filter f (filter f l) = filter f l.
Proof.
  induction l as [| a r IH]; [reflexivity |]. cbn [filter].
  destruct (f a) eqn:E; [cbn [filter]; rewrite E; now f_equal | exact IH].
Qed.

Lemma filter_all {A : Type} (f : A -> bool) (l : list A) :
  (forall a, In a l -> f a = true) -> filter f l = l.
Proof.
  induction l as [| a r IH]; intros H; [reflexivity |]. cbn [filter].
  rewrite (H a (or_introl eq_refl)). f_equal. apply IH. intros b Hb. apply H. now right.
Qed.

Lemma clean_stints_column (df df' : DataFrame Stint.t) :
  Cleaner.clean_stints df = Ok df' -> has_column df "team" = true.
Proof.
  unfold Cleaner.clean_stints, column.
  destruct (has_column df "team"); [reflexivity | discriminate].
Qed.

(** A cleaned stints table holds no noise team.  Cleaning it again gives
    the same table when it still has a row, and raises [ZeroDivisionError]
    when the first cleaning removed every row. *)
Theorem clean_stints_twice :
  forall df df' : DataFrame Stint.t,
    Cleaner.clean_stints df = Ok df' ->
    (forall s, In s (rows df') -> Cleaner.is_fake_team (Stint.team s) = false) /\
    (rows df' <> [] -> Cleaner.clean_stints df' = Ok df') /\
    (rows df' = [] -> Cleaner.clean_stints df' = Raise ZeroDivisionError).
Proof.
  intros df df' H.
  pose proof (clean_stints_column df df' H) as Hcol.
  apply clean_stints_rows in H. destruct H as [Hr Hc].
  assert (Hcol' : has_column df' "team" = true).
  { unfold has_column in *. now rewrite Hc. }
  split; [| split].
  - intros s Hs. rewrite Hr in Hs. apply filter_In in Hs. destruct Hs as [_ Hs].
    unfold Cleaner.real_stint in Hs. now apply negb_true_iff in Hs.
  - intros Hne. rewrite (clean_stints_ok df' Hne Hcol').
    rewrite Hr at 1. rewrite filter_idempotent, <- Hr. now destruct df'.
  - intros Hnil. unfold Cleaner.clean_stints, column. rewrite Hcol', Hnil. reflexivity.
Qed.

Lemma clean_stints_twice_witness :
  exists df',
    Cleaner.clean_stints
      (Builder.build_career_stints_table Sample.now Sample.noisy_middle) = Ok df' /\
    rows df' <> [] /\
    Cleaner.clean_stints df' = Ok df'.
Proof.
  destruct (Cleaner.clean_stints
      (Builder.build_career_stints_table Sample.now Sample.noisy_middle))
    as [df' | e] eqn:H; [| vm_compute in H; discriminate].
  assert (Hne : rows df' <> []).
  { vm_compute in H. inversion H; subst df'. vm_compute. discriminate. }
  exists df'. split; [reflexivity |]. split; [exact Hne |].
  exact (proj1 (proj2 (clean_stints_twice _ df' H)) Hne).
Defined.

Lemma all_transitions_teams (stints : list Stint.t) (ids : list string) :
  forall tid t, In t (all_transitions stints tid ids) ->
    exists a b, In a stints /\ In b stints /\
      Transition.from_team t = Stint.team a /\ Transition.to_team t = Stint.team b.
Proof.
  intros tid t H. apply all_transitions_In in H.
  destruct H as (x & k & a & b & Hin & Ht). subst t.
  unfold player_pairs in Hin. apply adjacent_In in Hin.
  destruct Hin as (pre & post & Hl).
  assert (Hmem : forall s, In s (pre ++ a :: b :: post)%list -> In s stints).
  { intros s Hs. rewrite <- Hl in Hs.
    apply (Permutation_in _ (sort_values_perm _)) in Hs.
    unfold Builder.select_player in Hs. now apply filter_In in Hs. }
  exists a, b. repeat split.
  - apply Hmem. apply in_or_app. right. now left.
  - apply Hmem. apply in_or_app. right. right. now left.
Qed.

(** When no stint has a noise team, the cleaner returns the stints table
    as it is, and the transitions table as it is when it has a row. *)
Theorem cleaning_without_noise_changes_nothing :
  forall (stints : list Stint.t) (tdf : DataFrame Transition.t),
    stints <> [] ->
    (forall s, In s stints -> Cleaner.is_fake_team (Stint.team s) = false) ->
    Builder.build_team_transitions_table (pd_DataFrame Stint.keys stints) = Ok tdf ->
    Cleaner.clean_stints (pd_DataFrame Stint.keys stints) =
      Ok (pd_DataFrame Stint.keys stints) /\
    (rows tdf <> [] -> Cleaner.clean_transitions tdf = Ok tdf).
Proof.
  intros stints tdf Hne Hreal Hb. split.
  - rewrite clean_stints_ok.
    + cbn [rows pd_DataFrame]. rewrite filter_all.
      * destruct stints; [congruence | reflexivity].
      * intros s Hs. unfold Cleaner.real_stint. now rewrite (Hreal s Hs).
    + exact Hne.
    + unfold has_column. now rewrite built_frame_labelled.
  - intros Hrows.
    destruct (build_transitions_frame stints Hne) as (transitions & Hb' & Ht).
    rewrite Hb in Hb'. inversion Hb'; subst tdf; clear Hb'.
    cbn [rows pd_DataFrame] in Hrows.
    rewrite clean_transitions_ok.
    + cbn [rows pd_DataFrame columns]. rewrite filter_all; [reflexivity |].
      intros t Hin. rewrite Ht in Hin. apply all_transitions_teams in Hin.
      destruct Hin as (a & b & Ha & Hb2 & Hf & Hto).
      unfold Cleaner.real_transition. rewrite Hf, Hto.
      now rewrite (Hreal a Ha), (Hreal b Hb2).
    + exact Hrows.
    + cbn [columns pd_DataFrame]. destruct transitions; [congruence | reflexivity].
Qed.

Lemma cleaning_without_noise_changes_nothing_witness :
  exists tdf,
    Builder.build_team_transitions_table
      (pd_DataFrame Stint.keys
         (rows (Builder.build_career_stints_table Sample.now Sample.broken_middle))) =
      Ok tdf /\
    Cleaner.clean_stints
      (pd_DataFrame Stint.keys
         (rows (Builder.build_career_stints_table Sample.now Sample.broken_middle))) =
    Ok (pd_DataFrame Stint.keys
          (rows (Builder.build_career_stints_table Sample.now Sample.broken_middle))).
Proof.
  eexists. split; [vm_compute; reflexivity |].
  refine (proj1 (cleaning_without_noise_changes_nothing
            (rows (Builder.build_career_stints_table Sample.now Sample.broken_middle))
            _ _ _ eq_refl)).
  - vm_compute. discriminate.
  - intros s Hs. vm_compute in Hs. destruct Hs as [Hs | [Hs | []]]; subst s;
      vm_compute; reflexivity.
Defined.

(** ** Cleaned transitions against rebuilt transitions *)












(** ** Recalculated statistics *)

Lemma require_ok_or_key {A : Type} (df : DataFrame A) (names : list string) :
  Builder.require df names = Ok tt \/ exists k, Builder.require df names = Raise (KeyError k).
Proof.
  induction names as [| n more IH]; cbn [Builder.require]; [now left |].
  destruct (has_column df n); [exact IH | right; now exists n].
Qed.

Lemma recalc_step_ok (sdf : DataFrame Stint.t) (odf : DataFrame PlayerStats.t)
    (stats stats' : list PlayerStats.t) (x : string) :
  Cleaner.recalc_step sdf odf stats x = Ok stats' ->
  stats' = stats \/
  exists o rest,
    filter (fun o => String.eqb (PlayerStats.player_id o) x) (rows odf) = o :: rest /\
    Builder.select_player x (rows sdf) <> [] /\
    stats' = (stats ++ [Cleaner.recalculated_row odf o x
                          (Builder.sort_values (Builder.select_player x (rows sdf)))])%list.
Proof.
  unfold Cleaner.recalc_step.
  destruct (Builder.require sdf ["player_id"; "stint_number"]) as [[] | e];
    cbn [bind]; [| discriminate].
  destruct (Builder.sort_values (Builder.select_player x (rows sdf))) as [| s l] eqn:Hs.
  - intros H. inversion H. now left.
  - destruct (Builder.require odf ["player_id"]) as [[] | e]; cbn [bind]; [| discriminate].
    destruct (filter _ (rows odf)) as [| o rest] eqn:Ho.
    + intros H. inversion H. now left.
    + destruct (Builder.require sdf _) as [[] | e]; cbn [bind]; [| discriminate].
      destruct (Builder.require odf _) as [[] | e]; cbn [bind]; [| discriminate].
      intros H. inversion H. right. exists o, rest. split; [reflexivity |].
      split; [| reflexivity].
      intros Hnil. rewrite Hnil in Hs. discriminate.
Qed.

Lemma foldM_recalc_ok (sdf : DataFrame Stint.t) (odf : DataFrame PlayerStats.t)
    (ids : list string) :
  forall acc res,
    Builder.foldM (Cleaner.recalc_step sdf odf) ids acc = Ok res ->
    exists added, res = (acc ++ added)%list /\ Forall (recalculated_for sdf odf) added.
Proof.
  induction ids as [| x more IH]; intros acc res H.
  - cbn in H. inversion H. exists []. split; [now rewrite app_nil_r | constructor].
  - cbn [Builder.foldM] in H.
    destruct (Cleaner.recalc_step sdf odf acc x) as [stats' |] eqn:Hstep;
      cbn [bind] in H; [| discriminate].
    destruct (IH _ _ H) as (added & Hres & Hall).
    apply recalc_step_ok in Hstep. destruct Hstep as [Hsame | (o & rest & Ho & Hne & Hs)].
    + subst stats'. now exists added.
    + subst stats'. eexists (_ :: added). split.
      * rewrite Hres, <- app_assoc. reflexivity.
      * constructor; [| exact Hall]. now exists x, o, rest.
Qed.

Lemma select_player_In (x : string) (l : list Stint.t) :
  Builder.select_player x l <> [] -> In x (map Stint.player_id l).
Proof.
  intros H. destruct (Builder.select_player x l) as [| s r] eqn:E; [congruence |].
  assert (Hs : In s (Builder.select_player x l)) by (rewrite E; now left).
  unfold Builder.select_player in Hs. apply filter_In in Hs. destruct Hs as [Hs Hx].
  apply String.eqb_eq in Hx. subst x. now apply in_map.
Qed.

(** Every row of the recalculated statistics belongs to a player who has a
    stint in the given stints table and a row in the original statistics: its
    identity fields are copied from the first such original row, and its
    counters are computed from the player's stints: [total_teams] is their
    number and is at least 1, [unique_teams] lies between 1 and
    [total_teams], [teams_played_multiple_times] is the difference,
    [career_span_years] is not negative and the status counters do not
    exceed [total_teams]. *)
Theorem recalculated_stats_rows :
  forall (sdf : DataFrame Stint.t) (odf res : DataFrame PlayerStats.t),
    Cleaner.recalculate_player_stats sdf odf = Ok res ->
    forall r, In r (rows res) ->
      In (PlayerStats.player_id r) (map Stint.player_id (rows sdf)) /\
      (exists o rest,
          filter (fun o => String.eqb (PlayerStats.player_id o) (PlayerStats.player_id r))
                 (rows odf) = o :: rest /\
          PlayerStats.real_name r = PlayerStats.real_name o /\
          PlayerStats.country r = PlayerStats.country o /\
          PlayerStats.current_team r = PlayerStats.current_team o /\
          PlayerStats.player_status r = PlayerStats.player_status o /\
          PlayerStats.is_active r = PlayerStats.is_active o /\
          PlayerStats.has_current_team r = PlayerStats.has_current_team o) /\
      PlayerStats.total_teams r =
        Z.of_nat (n_stints (PlayerStats.player_id r) (rows sdf)) /\
      1 <= PlayerStats.unique_teams r <= PlayerStats.total_teams r /\
      PlayerStats.teams_played_multiple_times r =
        PlayerStats.total_teams r - PlayerStats.unique_teams r /\
      0 <= PlayerStats.career_span_years r /\
      PlayerStats.inactive_stints r + PlayerStats.loan_stints r
      + PlayerStats.standin_stints r <= PlayerStats.total_teams r.
Proof.
  intros sdf odf res H r Hr.
  unfold Cleaner.recalculate_player_stats in H.
  destruct (column sdf "player_id" Stint.player_id) as [ids |]; cbn [bind] in H;
    [| discriminate].
  destruct (Builder.foldM (Cleaner.recalc_step sdf odf) (unique ids) [])
    as [stats |] eqn:Hfold; cbn [bind] in H; [| discriminate].
  inversion H; subst res; clear H. cbn [rows pd_DataFrame] in Hr.
  apply foldM_recalc_ok in Hfold. destruct Hfold as (added & Hres & Hall).
  cbn [app] in Hres. subst stats.
  rewrite Forall_forall in Hall. destruct (Hall r Hr) as (x & o & rest & Ho & Hne & Hrow).
  subst r.
  cbn [Cleaner.recalculated_row PlayerStats.player_id PlayerStats.real_name
       PlayerStats.country PlayerStats.current_team PlayerStats.player_status
       PlayerStats.total_teams PlayerStats.unique_teams
       PlayerStats.teams_played_multiple_times PlayerStats.career_span_years
       PlayerStats.inactive_stints PlayerStats.loan_stints PlayerStats.standin_stints
       PlayerStats.is_active PlayerStats.has_current_team].
  set (mine := Builder.sort_values (Builder.select_player x (rows sdf))).
  assert (Hlen : List.length mine = n_stints x (rows sdf)).
  { apply Permutation_length, sort_values_perm. }
  assert (Hpos : n_stints x (rows sdf) <> 0%nat).
  { unfold n_stints. destruct (Builder.select_player x (rows sdf));
      [congruence | discriminate]. }
  pose proof (unique_from_length_le (map Stint.team mine) []) as Hle.
  rewrite length_map in Hle. fold (unique (map Stint.team mine)) in Hle.
  assert (Hone : (1 <= List.length (unique (map Stint.team mine)))%nat).
  { apply unique_nonempty. destruct mine; [cbn in Hlen; congruence | discriminate]. }
  split; [now apply select_player_In |].
  split; [exists o, rest; repeat split; assumption |].
  split; [now rewrite Hlen |]. split; [lia |]. split; [reflexivity |]. split.
  - destruct (Builder.series_year Z.max (map Stint.year_end mine)) as [e |]; [| lia].
    destruct (Builder.series_year Z.min (map Stint.year_start mine)) as [s |]; [| lia].
    destruct (e >? s) eqn:E; [| lia]. apply Z.gtb_lt in E. lia.
  - apply status_counts_le.
Qed.

Lemma recalculated_stats_rows_witness :
  exists sdf odf res r,
    Cleaner.clean_stints
      (Builder.build_career_stints_table Sample.now Sample.noisy_middle) = Ok sdf /\
    Builder.build_player_stats_table Sample.noisy_middle
      (Builder.build_career_stints_table Sample.now Sample.noisy_middle) = Ok odf /\
    Cleaner.recalculate_player_stats sdf odf = Ok res /\
    In r (rows res) /\
    PlayerStats.total_teams r = 2.
Proof.
  destruct (Cleaner.clean_stints
      (Builder.build_career_stints_table Sample.now Sample.noisy_middle))
    as [sdf | e] eqn:Hs; [| vm_compute in Hs; discriminate].
  destruct (Builder.build_player_stats_table Sample.noisy_middle
      (Builder.build_career_stints_table Sample.now Sample.noisy_middle))
    as [odf | e] eqn:Ho; [| vm_compute in Ho; discriminate].
  destruct (Cleaner.recalculate_player_stats sdf odf) as [res | e] eqn:Hr;
    [| vm_compute in Hs; inversion Hs; subst sdf; vm_compute in Ho; inversion Ho;
       subst odf; vm_compute in Hr; discriminate].
  destruct (rows res) as [| r rest] eqn:Hrows;
    [vm_compute in Hs; inversion Hs; subst sdf; vm_compute in Ho; inversion Ho;
     subst odf; vm_compute in Hr; inversion Hr; subst res; vm_compute in Hrows;
     discriminate |].
  assert (Hin : In r (rows res)) by (rewrite Hrows; now left).
  exists sdf, odf, res, r. repeat split; try assumption.
  destruct (recalculated_stats_rows sdf odf res Hr r Hin) as (_ & _ & Htotal & _).
  rewrite Htotal.
  vm_compute in Hs. inversion Hs; subst sdf.
  vm_compute in Ho. inversion Ho; subst odf.
  vm_compute in Hr. inversion Hr; subst res.
  vm_compute in Hrows. inversion Hrows; subst r. reflexivity.
Defined.

Section Recalculation.

Variable sdf : DataFrame Stint.t.
Variable odf : DataFrame PlayerStats.t.
Hypothesis stints_labelled : columns sdf = Stint.keys.
Hypothesis stats_labelled : columns odf = PlayerStats.keys.

Lemma require_stats_labelled (names : list string) :
  forallb (fun n => mem n PlayerStats.keys) names = true ->
  Builder.require odf names = Ok tt.
Proof.
  induction names as [| n more IH]; intros H; cbn [Builder.require]; [reflexivity |].
  cbn [forallb] in H. apply andb_prop in H. destruct H as [Hn Hmore].
  unfold has_column. rewrite stats_labelled, Hn. now apply IH.
Qed.

Lemma recalc_step_labelled (stats : list PlayerStats.t) (x : string) :
  Cleaner.recalc_step sdf odf stats x =
  match Builder.sort_values (Builder.select_player x (rows sdf)) with
  | [] => Ok stats
  | s :: l =>
      match filter (fun o => String.eqb (PlayerStats.player_id o) x) (rows odf) with
      | [] => Ok stats
      | o :: _ =>
          Ok (stats ++ [Cleaner.recalculated_row odf o x (s :: l)])%list
      end
  end.
Proof.
  unfold Cleaner.recalc_step.
  rewrite (require_labelled sdf stints_labelled) by reflexivity. cbn [bind].
  destruct (Builder.sort_values (Builder.select_player x (rows sdf))); [reflexivity |].
  rewrite require_stats_labelled by reflexivity. cbn [bind].
  destruct (filter _ (rows odf)); [reflexivity |].
  rewrite (require_labelled sdf stints_labelled) by reflexivity. cbn [bind].
  rewrite require_stats_labelled by reflexivity. reflexivity.
Qed.

Lemma filter_player_stats_mem (x : string) :
  mem x (map PlayerStats.player_id (rows odf)) =
  match filter (fun o => String.eqb (PlayerStats.player_id o) x) (rows odf) with
  | [] => false
  | _ :: _ => true
  end.
Proof.
  induction (rows odf) as [| o r IH]; [reflexivity |].
  cbn [map filter]. rewrite mem_cons, (String.eqb_sym x).
  destruct (String.eqb (PlayerStats.player_id o) x); [reflexivity | exact IH].
Qed.

Lemma foldM_recalc_labelled (ids : list string) :
  (forall x, In x ids -> Builder.select_player x (rows sdf) <> []) ->
  forall acc, exists added,
    Builder.foldM (Cleaner.recalc_step sdf odf) ids acc = Ok (acc ++ added)%list /\
    map PlayerStats.player_id added =
      filter (fun x => mem x (map PlayerStats.player_id (rows odf))) ids.
Proof.
  induction ids as [| x more IH]; intros Hall acc.
  - exists []. split; [cbn; now rewrite app_nil_r | reflexivity].
  - cbn [Builder.foldM filter]. rewrite recalc_step_labelled, filter_player_stats_mem.
    destruct (Builder.sort_values (Builder.select_player x (rows sdf))) as [| s l] eqn:Hs.
    + exfalso. apply (Hall x (or_introl eq_refl)).
      apply length_zero_iff_nil.
      rewrite <- (Permutation_length (sort_values_perm _)), Hs. reflexivity.
    + destruct (filter _ (rows odf)) as [| o rest]; cbn [bind].
      * apply IH. intros y Hy. apply Hall. now right.
      * destruct (IH (fun y Hy => Hall y (or_intror Hy))
                     (acc ++ [Cleaner.recalculated_row odf o x (s :: l)])%list)
          as (added & Hfold & Hids).
        exists (Cleaner.recalculated_row odf o x (s :: l) :: added). split.
        -- rewrite Hfold, <- app_assoc. reflexivity.
        -- cbn [map]. now rewrite Hids.
Qed.

End Recalculation.

Lemma recalculation_labelled_ok (sdf : DataFrame Stint.t) (odf : DataFrame PlayerStats.t) :
  columns sdf = Stint.keys ->
  columns odf = PlayerStats.keys ->
  exists res, Cleaner.recalculate_player_stats sdf odf = Ok res.
Proof.
  intros Hs Ho.
  destruct (foldM_recalc_labelled sdf odf Hs Ho (unique (map Stint.player_id (rows sdf))))
    with (acc := @nil PlayerStats.t) as (added & Hfold & _).
  { intros x Hx. rewrite unique_In in Hx. apply select_player_some in Hx.
    unfold n_stints in Hx. intros H. rewrite H in Hx. now apply Hx. }
  exists (pd_DataFrame PlayerStats.keys added).
  unfold Cleaner.recalculate_player_stats, column, has_column.
  rewrite Hs. cbn [mem existsb String.eqb Ascii.eqb Bool.eqb orb Stint.keys bind].
  now rewrite Hfold.
Qed.

(** Unlike the statistics builder, the recalculation does not fail on a
    player it does not know: with both tables carrying their columns it
    returns one row for each distinct [player_id] of the stints that has a row
    in the original statistics, in the order of first appearance, and passes
    over the others. *)
Theorem recalculation_passes_over_unknown_players :
  forall (sdf : DataFrame Stint.t) (odf : DataFrame PlayerStats.t),
    columns sdf = Stint.keys ->
    columns odf = PlayerStats.keys ->
    exists res,
      Cleaner.recalculate_player_stats sdf odf = Ok res /\
      map PlayerStats.player_id (rows res) =
        filter (fun x => mem x (map PlayerStats.player_id (rows odf)))
               (unique (map Stint.player_id (rows sdf))).
Proof.
  intros sdf odf Hs Ho.
  destruct (foldM_recalc_labelled sdf odf Hs Ho (unique (map Stint.player_id (rows sdf))))
    with (acc := @nil PlayerStats.t) as (added & Hfold & Hids).
  { intros x Hx. rewrite unique_In in Hx. apply select_player_some in Hx.
    unfold n_stints in Hx. intros H. rewrite H in Hx. now apply Hx. }
  exists (pd_DataFrame PlayerStats.keys added). split; [| exact Hids].
  unfold Cleaner.recalculate_player_stats, column, has_column.
  rewrite Hs. cbn [mem existsb String.eqb Ascii.eqb Bool.eqb orb Stint.keys bind].
  now rewrite Hfold.
Qed.

Lemma recalculation_passes_over_unknown_players_witness :
  columns (Builder.build_career_stints_table Sample.now Sample.broken_middle) =
    Stint.keys /\
  exists res,
    Cleaner.recalculate_player_stats
      (Builder.build_career_stints_table Sample.now Sample.broken_middle)
      (mkDataFrame PlayerStats.keys []) = Ok res /\
    rows res = [].
Proof.
  assert (H : columns (Builder.build_career_stints_table Sample.now Sample.broken_middle) =
              Stint.keys) by reflexivity.
  split; [exact H |].
  destruct (recalculation_passes_over_unknown_players
              (Builder.build_career_stints_table Sample.now Sample.broken_middle)
              (mkDataFrame PlayerStats.keys []) H eq_refl) as (res & Hr & Hids).
  exists res. split; [exact Hr |].
  destruct (rows res); [reflexivity |]. vm_compute in Hids. discriminate.
Defined.

(** The tables returned by [clean_database] agree with each other: the
    stints are the given ones without the noise teams, the transitions (when
    a transitions table was loaded) are the given ones without those that
    touch a noise team, and every statistics row belongs to a player with at
    least one surviving stint, its [total_teams] being the number of that
    player's surviving stints.  With a stints table that has its columns and
    a row, statistics that have their columns, and no transitions table, the
    cleaning returns its three results. *)
Theorem clean_database_tables_agree :
  (forall (sdf : DataFrame Stint.t) (tdf : option (DataFrame Transition.t))
          (odf : DataFrame PlayerStats.t) sc tc stc,
      Cleaner.clean_database sdf tdf odf = Ok (sc, tc, stc) ->
      rows sc = filter Cleaner.real_stint (rows sdf) /\
      match tdf, tc with
      | None, None => True
      | Some t, Some t' => rows t' = filter Cleaner.real_transition (rows t)
      | _, _ => False
      end /\
      forall r, In r (rows stc) ->
        PlayerStats.total_teams r = Z.of_nat (n_stints (PlayerStats.player_id r) (rows sc)) /\
        1 <= PlayerStats.total_teams r /\
        exists s, In s (rows sdf) /\ Stint.player_id s = PlayerStats.player_id r /\
                  Cleaner.is_fake_team (Stint.team s) = false) /\
  (forall (sdf : DataFrame Stint.t) (odf : DataFrame PlayerStats.t),
      columns sdf = Stint.keys -> rows sdf <> [] ->
      columns odf = PlayerStats.keys ->
      exists sc stc, Cleaner.clean_database sdf None odf = Ok (sc, None, stc)).
Proof.
  split.
  - intros sdf tdf odf sc tc stc H. unfold Cleaner.clean_database in H.
    destruct (Cleaner.clean_stints sdf) as [sc' |] eqn:Hs; cbn [bind] in H;
      [| discriminate].
    assert (Ht : exists tc',
               match tdf with
               | Some t => bind (Cleaner.clean_transitions t) (fun t' => Ok (Some t'))
               | None => Ok None
               end = Ok tc' /\
               match tdf, tc' with
               | None, None => True
               | Some t, Some t' => rows t' = filter Cleaner.real_transition (rows t)
               | _, _ => False
               end /\
               bind (Cleaner.recalculate_player_stats sc' odf)
                    (fun stats_clean => Ok (sc', tc', stats_clean)) = Ok (sc, tc, stc)).
    { destruct tdf as [t |].
      - destruct (Cleaner.clean_transitions t) as [t' |] eqn:Hc; cbn [bind] in H;
          [| discriminate].
        exists (Some t'). split; [reflexivity |].
        split; [now apply clean_transitions_rows | exact H].
      - cbn [bind] in H. exists None. split; [reflexivity |]. split; [exact I | exact H]. }
    destruct Ht as (tc' & _ & Htc & H').
    destruct (Cleaner.recalculate_player_stats sc' odf) as [stats |] eqn:Hr;
      cbn [bind] in H'; [| discriminate].
    inversion H'; subst sc' tc' stats; clear H'.
    apply clean_stints_rows in Hs. destruct Hs as [Hrows _].
    split; [exact Hrows |]. split; [exact Htc |].
    intros r Hin.
    unfold Cleaner.recalculate_player_stats in Hr.
    destruct (column sc "player_id" Stint.player_id) as [ids |]; cbn [bind] in Hr;
      [| discriminate].
    destruct (Builder.foldM (Cleaner.recalc_step sc odf) (unique ids) [])
      as [stats |] eqn:Hfold; cbn [bind] in Hr; [| discriminate].
    inversion Hr; subst stc; clear Hr. cbn [rows pd_DataFrame] in Hin.
    apply foldM_recalc_ok in Hfold. destruct Hfold as (added & Hres & Hall).
    cbn [app] in Hres. subst stats.
    rewrite Forall_forall in Hall. destruct (Hall r Hin) as (x & o & rest & Ho & Hne & Hrow).
    subst r. cbn [Cleaner.recalculated_row PlayerStats.player_id PlayerStats.total_teams].
    assert (Hlen : List.length (Builder.sort_values (Builder.select_player x (rows sc))) =
                   n_stints x (rows sc)).
    { apply Permutation_length, sort_values_perm. }
    rewrite Hlen. split; [reflexivity |].
    unfold n_stints in *.
    destruct (Builder.select_player x (rows sc)) as [| s l] eqn:Hsel; [congruence |].
    split; [cbn [List.length]; lia |].
    assert (Hs : In s (Builder.select_player x (rows sc))) by (rewrite Hsel; now left).
    unfold Builder.select_player in Hs. apply filter_In in Hs. destruct Hs as [Hs Hx].
    rewrite Hrows in Hs. apply filter_In in Hs. destruct Hs as [Hs Hreal].
    exists s. split; [exact Hs |]. split; [now apply String.eqb_eq |].
    unfold Cleaner.real_stint in Hreal. now apply negb_true_iff.
  - intros sdf odf Hs Hne Ho. unfold Cleaner.clean_database.
    rewrite clean_stints_ok; [| exact Hne | unfold has_column; now rewrite Hs].
    cbn [bind].
    destruct (recalculation_labelled_ok
                {| columns := columns sdf;
                   rows := filter Cleaner.real_stint (rows sdf) |} odf Hs Ho)
      as (res & Hr).
    rewrite Hr. cbn [bind]. now eexists _, _.
Qed.

Lemma clean_database_tables_agree_witness :
  columns (Builder.build_career_stints_table Sample.now Sample.noisy_middle) =
    Stint.keys /\
  rows (Builder.build_career_stints_table Sample.now Sample.noisy_middle) <> [] /\
  exists sc stc,
    Cleaner.clean_database
      (Builder.build_career_stints_table Sample.now Sample.noisy_middle) None
      (mkDataFrame PlayerStats.keys []) = Ok (sc, None, stc) /\
    rows sc =
      filter Cleaner.real_stint
        (rows (Builder.build_career_stints_table Sample.now Sample.noisy_middle)).
Proof.
  assert (H1 : columns (Builder.build_career_stints_table Sample.now Sample.noisy_middle) =
               Stint.keys) by reflexivity.
  assert (H2 : rows (Builder.build_career_stints_table Sample.now Sample.noisy_middle) <> []).
  { vm_compute. discriminate. }
  split; [exact H1 |]. split; [exact H2 |].
  destruct (proj2 clean_database_tables_agree
              (Builder.build_career_stints_table Sample.now Sample.noisy_middle)
              (mkDataFrame PlayerStats.keys []) H1 H2 eq_refl) as (sc & stc & Hc).
  exists sc, stc. split; [exact Hc |].
  exact (proj1 (proj1 clean_database_tables_agree _ _ _ _ _ _ Hc)).
Defined.

(** ** Statistics do not depend on the order of the stints *)

Lemma ascii_compare_lt_trans (a b c : ascii) :
  Ascii.compare a b = Lt -> Ascii.compare b c = Lt -> Ascii.compare a c = Lt.
Proof.
  unfold Ascii.compare. rewrite !N.compare_lt_iff. apply N.lt_trans.
Qed.

Lemma string_compare_lt_trans (a : string) :
  forall b c, String.compare a b = Lt -> String.compare b c = Lt ->
              String.compare a c = Lt.
Proof.
  induction a as [| x a' IH]; intros [| y b'] [| z c'] H1 H2; cbn in *;
    try discriminate; try reflexivity.
  destruct (Ascii.compare x y) eqn:Exy; try discriminate.
  - apply Ascii.compare_eq_iff in Exy. subst y.
    destruct (Ascii.compare x z); try discriminate; [eapply IH; eassumption | reflexivity].
  - destruct (Ascii.compare y z) eqn:Eyz; try discriminate.
    + apply Ascii.compare_eq_iff in Eyz. subst z. now rewrite Exy.
    + now rewrite (ascii_compare_lt_trans x y z Exy Eyz).
Qed.

Lemma ltb_trans (a b c : string) :
  String.ltb a b = true -> String.ltb b c = true -> String.ltb a c = true.
Proof.
  unfold String.ltb. intros H1 H2.
  destruct (String.compare a b) eqn:E1; try discriminate.
  destruct (String.compare b c) eqn:E2; try discriminate.
  now rewrite (string_compare_lt_trans a b c E1 E2).
Qed.

Lemma ltb_asym (a b : string) : String.ltb a b = true -> String.ltb b a = false.
Proof.
  unfold String.ltb. rewrite (String.compare_antisym b a).
  destruct (String.compare a b); cbn; congruence.
Qed.

Lemma ltb_total (a b : string) :
  String.ltb a b = false -> String.ltb b a = false -> a = b.
Proof.
  unfold String.ltb. rewrite (String.compare_antisym b a).
  destruct (String.compare a b) eqn:E; cbn; try congruence.
  intros _ _. now apply String.compare_eq_iff.
Qed.

Lemma ltb_le_trans (a b c : string) :
  String.ltb a b = true -> String.ltb c b = false -> String.ltb a c = true.
Proof.
  intros H1 H2. destruct (String.ltb b c) eqn:E.
  - eapply ltb_trans; eassumption.
  - rewrite (ltb_total b c E H2) in H1. exact H1.
Qed.

Lemma le_ltb_trans (a b c : string) :
  String.ltb b a = false -> String.ltb b c = true -> String.ltb a c = true.
Proof.
  intros H1 H2. destruct (String.ltb a b) eqn:E.
  - eapply ltb_trans; eassumption.
  - rewrite (ltb_total a b E H1). exact H2.
Qed.

Lemma fold_str_min (r : list string) :
  forall acc,
    In (fold_left Builder.str_min r acc) (acc :: r) /\
    forall y, In y (acc :: r) -> String.ltb y (fold_left Builder.str_min r acc) = false.
Proof.
  induction r as [| a r IH]; intros acc; cbn [fold_left].
  - split; [now left |]. intros y [H | []]. subst y.
    destruct (String.ltb acc acc) eqn:E; [| reflexivity].
    now rewrite (ltb_asym _ _ E) in E.
  - destruct (IH (Builder.str_min acc a)) as [Hin Hmin].
    set (m := fold_left Builder.str_min r (Builder.str_min acc a)) in *.
    assert (Hacc' : String.ltb (Builder.str_min acc a) m = false)
      by (apply Hmin; now left).
    unfold Builder.str_min in *. split.
    + destruct Hin as [Hin | Hin]; [| right; now right].
      destruct (String.ltb a acc); rewrite <- Hin; [right; now left | now left].
    + intros y [Hy | [Hy | Hy]]; [| | apply Hmin; now right]; subst y.
      * destruct (String.ltb a acc) eqn:E; [| exact Hacc'].
        destruct (String.ltb acc m) eqn:E2; [| reflexivity].
        rewrite (ltb_trans a acc m E E2) in Hacc'. discriminate.
      * destruct (String.ltb a acc) eqn:E; [exact Hacc' |].
        destruct (String.ltb a m) eqn:E2; [| reflexivity].
        rewrite (ltb_le_trans a m acc E2 Hacc') in E. discriminate.
Qed.

Lemma fold_str_max (r : list string) :
  forall acc,
    In (fold_left Builder.str_max r acc) (acc :: r) /\
    forall y, In y (acc :: r) -> String.ltb (fold_left Builder.str_max r acc) y = false.
Proof.
  induction r as [| a r IH]; intros acc; cbn [fold_left].
  - split; [now left |]. intros y [H | []]. subst y.
    destruct (String.ltb acc acc) eqn:E; [| reflexivity].
    now rewrite (ltb_asym _ _ E) in E.
  - destruct (IH (Builder.str_max acc a)) as [Hin Hmax].
    set (m := fold_left Builder.str_max r (Builder.str_max acc a)) in *.
    assert (Hacc' : String.ltb m (Builder.str_max acc a) = false)
      by (apply Hmax; now left).
    unfold Builder.str_max in *. split.
    + destruct Hin as [Hin | Hin]; [| right; now right].
      destruct (String.ltb acc a); rewrite <- Hin; [right; now left | now left].
    + intros y [Hy | [Hy | Hy]]; [| | apply Hmax; now right]; subst y.
      * destruct (String.ltb acc a) eqn:E; [| exact Hacc'].
        destruct (String.ltb m acc) eqn:E2; [| reflexivity].
        rewrite (ltb_trans m acc a E2 E) in Hacc'. discriminate.
      * destruct (String.ltb acc a) eqn:E; [exact Hacc' |].
        destruct (String.ltb m a) eqn:E2; [| reflexivity].
        rewrite (le_ltb_trans acc m a Hacc' E2) in E. discriminate.
Qed.

Lemma series_str_min_perm (l l' : list string) :
  Permutation l l' ->
  Builder.series_str Builder.str_min l = Builder.series_str Builder.str_min l'.
Proof.
  intros H. destruct l as [| x r].
  - apply Permutation_nil in H. now subst l'.
  - destruct l' as [| x' r']; [apply Permutation_sym, Permutation_nil in H; discriminate |].
    cbn [Builder.series_str].
    destruct (fold_str_min r x) as [Hin Hmin].
    destruct (fold_str_min r' x') as [Hin' Hmin'].
    apply ltb_total.
    + apply Hmin'. eapply Permutation_in; eassumption.
    + apply Hmin. eapply Permutation_in; [apply Permutation_sym |]; eassumption.
Qed.

Lemma series_str_max_perm (l l' : list string) :
  Permutation l l' ->
  Builder.series_str Builder.str_max l = Builder.series_str Builder.str_max l'.
Proof.
  intros H. destruct l as [| x r].
  - apply Permutation_nil in H. now subst l'.
  - destruct l' as [| x' r']; [apply Permutation_sym, Permutation_nil in H; discriminate |].
    cbn [Builder.series_str].
    destruct (fold_str_max r x) as [Hin Hmax].
    destruct (fold_str_max r' x') as [Hin' Hmax'].
    apply ltb_total.
    + apply Hmax. eapply Permutation_in; [apply Permutation_sym |]; eassumption.
    + apply Hmax'. eapply Permutation_in; eassumption.
Qed.

Lemma fold_left_perm {A B : Type} (f : A -> B -> A) (l l' : list B) :
  (forall a x y, f (f a x) y = f (f a y) x) ->
  Permutation l l' -> forall a, fold_left f l a = fold_left f l' a.
Proof.
  intros Hf. induction 1 as [| x l l' _ IH | x y l | l l' l'' _ IH1 _ IH2]; intros a;
    cbn [fold_left].
  - reflexivity.
  - apply IH.
  - now rewrite Hf.
  - now rewrite IH1.
Qed.

Lemma series_year_perm (f : Z -> Z -> Z) (l l' : list (option Z)) :
  (forall x y, f x y = f y x) -> (forall x y z, f (f x y) z = f x (f y z)) ->
  Permutation l l' -> Builder.series_year f l = Builder.series_year f l'.
Proof.
  intros Hc Ha H. unfold Builder.series_year. apply fold_left_perm; [| exact H].
  intros [a |] [x |] [y |]; cbn; try reflexivity.
  - f_equal. rewrite !Ha. f_equal. apply Hc.
  - f_equal. apply Hc.
Qed.

Lemma sum_Z_perm (l l' : list Z) : Permutation l l' -> Builder.sum_Z l = Builder.sum_Z l'.
Proof.
  intros H. unfold Builder.sum_Z. apply fold_left_perm; [| exact H]. intros; lia.
Qed.

Lemma unique_length_perm (l l' : list string) :
  Permutation l l' -> List.length (unique l) = List.length (unique l').
Proof.
  intros H. apply Permutation_length. apply NoDup_Permutation.
  - apply unique_from_NoDup.
  - apply unique_from_NoDup.
  - intros x. rewrite !unique_In. split; intros Hx.
    + eapply Permutation_in; eassumption.
    + eapply Permutation_in; [apply Permutation_sym |]; eassumption.
Qed.

Lemma stats_row_perm (p : Player.t) (x : string) (l l' : list Stint.t) :
  Permutation l l' -> Builder.stats_row p x l = Builder.stats_row p x l'.
Proof.
  intros H. unfold Builder.stats_row.
  rewrite (Permutation_length H).
  rewrite (unique_length_perm _ _ (Permutation_map Stint.team H)).
  rewrite (series_str_min_perm _ _ (Permutation_map Stint.date_start H)).
  rewrite (series_str_max_perm _ _ (Permutation_map Stint.date_end H)).
  rewrite (series_year_perm Z.min _ _ Z.min_comm (fun a b c => eq_sym (Z.min_assoc a b c))
             (Permutation_map Stint.year_start H)).
  rewrite (series_year_perm Z.max _ _ Z.max_comm (fun a b c => eq_sym (Z.max_assoc a b c))
             (Permutation_map Stint.year_end H)).
  rewrite (sum_Z_perm _ _ (Permutation_map Stint.duration_days H)).
  unfold Builder.count_status.
  rewrite !(filter_length_perm _ _ _ H).
  reflexivity.
Qed.

Lemma recalculated_row_of_stats_row (odf : DataFrame PlayerStats.t) (p : Player.t)
    (x : string) (l l' : list Stint.t) :
  columns odf = PlayerStats.keys ->
  Cleaner.recalculated_row odf (Builder.stats_row p x l) x l' = Builder.stats_row p x l'.
Proof.
  intros Ho. unfold Cleaner.recalculated_row, Cleaner.original_get, has_column.
  rewrite Ho. reflexivity.
Qed.

Lemma first_row_of_player (R : string -> PlayerStats.t -> Prop)
    (ids : list string) (added : list PlayerStats.t) :
  Forall2 R ids added -> NoDup ids ->
  (forall x r, R x r -> PlayerStats.player_id r = x) ->
  forall x, In x ids ->
    exists r rest,
      filter (fun o => String.eqb (PlayerStats.player_id o) x) added = r :: rest /\
      R x r.
Proof.
  induction 1 as [| x0 r0 ids added Hxr _ IH]; intros Hnd Hid x Hx; [contradiction |].
  inversion Hnd as [| ? ? Hnot Hnd']; subst. cbn [filter].
  rewrite (Hid _ _ Hxr). destruct Hx as [Hx | Hx].
  - subst x0. rewrite String.eqb_refl. now eexists _, _.
  - destruct (String.eqb x0 x) eqn:E.
    + apply String.eqb_eq in E. subst x0. contradiction.
    + now apply IH.
Qed.

Lemma forallb_false {A : Type} (f : A -> bool) (l : list A) :
  forallb f l = false -> exists x, In x l /\ f x = false.
Proof.
  induction l as [| a r IH]; [discriminate |]. cbn [forallb].
  destruct (f a) eqn:E; cbn [andb].
  - intros H. destruct (IH H) as (x & Hx & Hf). exists x. split; [now right | exact Hf].
  - intros _. exists a. split; [now left | exact E].
Qed.

Section RoundTrip.

Variable players : list Player.t.
Variable stints : list Stint.t.
Variable added : list PlayerStats.t.
Hypothesis nonempty : stints <> [].
Hypothesis added_nonempty : added <> [].

Let df := pd_DataFrame Stint.keys stints.
Let sdf := pd_DataFrame PlayerStats.keys added.

Let row_of (x : string) (r : PlayerStats.t) : Prop :=
  exists p,
    find (fun p => String.eqb (Player.player_id p) x) players = Some p /\
    r = Builder.stats_row p x (Builder.select_player x (rows df)).

Lemma foldM_recalc_same (ids' : list string) (added' : list PlayerStats.t) :
  Forall2 row_of ids' added' ->
  (forall x, In x ids' ->
     exists r rest,
       filter (fun o => String.eqb (PlayerStats.player_id o) x) (rows sdf) = r :: rest /\
       row_of x r) ->
  (forall x, In x ids' -> Builder.select_player x (rows df) <> []) ->
  forall acc,
    Builder.foldM (Cleaner.recalc_step df sdf) ids' acc = Ok (acc ++ added')%list.
Proof.
  assert (Hdf : columns df = Stint.keys) by now apply built_frame_labelled.
  assert (Hsdf : columns sdf = PlayerStats.keys).
  { unfold sdf, pd_DataFrame. cbn [columns]. destruct added; [congruence | reflexivity]. }
  induction 1 as [| x r ids' added' Hxr _ IH]; intros Hfirst Hsome acc.
  - cbn. now rewrite app_nil_r.
  - cbn [Builder.foldM]. rewrite (recalc_step_labelled df sdf Hdf Hsdf).
    destruct (Builder.sort_values (Builder.select_player x (rows df))) as [| s l] eqn:Hs.
    + exfalso. apply (Hsome x (or_introl eq_refl)). apply length_zero_iff_nil.
      rewrite <- (Permutation_length (sort_values_perm _)), Hs. reflexivity.
    + destruct (Hfirst x (or_introl eq_refl)) as (r' & rest & Hf & (p' & Hp' & Hr')).
      rewrite Hf. cbn [bind].
      destruct Hxr as (p & Hp & Hr). rewrite Hp in Hp'. inversion Hp'; subst p'.
      rewrite Hr', (recalculated_row_of_stats_row sdf p x _ _ Hsdf).
      rewrite <- Hs, (stats_row_perm p x _ _ (sort_values_perm _)), <- Hr.
      rewrite IH.
      * now rewrite <- app_assoc.
      * intros y Hy. apply Hfirst. now right.
      * intros y Hy. apply Hsome. now right.
Qed.

End RoundTrip.

(** Recalculating the statistics from the very stints they were built from
    gives the statistics table back: the recalculation sorts each player's
    stints first, and no statistic depends on the order of the stints. *)
Theorem recalculation_reproduces_built_statistics :
  forall (players : list Player.t) (stints : list Stint.t)
         (sdf : DataFrame PlayerStats.t),
    stints <> [] ->
    Builder.build_player_stats_table players (pd_DataFrame Stint.keys stints) = Ok sdf ->
    Cleaner.recalculate_player_stats (pd_DataFrame Stint.keys stints) sdf = Ok sdf.
Proof.
  intros players stints sdf Hne Hb.
  set (df := pd_DataFrame Stint.keys stints) in *.
  assert (Hlab : columns df = Stint.keys) by now apply built_frame_labelled.
  set (ids := unique (map Stint.player_id stints)).
  assert (Hbuild : Builder.build_player_stats_table players df =
                   bind (Builder.foldM (Builder.stats_step players df) ids [])
                        (fun stats => Ok (pd_DataFrame PlayerStats.keys stats))).
  { unfold Builder.build_player_stats_table, column, has_column.
    rewrite Hlab. reflexivity. }
  rewrite Hbuild in Hb.
  destruct (forallb (fun x => mem x (map Player.player_id players)) ids) eqn:Hall.
  - rewrite forallb_forall in Hall.
    destruct (foldM_stats_ok players df Hlab ids) with (acc := @nil PlayerStats.t)
      as (added & Hfold & Hrows).
    { intros x Hx. apply mem_In. now apply Hall. }
    rewrite Hfold in Hb. cbn [bind app] in Hb. inversion Hb; subst sdf; clear Hb.
    assert (Hids : ids <> []).
    { unfold ids. destruct stints as [| s r]; [congruence | discriminate]. }
    assert (Hadded : added <> []).
    { intros H. subst added. inversion Hrows. congruence. }
    unfold Cleaner.recalculate_player_stats, column, has_column.
    rewrite Hlab. cbn [mem existsb String.eqb Ascii.eqb Bool.eqb orb Stint.keys bind].
    cbn [rows df pd_DataFrame]. fold ids. fold df.
    rewrite (foldM_recalc_same players stints added Hne Hadded ids added).
    + reflexivity.
    + exact Hrows.
    + intros x Hx. cbn [rows pd_DataFrame].
      apply (first_row_of_player _ ids added Hrows); [apply unique_from_NoDup | | exact Hx].
      intros y r (p & _ & Hr). now subst r.
    + intros x Hx. unfold ids in Hx. rewrite unique_In in Hx.
      apply select_player_some in Hx. unfold n_stints in Hx.
      cbn [rows pd_DataFrame]. intros H. rewrite H in Hx. now apply Hx.
  - apply forallb_false in Hall. destruct Hall as (x & Hx & Hm).
    rewrite (foldM_stats_missing players df Hlab) in Hb; [discriminate |].
    exists x. split; [exact Hx | now apply mem_false_In].
Qed.

Lemma recalculation_reproduces_built_statistics_witness :
  rows (Builder.build_career_stints_table Sample.now Sample.noisy_last) <> [] /\
  exists sdf,
    Builder.build_player_stats_table Sample.noisy_last
      (pd_DataFrame Stint.keys
         (rows (Builder.build_career_stints_table Sample.now Sample.noisy_last))) =
      Ok sdf /\
    Cleaner.recalculate_player_stats
      (pd_DataFrame Stint.keys
         (rows (Builder.build_career_stints_table Sample.now Sample.noisy_last))) sdf =
      Ok sdf.
Proof.
  assert (H : rows (Builder.build_career_stints_table Sample.now Sample.noisy_last) <> []).
  { vm_compute. discriminate. }
  split; [exact H |].
  destruct (Builder.build_player_stats_table Sample.noisy_last
      (pd_DataFrame Stint.keys
         (rows (Builder.build_career_stints_table Sample.now Sample.noisy_last))))
    as [sdf | e] eqn:Hb; [| vm_compute in Hb; discriminate].
  exists sdf. split; [reflexivity |].
  exact (recalculation_reproduces_built_statistics _ _ sdf H Hb).
Defined.

(** ** From scraped tables to built stints *)

Lemma parse_history_table_length (table_rows : list (list string)) :
  (List.length (Scraper._parse_history_table table_rows) <= List.length table_rows)%nat.
Proof.
  induction table_rows as [| cells more IH]; [apply Nat.le_refl |].
  cbn [Scraper._parse_history_table List.length].
  destruct cells as [| date_text [| team_text rest]]; try (now apply Nat.le_le_succ_r).
  destruct (Re.search_four_digits date_text);
    [now apply le_n_S | now apply Nat.le_le_succ_r].
Qed.

Lemma rows_from_total_stints (now : Date.t) (p : Player.t) (len : Z)
    (es : list (list (string * string))) :
  forall id num s, In s (rows_from now p len id num es) ->
    Stint.total_stints s =
    match Player.teams_count p with Some n => n | None => len end.
Proof.
  induction es as [| e more IH]; intros id num s H; [contradiction |].
  destruct H as [H | H]; [now subst s | eauto].
Qed.

Lemma rows_from_fields (now : Date.t) (p : Player.t) (len : Z)
    (es : list (list (string * string))) (f : Stint.t -> string) (key default : string) :
  (forall id num e,
      f (Builder.stint_row now p len id num e) = Py.dict_get e key default) ->
  forall id num,
    map f (rows_from now p len id num es) =
    map (fun e => Py.dict_get e key default) es.
Proof.
  intros Hf. induction es as [| e more IH]; intros id num; [reflexivity |].
  cbn [rows_from map]. now rewrite Hf, IH.
Qed.

Lemma player_rows_of_scraped (now : Date.t) (base : Player.t)
    (career : list (list (string * string))) (k : Z) :
  player_rows now (Details.update_career base career) k =
  rows_from now (Details.update_career base career)
    (Z.of_nat (List.length career)) k 1 career.
Proof.
  unfold player_rows. cbn [Player.career_history Details.update_career].
  destruct career as [| e more]; [reflexivity |].
  cbn [Details.career_history_of]. now rewrite length_map, good_prefix_all.
Qed.

(** A player whose career was read by [_parse_history_table] and stored by
    [get_player_details] gets one stint for each table row that was kept,
    in the order of the table: the decoded records never take the builder's
    exception path.  The stints carry the cleaned team names, and their
    [total_stints], read from the stored [teams_count], is the number of the
    player's stints. *)
Theorem scraped_career_is_built_in_full :
  forall (now : Date.t) (scraped : list (Player.t * list (list string)))
         (base : Player.t) (table_rows : list (list string)),
    let stored bt :=
      Details.update_career (fst bt) (Scraper._parse_history_table (snd bt)) in
    let stints := rows (Builder.build_career_stints_table now (map stored scraped)) in
    let own := Builder.select_player (Player.player_id base) stints in
    NoDup (map (fun bt => Player.player_id (fst bt)) scraped) ->
    In (base, table_rows) scraped ->
    List.length own = List.length (Scraper._parse_history_table table_rows) /\
    (List.length own <= List.length table_rows)%nat /\
    map Stint.team own =
      map (fun e => Py.dict_get e "team" "") (Scraper._parse_history_table table_rows) /\
    map Stint.date_range own =
      map (fun e => Py.dict_get e "date_range" "")
          (Scraper._parse_history_table table_rows) /\
    (forall s, In s own -> Stint.total_stints s = Z.of_nat (List.length own)).
Proof.
  intros now scraped base table_rows stored stints own Hnd Hin.
  assert (Hids : map Player.player_id (map stored scraped) =
                 map (fun bt => Player.player_id (fst bt)) scraped).
  { rewrite map_map. reflexivity. }
  assert (Hp : In (stored (base, table_rows)) (map stored scraped)).
  { now apply in_map. }
  assert (Hnd' : NoDup (map Player.player_id (map stored scraped))).
  { now rewrite Hids. }
  destruct (table_from_select now (map stored scraped) _ Hnd' Hp 1) as (k & Hk).
  assert (Hown : own =
    rows_from now (stored (base, table_rows))
      (Z.of_nat (List.length (Scraper._parse_history_table table_rows))) k 1
      (Scraper._parse_history_table table_rows)).
  { unfold own, stints. rewrite build_rows.
    change (Player.player_id base)
      with (Player.player_id (stored (base, table_rows))).
    rewrite Hk. apply player_rows_of_scraped. }
  assert (Hlen : List.length own =
                 List.length (Scraper._parse_history_table table_rows)).
  { rewrite Hown. apply rows_from_length. }
  split; [exact Hlen |]. split; [| split; [| split]].
  - rewrite Hlen. apply parse_history_table_length.
  - rewrite Hown. apply rows_from_fields. reflexivity.
  - rewrite Hown. apply rows_from_fields. reflexivity.
  - intros s Hs. rewrite Hlen. rewrite Hown in Hs.
    apply rows_from_total_stints in Hs. exact Hs.
Qed.

Lemma scraped_career_is_built_in_full_witness :
  map Stint.team
    (Builder.select_player "p1"
       (rows (Builder.build_career_stints_table Sample.now
          (map (fun bt => Details.update_career (fst bt)
                            (Scraper._parse_history_table (snd bt)))
               [ (Sample.player "p1" Absent,
                  [ [ "Date"; "Team" ];
                    [ "2019-01-10 — 2019-06-01"; "Team A (Inactive)" ];
                    [ "2019-06-10 — Present"; "Team C" ] ]) ])))) =
  [ "Team A"; "Team C" ].
Proof.
  assert (Hnd : NoDup (map (fun bt : Player.t * list (list string) =>
                              Player.player_id (fst bt))
                        [ (Sample.player "p1" Absent,
                           [ [ "Date"; "Team" ];
                             [ "2019-01-10 — 2019-06-01"; "Team A (Inactive)" ];
                             [ "2019-06-10 — Present"; "Team C" ] ]) ])).
  { repeat constructor. intros H. exact H. }
  etransitivity.
  - exact (proj1 (proj2 (proj2
      (scraped_career_is_built_in_full Sample.now _ (Sample.player "p1" Absent) _
         Hnd (or_introl eq_refl))))).
  - vm_compute. reflexivity.
Defined.

(** ** Team labels with and without an annotation *)

Lemma lstrip_spaces (w s : string) :
  Py.all_chars Py.is_space w = true -> Py.lstrip (w ++ s) = Py.lstrip s.
Proof.
  induction w as [| c r IH]; intros H; [reflexivity |].
  cbn [Py.all_chars] in H. apply andb_prop in H. destruct H as [Hc Hr].
  cbn [append Py.lstrip]. rewrite Hc. now apply IH.
Qed.

Lemma lstrip_all_spaces (w : string) :
  Py.all_chars Py.is_space w = true -> Py.lstrip w = "".
Proof.
  intros H. rewrite <- (string_app_nil_r w). now rewrite lstrip_spaces.
Qed.

Lemma rstrip_all_spaces (w : string) :
  Py.all_chars Py.is_space w = true -> Py.rstrip w = "".
Proof.
  induction w as [| c r IH]; intros H; [reflexivity |].
  cbn [Py.all_chars] in H. apply andb_prop in H. destruct H as [Hc Hr].
  cbn [Py.rstrip]. now rewrite (IH Hr), Hc.
Qed.

Lemma rstrip_app_spaces (p w : string) :
  Py.all_chars Py.is_space w = true -> Py.rstrip (p ++ w) = Py.rstrip p.
Proof.
  intros H. induction p as [| c r IH]; cbn [append].
  - now apply rstrip_all_spaces.
  - cbn [Py.rstrip]. now rewrite IH.
Qed.

Lemma lstrip_app_spaces (p w : string) :
  Py.all_chars Py.is_space w = true ->
  Py.lstrip (p ++ w) = match Py.lstrip p with
                       | EmptyString => EmptyString
                       | String c r => String c r ++ w
                       end.
Proof.
  intros H. induction p as [| c r IH]; cbn [append].
  - now apply lstrip_all_spaces.
  - cbn [Py.lstrip]. destruct (Py.is_space c); [exact IH | reflexivity].
Qed.

Lemma strip_app_spaces (p w : string) :
  Py.all_chars Py.is_space w = true -> Py.strip (p ++ w) = Py.strip p.
Proof.
  intros H. unfold Py.strip. rewrite (lstrip_app_spaces p w H).
  destruct (Py.lstrip p) as [| c r]; [reflexivity |].
  now apply rstrip_app_spaces.
Qed.

Lemma lstrip_keeps (p : ascii -> bool) (s : string) :
  Py.all_chars p s = true -> Py.all_chars p (Py.lstrip s) = true.
Proof.
  induction s as [| c r IH]; intros H; [reflexivity |].
  cbn [Py.lstrip]. destruct (Py.is_space c); [| exact H].
  cbn [Py.all_chars] in H. apply andb_prop in H. now apply IH.
Qed.

Lemma rstrip_keeps (p : ascii -> bool) (s : string) :
  Py.all_chars p s = true -> Py.all_chars p (Py.rstrip s) = true.
Proof.
  induction s as [| c r IH]; intros H; [reflexivity |].
  cbn [Py.all_chars] in H. apply andb_prop in H. destruct H as [Hc Hr].
  cbn [Py.rstrip]. specialize (IH Hr).
  destruct (Py.rstrip r) as [| c' r'].
  - destruct (Py.is_space c); [reflexivity |]. cbn [Py.all_chars]. now rewrite Hc.
  - cbn [Py.all_chars] in *. now rewrite Hc.
Qed.

Lemma strip_keeps (p : ascii -> bool) (s : string) :
  Py.all_chars p s = true -> Py.all_chars p (Py.strip s) = true.
Proof. intros H. unfold Py.strip. now apply rstrip_keeps, lstrip_keeps. Qed.

Lemma paren_group_at_none (s : string) :
  Py.all_chars not_lparen s = true -> Scraper.paren_group_at s = None.
Proof.
  destruct s as [| c r]; [reflexivity |]. intros H.
  cbn [Py.all_chars] in H. apply andb_prop in H.
  now apply paren_group_at_other.
Qed.

Lemma sub_trailing_group_none (s : string) :
  Py.all_chars not_lparen s = true -> Scraper.sub_trailing_group s = s.
Proof.
  induction s as [| c r IH]; intros H.
  - reflexivity.
  - cbn [Scraper.sub_trailing_group]. unfold Scraper.trailing_group_at.
    rewrite (paren_group_at_none _ (lstrip_keeps _ _ H)).
    cbn [Py.all_chars] in H. apply andb_prop in H. destruct H as [_ Hr].
    now rewrite (IH Hr).
Qed.

Lemma sub_trailing_group_eq (s : string) :
  Scraper.sub_trailing_group s =
  match Scraper.trailing_group_at s with
  | Some _ => EmptyString
  | None =>
      match s with
      | EmptyString => EmptyString
      | String c r => String c (Scraper.sub_trailing_group r)
      end
  end.
Proof. destruct s; reflexivity. Qed.

Section Annotated.

Variables ws g ws' : string.
Hypothesis ws_spaces : Py.all_chars Py.is_space ws = true.
Hypothesis g_nonempty : g <> "".
Hypothesis g_group : Py.all_chars Scraper.not_rparen g = true.
Hypothesis ws'_spaces : Py.all_chars Py.is_space ws' = true.

Let annotation : string := ws ++ String "(" (g ++ String ")" ws').

Lemma trailing_group_at_name (name : string) :
  Py.all_chars not_lparen name = true ->
  Scraper.trailing_group_at (name ++ annotation) =
  if Py.all_chars Py.is_space name then Some g else None.
Proof.
  unfold Scraper.trailing_group_at.
  induction name as [| c r IH]; intros H.
  - cbn [append Py.all_chars]. unfold annotation.
    rewrite (lstrip_spaces ws _ ws_spaces). cbn [Py.lstrip].
    change (Py.is_space "(") with false. cbv iota.
    rewrite (paren_group_at_group g ws' g_nonempty g_group).
    now rewrite ws'_spaces.
  - cbn [Py.all_chars] in H. apply andb_prop in H. destruct H as [Hc Hr].
    cbn [append Py.lstrip Py.all_chars].
    destruct (Py.is_space c); cbn [andb].
    + now apply IH.
    + now rewrite (paren_group_at_other c _ Hc).
Qed.

Lemma sub_trailing_group_name (name : string) :
  Py.all_chars not_lparen name = true ->
  exists p w,
    name = p ++ w /\ Py.all_chars Py.is_space w = true /\
    Scraper.sub_trailing_group (name ++ annotation) = p.
Proof.
  induction name as [| c r IH]; intros H.
  - exists "", "". repeat split.
    cbn [append]. rewrite sub_trailing_group_eq.
    change annotation with ("" ++ annotation) at 1.
    now rewrite (trailing_group_at_name "" eq_refl).
  - cbn [append Scraper.sub_trailing_group].
    change (String c (r ++ annotation)) with (String c r ++ annotation).
    rewrite (trailing_group_at_name _ H).
    destruct (Py.all_chars Py.is_space (String c r)) eqn:Hsp.
    + exists "", (String c r). repeat split. exact Hsp.
    + cbn [Py.all_chars] in H. apply andb_prop in H. destruct H as [_ Hr].
      destruct (IH Hr) as (p & w & Hn & Hw & Hs).
      exists (String c p), w. repeat split.
      * cbn [append]. now rewrite <- Hn.
      * exact Hw.
      * now rewrite Hs.
Qed.

End Annotated.

(** A team label with no opening parenthesis is only stripped and has the
    status Active.  A label made of a name without parenthesis, followed by
    one parenthesised annotation (with any white space around it), is cleaned
    to the stripped name, whatever the annotation says; its status is the one
    of the annotation alone, and cleaning the result again changes nothing. *)
Theorem clean_team_name_of_label :
  (forall label,
      Py.all_chars not_lparen label = true ->
      Scraper._clean_team_name label = Py.strip label /\
      Scraper._extract_status label = "Active") /\
  (forall name ws g ws',
      Py.all_chars not_lparen name = true ->
      Py.all_chars Py.is_space ws = true ->
      g <> "" ->
      Py.all_chars Scraper.not_rparen g = true ->
      Py.all_chars Py.is_space ws' = true ->
      let label := name ++ ws ++ String "(" (g ++ String ")" ws') in
      Scraper._clean_team_name label = Py.strip name /\
      Scraper._extract_status label =
        Scraper._extract_status (String "(" (g ++ ")")) /\
      Scraper._clean_team_name (Scraper._clean_team_name label) =
        Scraper._clean_team_name label).
Proof.
  split.
  - intros label H. split.
    + unfold Scraper._clean_team_name. now rewrite sub_trailing_group_none.
    + unfold Scraper._extract_status. now rewrite search_paren_group_none.
  - intros name ws g ws' Hname Hws Hg Hgroup Hws' label.
    assert (Hclean : Scraper._clean_team_name label = Py.strip name).
    { unfold Scraper._clean_team_name, label.
      destruct (sub_trailing_group_name ws g ws' Hws Hg Hgroup Hws' name Hname)
        as (p & w & Hn & Hw & Hs).
      rewrite Hs, Hn. symmetry. now apply strip_app_spaces. }
    split; [exact Hclean |]. split.
    + unfold Scraper._extract_status, label.
      assert (Hpre : Py.all_chars not_lparen (name ++ ws) = true).
      { rewrite all_chars_app, Hname. cbn [andb].
        clear - Hws. induction ws as [| c r IH]; [reflexivity |].
        cbn [Py.all_chars] in *. apply andb_prop in Hws. destruct Hws as [Hc Hr].
        rewrite (IH Hr), andb_true_r.
        destruct c as [[] [] [] [] [] [] [] []]; try reflexivity; discriminate. }
      rewrite <- string_app_assoc.
      rewrite (search_paren_group_skip _ _ Hpre).
      cbn [Scraper.search_paren_group].
      rewrite (paren_group_at_group g ws' Hg Hgroup).
      rewrite (paren_group_at_group g "" Hg Hgroup). reflexivity.
    + rewrite Hclean. unfold Scraper._clean_team_name.
      rewrite sub_trailing_group_none by now apply strip_keeps.
      unfold Py.strip at 1.
      assert (Hl : forall s, Py.lstrip (Py.strip s) = Py.strip s).
      { intros s. unfold Py.strip.
        assert (Hfirst : Py.lstrip s = "" \/
                         exists c r, Py.lstrip s = String c r /\ Py.is_space c = false).
        { clear. induction s as [| c r IH]; [now left |].
          cbn [Py.lstrip]. destruct (Py.is_space c) eqn:E; [exact IH |].
          right. now exists c, r. }
        destruct Hfirst as [He | (c & r & He & Hc)]; rewrite He; [reflexivity |].
        cbn [Py.rstrip]. destruct (Py.rstrip r); rewrite ?Hc; cbn [Py.lstrip];
          now rewrite Hc. }
      assert (Hr : forall s, Py.rstrip (Py.rstrip s) = Py.rstrip s).
      { clear. induction s as [| c r IH]; [reflexivity |].
        cbn [Py.rstrip]. destruct (Py.rstrip r) as [| c' r'] eqn:E.
        - destruct (Py.is_space c) eqn:Hc; [reflexivity |].
          cbn [Py.rstrip]. now rewrite Hc.
        - cbn [Py.rstrip]. cbn [Py.rstrip] in IH. rewrite IH. reflexivity. }
      rewrite Hl. unfold Py.strip. apply Hr.
Qed.

Lemma clean_team_name_of_label_witness :
  Scraper._clean_team_name " Team Liquid  (on loan) " = "Team Liquid" /\
  Scraper._extract_status "NAVI" = "Active".
Proof.
  split.
  - etransitivity.
    + refine (proj1 (proj2 clean_team_name_of_label
                " Team Liquid" "  " "on loan" " " _ _ _ _ _));
        [reflexivity | reflexivity | discriminate | reflexivity | reflexivity].
    + reflexivity.
  - exact (proj2 (proj1 clean_team_name_of_label "NAVI" eq_refl)).
Defined.

(** ** Merging several collections *)

Section MergeAlgebra.

Import Merger.

Let pid := Player.player_id.

Lemma drop_from_length (l : list Player.t) :
  forall s, (List.length (drop_duplicates_from s l) <= List.length l)%nat.
Proof.
  induction l as [| p r IH]; intros s; cbn [drop_duplicates_from List.length];
    [apply Nat.le_refl |].
  destruct (mem (Player.player_id p) s).
  - apply Nat.le_le_succ_r, IH.
  - cbn [List.length]. apply le_n_S, IH.
Qed.

Lemma drop_from_same_length (l : list Player.t) :
  forall s, List.length (drop_duplicates_from s l) = List.length l ->
    drop_duplicates_from s l = l.
Proof.
  induction l as [| p r IH]; intros s H; [reflexivity |].
  cbn [drop_duplicates_from List.length] in *.
  destruct (mem (Player.player_id p) s).
  - pose proof (drop_from_length r s) as Hle. rewrite H in Hle.
    exfalso. exact (Nat.nle_succ_diag_l _ Hle).
  - cbn [List.length] in H. f_equal. apply IH. now injection H.
Qed.

Lemma drop_from_again (l : list Player.t) :
  forall s t,
    drop_duplicates_from t (drop_duplicates_from s l) =
    filter (fun p => negb (mem (pid p) t)) (drop_duplicates_from s l).
Proof.
  intros s t.
  assert (H : forall (d : list Player.t) u, NoDup (map pid d) ->
            (forall x, In x (map pid d) -> ~ In x u) ->
            drop_duplicates_from (u ++ t) d =
            filter (fun p => negb (mem (pid p) t)) d).
  { induction d as [| p r IH]; intros u Hnd Hu; [reflexivity |].
    inversion Hnd as [| ? ? Hp Hnd']; subst.
    cbn [drop_duplicates_from filter]. rewrite mem_app.
    assert (Hpu : mem (Player.player_id p) u = false).
    { apply mem_false_In. apply Hu. now left. }
    rewrite Hpu. cbn [orb]. unfold pid at 1.
    destruct (mem (Player.player_id p) t) eqn:Ht; cbn [negb].
    - apply IH; [assumption |]. intros x Hx. apply Hu. now right.
    - f_equal. rewrite <- (IH (Player.player_id p :: u) Hnd').
      + reflexivity.
      + intros x Hx [Hxp | Hxu].
        * subst x. contradiction.
        * apply (Hu x); [now right | assumption]. }
  apply (H (drop_duplicates_from s l) []); [apply drop_from_NoDup |].
  intros x _ [].
Qed.

Lemma drop_of_dropped_left (a c : list Player.t) :
  drop_duplicates (drop_duplicates a ++ c) = drop_duplicates (a ++ c).
Proof.
  unfold drop_duplicates. rewrite !drop_from_app. f_equal.
  - apply drop_from_fixed; [apply drop_from_NoDup | intros x _ []].
  - apply drop_from_ext. intros x. rewrite !mem_app. f_equal.
    destruct (mem x (map Player.player_id a)) eqn:E.
    + apply mem_In. apply drop_from_ids. split; [now apply mem_In | intros []].
    + apply mem_false_In. intros H. apply drop_from_ids in H.
      apply mem_false_In in E. tauto.
Qed.

Lemma drop_of_dropped_right (a c : list Player.t) :
  drop_duplicates (a ++ drop_duplicates c) = drop_duplicates (a ++ c).
Proof.
  unfold drop_duplicates. rewrite !drop_from_app. f_equal.
  rewrite drop_from_again.
  rewrite <- drop_from_filter. apply drop_from_ext. intros x.
  rewrite !mem_app. change (mem x []) with false. now rewrite !orb_false_r.
Qed.

End MergeAlgebra.

(** Merging is associative, so three files can be merged in either
    grouping; merging the same supplement a second time changes nothing; the
    merged collection is never longer than the two inputs together, and it
    has their joint length exactly when it is their concatenation, that is
    when no [player_id] occurs twice in them. *)
Theorem merge_databases_algebra :
  forall a b c : list Player.t,
    Merger.merge_databases (Merger.merge_databases a b) c =
      Merger.merge_databases a (Merger.merge_databases b c) /\
    Merger.merge_databases (Merger.merge_databases a b) b =
      Merger.merge_databases a b /\
    (List.length (Merger.merge_databases a b) <= List.length a + List.length b)%nat /\
    (List.length (Merger.merge_databases a b) = (List.length a + List.length b)%nat <->
     NoDup (map Player.player_id (a ++ b))) /\
    (NoDup (map Player.player_id (a ++ b)) ->
     Merger.merge_databases a b = (a ++ b)%list).
Proof.
  intros a b c. unfold Merger.merge_databases.
  assert (Hfix : NoDup (map Player.player_id (a ++ b)) ->
                 Merger.drop_duplicates (a ++ b) = (a ++ b)%list).
  { intros H. apply drop_from_fixed; [exact H | intros x _ []]. }
  split; [| split; [| split; [| split]]].
  - rewrite drop_of_dropped_left, drop_of_dropped_right. now rewrite app_assoc.
  - rewrite drop_of_dropped_left. unfold Merger.drop_duplicates.
    rewrite <- app_assoc, (drop_from_app a (b ++ b)), (drop_from_app a b).
    f_equal. rewrite drop_from_app.
    assert (Hnone : Merger.drop_duplicates_from
                      (map Player.player_id b ++ map Player.player_id a ++ []) b = []).
    { destruct (Merger.drop_duplicates_from
                  (map Player.player_id b ++ map Player.player_id a ++ []) b)
        as [| p r] eqn:E; [reflexivity |].
      assert (Hp : In (Player.player_id p)
                     (map Player.player_id (Merger.drop_duplicates_from
                        (map Player.player_id b ++ map Player.player_id a ++ []) b))).
      { rewrite E. now left. }
      apply drop_from_ids in Hp. destruct Hp as [Hin Hout].
      exfalso. apply Hout. apply in_or_app. now left. }
    rewrite Hnone. now rewrite app_nil_r.
  - rewrite <- length_app. apply drop_from_length.
  - rewrite <- length_app. split.
    + intros H. apply drop_from_same_length in H.
      rewrite <- H. apply drop_from_NoDup.
    + intros H. now rewrite (Hfix H).
  - exact Hfix.
Qed.

Lemma merge_databases_algebra_witness :
  Merger.merge_databases Sample.batch_1 [ Sample.player "p2" Absent ] =
  [ Sample.player "p1" Absent; Sample.player "p2" Absent ].
Proof.
  refine (proj2 (proj2 (proj2 (proj2
    (merge_databases_algebra Sample.batch_1 [ Sample.player "p2" Absent ] [])))) _).
  repeat constructor; cbn; intuition discriminate.
Defined.

(** ** Numbers, placements and letter case in the noise classifier *)

Section Matching.

Import Re.

Variable ic : bool.

Lemma fullmatch_Empty (s : string) : fullmatch ic Empty s = false.
Proof. induction s as [| c r IH]; [reflexivity | exact IH]. Qed.

Lemma fullmatch_Alt (s : string) :
  forall a b, fullmatch ic (Alt a b) s = fullmatch ic a s || fullmatch ic b s.
Proof.
  induction s as [| c r IH]; intros a b; [reflexivity |].
  cbn [fullmatch deriv]. apply IH.
Qed.

Lemma fullmatch_Cat (s1 s2 : string) (b : regex) :
  forall a,
    fullmatch ic a s1 = true -> fullmatch ic b s2 = true ->
    fullmatch ic (Cat a b) (s1 ++ s2) = true.
Proof.
  induction s1 as [| c r IH]; intros a Ha Hb.
  - cbn [append]. cbn [fullmatch] in Ha.
    destruct s2 as [| c t].
    + cbn [fullmatch nullable] in *. now rewrite Ha, Hb.
    + cbn [fullmatch deriv] in *. rewrite Ha.
      rewrite fullmatch_Alt, Hb. apply orb_true_r.
  - cbn [append fullmatch deriv] in *.
    destruct (nullable a).
    + rewrite fullmatch_Alt, (IH _ Ha Hb). reflexivity.
    + exact (IH _ Ha Hb).
Qed.

Lemma fullmatch_Star_step (a : regex) (c : ascii) (r s2 : string) :
  fullmatch ic a (String c r) = true -> fullmatch ic (Star a) s2 = true ->
  fullmatch ic (Star a) (String c r ++ s2) = true.
Proof.
  intros Ha Hs. cbn [append fullmatch deriv] in *.
  now apply fullmatch_Cat.
Qed.

Lemma fullmatch_Class (k : cclass) (c : ascii) :
  class_matches ic k c = true -> fullmatch ic (Class k) (String c "") = true.
Proof. intros H. cbn [fullmatch deriv]. now rewrite H. Qed.

Lemma fullmatch_Star_Class (k : cclass) (s : string) :
  Py.all_chars (class_matches ic k) s = true ->
  fullmatch ic (Star (Class k)) s = true.
Proof.
  induction s as [| c r IH]; intros H; [reflexivity |].
  cbn [Py.all_chars] in H. apply andb_prop in H. destruct H as [Hc Hr].
  change (String c r) with (String c "" ++ r).
  apply fullmatch_Star_step; [now apply fullmatch_Class | now apply IH].
Qed.

Lemma fullmatch_Plus_Class (k : cclass) (s : string) :
  s <> "" -> Py.all_chars (class_matches ic k) s = true ->
  fullmatch ic (Plus (Class k)) s = true.
Proof.
  destruct s as [| c r]; [congruence |]. intros _ H.
  cbn [Py.all_chars] in H. apply andb_prop in H. destruct H as [Hc Hr].
  change (String c r) with (String c "" ++ r). unfold Plus.
  apply fullmatch_Cat; [now apply fullmatch_Class | now apply fullmatch_Star_Class].
Qed.

End Matching.

Lemma class_matches_lower (k : Re.cclass) (c : ascii) :
  Re.class_matches true k (Py.lower_char c) = Re.class_matches true k c.
Proof.
  destruct k as [a | |]; cbn [Re.class_matches].
  - f_equal. destruct c as [[] [] [] [] [] [] [] []]; reflexivity.
  - destruct c as [[] [] [] [] [] [] [] []]; reflexivity.
  - destruct c as [[] [] [] [] [] [] [] []]; reflexivity.
Qed.

Lemma deriv_lower (c : ascii) (r : Re.regex) :
  Re.deriv true (Py.lower_char c) r = Re.deriv true c r.
Proof.
  induction r as [| | k | a IHa b IHb | a IHa b IHb | a IHa]; cbn [Re.deriv];
    try reflexivity.
  - now rewrite class_matches_lower.
  - now rewrite IHa, IHb.
  - now rewrite IHa, IHb.
  - now rewrite IHa.
Qed.

Lemma fullmatch_lower (s : string) :
  forall r, Re.fullmatch true r (Py.lower s) = Re.fullmatch true r s.
Proof.
  induction s as [| c t IH]; intros r; [reflexivity |].
  cbn [Py.lower Re.fullmatch]. now rewrite deriv_lower, IH.
Qed.

Lemma fullmatch_lit (w : string) :
  forall s, Py.lower w = Py.lower s -> Re.fullmatch true (Re.lit w) s = true.
Proof.
  induction w as [| a r IH]; intros s H.
  - destruct s; [reflexivity | discriminate].
  - destruct s as [| c t]; [discriminate |].
    cbn [Py.lower] in H. injection H as Hc Ht.
    cbn [Re.lit]. change (String c t) with (String c "" ++ t).
    apply fullmatch_Cat; [| now apply IH].
    apply fullmatch_Class. cbn [Re.class_matches]. rewrite Hc. apply Ascii.eqb_refl.
Qed.

Lemma lower_empty (s : string) : Py.lower s = "" -> s = "".
Proof. destruct s; [reflexivity | discriminate]. Qed.

Lemma lstrip_lower (s : string) : Py.lstrip (Py.lower s) = Py.lower (Py.lstrip s).
Proof.
  induction s as [| c r IH]; [reflexivity |].
  cbn [Py.lower Py.lstrip].
  replace (Py.is_space (Py.lower_char c)) with (Py.is_space c)
    by (destruct c as [[] [] [] [] [] [] [] []]; reflexivity).
  destruct (Py.is_space c); [exact IH | reflexivity].
Qed.

Lemma rstrip_lower (s : string) : Py.rstrip (Py.lower s) = Py.lower (Py.rstrip s).
Proof.
  induction s as [| c r IH]; [reflexivity |].
  cbn [Py.lower Py.rstrip]. rewrite IH.
  replace (Py.is_space (Py.lower_char c)) with (Py.is_space c)
    by (destruct c as [[] [] [] [] [] [] [] []]; reflexivity).
  destruct (Py.rstrip r); cbn [Py.lower]; [| reflexivity].
  destruct (Py.is_space c); reflexivity.
Qed.

Lemma strip_lower (s : string) : Py.strip (Py.lower s) = Py.lower (Py.strip s).
Proof. unfold Py.strip. now rewrite lstrip_lower, rstrip_lower. Qed.

Lemma drop_final_newline_lower (s : string) :
  Re.drop_final_newline (Py.lower s) =
  match Re.drop_final_newline s with
  | Some t => Some (Py.lower t)
  | None => None
  end.
Proof.
  induction s as [| c r IH]; [reflexivity |].
  cbn [Py.lower]. destruct r as [| c' r'].
  - cbn [Py.lower Re.drop_final_newline].
    replace (Ascii.eqb (Py.lower_char c) "010") with (Ascii.eqb c "010")
      by (destruct c as [[] [] [] [] [] [] [] []]; reflexivity).
    destruct (Ascii.eqb c "010"); reflexivity.
  - change (Re.drop_final_newline (String c (String c' r')))
      with (match Re.drop_final_newline (String c' r') with
            | Some t' => Some (String c t')
            | None => None
            end).
    change (Re.drop_final_newline (String (Py.lower_char c) (Py.lower (String c' r'))))
      with (match Re.drop_final_newline (Py.lower (String c' r')) with
            | Some t' => Some (String (Py.lower_char c) t')
            | None => None
            end).
    rewrite IH. destruct (Re.drop_final_newline (String c' r')); reflexivity.
Qed.

Lemma match_anchored_lower (r : Re.regex) (s : string) :
  Re.match_anchored true r (Py.lower s) = Re.match_anchored true r s.
Proof.
  unfold Re.match_anchored. rewrite fullmatch_lower, drop_final_newline_lower.
  destruct (Re.drop_final_newline s); [now rewrite fullmatch_lower | reflexivity].
Qed.

Lemma is_fake_team_eq (s : string) :
  Cleaner.is_fake_team s =
  negb (Py.truthy (Py.strip s))
  || mem (Py.strip s) Cleaner.fake_teams_exact
  || existsb (fun pattern => Re.match_anchored true pattern (Py.strip s))
       Cleaner.fake_team_patterns.
Proof.
  unfold Cleaner.is_fake_team. destruct s as [| c r]; [reflexivity |].
  cbn [Py.truthy negb orb].
  destruct (Py.truthy (Py.strip (String c r))); cbn [negb orb]; [| reflexivity].
  destruct (mem (Py.strip (String c r)) Cleaner.fake_teams_exact); reflexivity.
Qed.

Lemma is_fake_team_of_pattern (s : string) (pattern : Re.regex) :
  In pattern Cleaner.fake_team_patterns ->
  Re.fullmatch true pattern (Py.strip s) = true ->
  Cleaner.is_fake_team s = true.
Proof.
  intros Hin Hm. rewrite is_fake_team_eq.
  assert (H : existsb (fun pattern => Re.match_anchored true pattern (Py.strip s))
                Cleaner.fake_team_patterns = true).
  { apply existsb_exists. exists pattern. split; [exact Hin |].
    unfold Re.match_anchored. now rewrite Hm. }
  rewrite H. apply orb_true_r.
Qed.

Lemma fullmatch_placement (d suf : string) :
  d <> "" -> Py.all_chars Py.is_digit d = true ->
  In (Py.lower suf) [ "st"; "nd"; "rd"; "th" ] ->
  Re.fullmatch true Cleaner.placement (d ++ suf) = true.
Proof.
  intros Hd Hdigits Hsuf. unfold Cleaner.placement.
  apply fullmatch_Cat.
  - now apply fullmatch_Plus_Class.
  - unfold Cleaner.ordinal_suffix. cbn [Re.alts]. rewrite !fullmatch_Alt.
    destruct Hsuf as [H | [H | [H | [H | []]]]].
    + rewrite (fullmatch_lit "st" suf H). reflexivity.
    + rewrite (fullmatch_lit "nd" suf H). now rewrite orb_true_r.
    + rewrite (fullmatch_lit "rd" suf H). now rewrite !orb_true_r.
    + rewrite (fullmatch_lit "th" suf H). now rewrite !orb_true_r.
Qed.

(** Every name that consists of digits is noise, whatever the number; so
    is every number followed by an ordinal suffix in any letter case, and
    every range of two such placements with a hyphen between them; the white
    space around the name is ignored. *)
Theorem numbers_and_placements_are_noise :
  (forall s,
      Py.all_chars Py.is_digit (Py.strip s) = true ->
      Cleaner.is_fake_team s = true) /\
  (forall s d suf,
      d <> "" -> Py.all_chars Py.is_digit d = true ->
      In (Py.lower suf) [ "st"; "nd"; "rd"; "th" ] ->
      Py.strip s = d ++ suf ->
      Cleaner.is_fake_team s = true) /\
  (forall s d suf ws ws' d' suf',
      d <> "" -> Py.all_chars Py.is_digit d = true ->
      In (Py.lower suf) [ "st"; "nd"; "rd"; "th" ] ->
      Py.all_chars Py.is_space ws = true ->
      Py.all_chars Py.is_space ws' = true ->
      d' <> "" -> Py.all_chars Py.is_digit d' = true ->
      In (Py.lower suf') [ "st"; "nd"; "rd"; "th" ] ->
      Py.strip s = (d ++ suf) ++ ws ++ "-" ++ ws' ++ (d' ++ suf') ->
      Cleaner.is_fake_team s = true).
Proof.
  split; [| split].
  - intros s H. destruct (Py.strip s) as [| c r] eqn:E.
    + rewrite is_fake_team_eq, E. reflexivity.
    + apply (is_fake_team_of_pattern s (Re.Plus (Re.Class Re.CDigit))).
      * cbn. tauto.
      * rewrite E. now apply fullmatch_Plus_Class.
  - intros s d suf Hd Hdigits Hsuf Hs.
    apply (is_fake_team_of_pattern s Cleaner.placement).
    + cbn. tauto.
    + rewrite Hs. now apply fullmatch_placement.
  - intros s d suf ws ws' d' suf' Hd Hdigits Hsuf Hws Hws' Hd' Hdigits' Hsuf' Hs.
    apply (is_fake_team_of_pattern s
             (Re.Cat Cleaner.placement
                (Re.Cat (Re.Star (Re.Class Re.CSpace))
                   (Re.Cat (Re.lit "-")
                      (Re.Cat (Re.Star (Re.Class Re.CSpace)) Cleaner.placement))))).
    + cbn. tauto.
    + rewrite Hs.
      apply fullmatch_Cat; [now apply fullmatch_placement |].
      apply fullmatch_Cat; [now apply fullmatch_Star_Class |].
      apply (fullmatch_Cat true "-"); [reflexivity |].
      apply fullmatch_Cat; [now apply fullmatch_Star_Class |].
      now apply fullmatch_placement.
Qed.

Lemma numbers_and_placements_are_noise_witness :
  Cleaner.is_fake_team " 2024 " = true /\
  Cleaner.is_fake_team "117TH" = true /\
  Cleaner.is_fake_team "9th -  16th" = true.
Proof.
  split; [| split].
  - exact (proj1 numbers_and_placements_are_noise " 2024 " eq_refl).
  - refine (proj1 (proj2 numbers_and_placements_are_noise) "117TH" "117" "TH" _ _ _ _);
      [discriminate | reflexivity | cbn; tauto | reflexivity].
  - refine (proj2 (proj2 numbers_and_placements_are_noise)
              "9th -  16th" "9" "th" " " "  " "16" "th" _ _ _ _ _ _ _ _ _);
      [discriminate | reflexivity | cbn; tauto | reflexivity | reflexivity
      | discriminate | reflexivity | cbn; tauto | reflexivity].
Defined.

Lemma exact_names_match_a_pattern (e : string) :
  In e Cleaner.fake_teams_exact ->
  e = "Qualifiers" \/
  existsb (fun pattern => Re.match_anchored true pattern e)
    Cleaner.fake_team_patterns = true.
Proof.
  intros H. unfold Cleaner.fake_teams_exact in H. cbn [In] in H.
  repeat (destruct H as [H | H];
          [subst e; (now left) || (right; vm_compute; reflexivity) |]).
  contradiction.
Qed.

Lemma strip_strip (s : string) : Py.strip (Py.strip s) = Py.strip s.
Proof.
  assert (Hl : Py.lstrip (Py.strip s) = Py.strip s).
  { unfold Py.strip.
    assert (Hfirst : Py.lstrip s = "" \/
                     exists c r, Py.lstrip s = String c r /\ Py.is_space c = false).
    { induction s as [| c r IH]; [now left |].
      cbn [Py.lstrip]. destruct (Py.is_space c) eqn:E; [exact IH |].
      right. now exists c, r. }
    destruct Hfirst as [He | (c & r & He & Hc)]; rewrite He; [reflexivity |].
    cbn [Py.rstrip]. destruct (Py.rstrip r); rewrite ?Hc; cbn [Py.lstrip];
      now rewrite Hc. }
  assert (Hr : forall t, Py.rstrip (Py.rstrip t) = Py.rstrip t).
  { clear. induction t as [| c r IH]; [reflexivity |].
    cbn [Py.rstrip]. destruct (Py.rstrip r) as [| c' r'] eqn:E.
    - destruct (Py.is_space c) eqn:Hc; [reflexivity |].
      cbn [Py.rstrip]. now rewrite Hc.
    - cbn [Py.rstrip]. cbn [Py.rstrip] in IH. rewrite IH. reflexivity. }
  unfold Py.strip at 1. rewrite Hl. unfold Py.strip. apply Hr.
Qed.

(** The classifier looks at the stripped name only, and it does not
    depend on the letter case of the name, with one exception: the plural
    "Qualifiers" is on the exact list but matches none of the patterns, so
    it is noise in this spelling only. *)
Theorem is_fake_team_and_letter_case :
  (forall s, Cleaner.is_fake_team (Py.strip s) = Cleaner.is_fake_team s) /\
  (forall s s',
      Py.lower s = Py.lower s' ->
      Py.strip s <> "Qualifiers" ->
      Cleaner.is_fake_team s = true ->
      Cleaner.is_fake_team s' = true) /\
  Cleaner.is_fake_team "Qualifiers" = true /\
  Cleaner.is_fake_team "qualifiers" = false.
Proof.
  split; [| split; [| split; reflexivity]].
  - intros s. now rewrite (is_fake_team_eq (Py.strip s)), strip_strip, <- is_fake_team_eq.
  - intros s s' Hlow Hq H.
    assert (Hx : Py.lower (Py.strip s) = Py.lower (Py.strip s')).
    { now rewrite <- !strip_lower, Hlow. }
    assert (Hpat : existsb (fun pattern => Re.match_anchored true pattern (Py.strip s))
                     Cleaner.fake_team_patterns = true ->
                   Cleaner.is_fake_team s' = true).
    { intros Hp. rewrite is_fake_team_eq.
      apply existsb_exists in Hp. destruct Hp as (pattern & Hin & Hm).
      assert (H' : existsb (fun pattern =>
                              Re.match_anchored true pattern (Py.strip s'))
                     Cleaner.fake_team_patterns = true).
      { apply existsb_exists. exists pattern. split; [exact Hin |].
        now rewrite <- match_anchored_lower, <- Hx, match_anchored_lower. }
      rewrite H'. apply orb_true_r. }
    rewrite is_fake_team_eq in H.
    apply orb_prop in H. destruct H as [H | H]; [| now apply Hpat].
    apply orb_prop in H. destruct H as [H | H].
    + apply negb_true_iff, truthy_false_iff in H.
      rewrite H in Hx. symmetry in Hx. apply lower_empty in Hx.
      rewrite is_fake_team_eq, Hx. reflexivity.
    + apply mem_In, exact_names_match_a_pattern in H.
      destruct H as [H | H]; [contradiction | now apply Hpat].
Qed.

Lemma is_fake_team_and_letter_case_witness :
  Cleaner.is_fake_team "sHoWmAtCh " = true.
Proof.
  refine (proj1 (proj2 is_fake_team_and_letter_case) "Showmatch " "sHoWmAtCh " _ _ _);
    [reflexivity | discriminate | reflexivity].
Defined.

(** ** Tier 1 teams *)

Lemma contains_eq (sub s : string) :
  Py.contains sub s =
  prefix sub s || match s with
                  | EmptyString => false
                  | String _ r => Py.contains sub r
                  end.
Proof. destruct s; reflexivity. Qed.

Lemma contains_refl (s : string) : Py.contains s s = true.
Proof.
  rewrite contains_eq.
  assert (H : prefix s s = true).
  { induction s as [| c r IH]; [reflexivity |]. cbn [prefix].
    destruct (ascii_dec c c); [exact IH | congruence]. }
  now rewrite H.
Qed.

Lemma contains_empty (s : string) : Py.contains "" s = true.
Proof. destruct s; reflexivity. Qed.

Lemma contains_in_empty (t : string) : t <> "" -> Py.contains t "" = false.
Proof. destruct t; [congruence | reflexivity]. Qed.

Lemma lstrip_first (s : string) :
  Py.lstrip s = "" \/
  exists c r, Py.lstrip s = String c r /\ Py.is_space c = false.
Proof.
  induction s as [| c r IH]; [now left |].
  cbn [Py.lstrip]. destruct (Py.is_space c) eqn:E; [exact IH |].
  right. now exists c, r.
Qed.

Lemma rstrip_rstrip (s : string) : Py.rstrip (Py.rstrip s) = Py.rstrip s.
Proof.
  induction s as [| c r IH]; [reflexivity |].
  cbn [Py.rstrip]. destruct (Py.rstrip r) as [| c' r'] eqn:E.
  - destruct (Py.is_space c) eqn:Hc; [reflexivity |].
    cbn [Py.rstrip]. now rewrite Hc.
  - cbn [Py.rstrip]. cbn [Py.rstrip] in IH. rewrite IH. reflexivity.
Qed.

Lemma stripped_first (t : string) :
  t <> "" -> Py.strip t = t ->
  exists c r, t = String c r /\ Py.is_space c = false.
Proof.
  intros Hne Ht. unfold Py.strip in Ht.
  destruct (lstrip_first t) as [He | (c & r & He & Hc)].
  - rewrite He in Ht. cbn in Ht. congruence.
  - rewrite He in Ht. cbn [Py.rstrip] in Ht.
    destruct (Py.rstrip r) as [| c' r'].
    + rewrite Hc in Ht. exists c, "". now split.
    + exists c, (String c' r'). now split.
Qed.

Lemma stripped_rstrip (t : string) : Py.strip t = t -> Py.rstrip t = t.
Proof.
  intros Ht. rewrite <- Ht at 1. unfold Py.strip. rewrite rstrip_rstrip. exact Ht.
Qed.

Lemma contains_lstrip (t x : string) :
  (exists c r, t = String c r /\ Py.is_space c = false) ->
  Py.contains t x = true -> Py.contains t (Py.lstrip x) = true.
Proof.
  intros (c0 & t0 & Ht & Hc0). subst t.
  induction x as [| c r IH]; intros H; [exact H |].
  cbn [Py.lstrip]. destruct (Py.is_space c) eqn:Hc; [| exact H].
  apply IH. cbn [Py.contains prefix] in H.
  destruct (ascii_dec c0 c) as [E | E]; [subst c0; congruence |].
  exact H.
Qed.

Lemma rstrip_cons (c : ascii) (r : string) :
  Py.rstrip (String c r) =
  match Py.rstrip r with
  | EmptyString => if Py.is_space c then EmptyString else String c EmptyString
  | String c' r' => String c (String c' r')
  end.
Proof. reflexivity. Qed.

Lemma prefix_rstrip (x : string) :
  forall t, t <> "" -> Py.rstrip t = t -> prefix t x = true ->
    prefix t (Py.rstrip x) = true.
Proof.
  induction x as [| c r IH]; intros t Hne Ht H.
  - destruct t; [congruence | discriminate].
  - destruct t as [| a t']; [congruence |].
    cbn [prefix] in H. destruct (ascii_dec a c) as [E | E]; [subst a | discriminate].
    rewrite rstrip_cons in Ht.
    destruct t' as [| c' t''].
    + cbn [Py.rstrip] in Ht.
      destruct (Py.is_space c) eqn:Hc; [discriminate |].
      cbn [Py.rstrip]. destruct (Py.rstrip r); rewrite ?Hc; cbn [prefix];
        destruct (ascii_dec c c); congruence.
    + assert (Ht' : Py.rstrip (String c' t'') = String c' t'').
      { destruct (Py.rstrip (String c' t'')) as [| c1 r1].
        - destruct (Py.is_space c); discriminate.
        - congruence. }
      assert (Hp : prefix (String c' t'') (Py.rstrip r) = true).
      { apply IH; [discriminate | exact Ht' | exact H]. }
      cbn [Py.rstrip]. destruct (Py.rstrip r) as [| c1 r1]; [discriminate |].
      cbn [prefix] in *. destruct (ascii_dec c c); [exact Hp | congruence].
Qed.

Lemma contains_rstrip (t x : string) :
  t <> "" -> Py.rstrip t = t ->
  Py.contains t x = true -> Py.contains t (Py.rstrip x) = true.
Proof.
  intros Hne Ht. induction x as [| c r IH]; intros H.
  - now rewrite contains_in_empty in H.
  - rewrite contains_eq in H. apply orb_prop in H. destruct H as [H | H].
    + rewrite contains_eq. now rewrite (prefix_rstrip _ t Hne Ht H).
    + specialize (IH H). cbn [Py.rstrip].
      destruct (Py.rstrip r) as [| c1 r1].
      * now rewrite contains_in_empty in IH.
      * rewrite contains_eq, IH. apply orb_true_r.
Qed.

Lemma contains_strip (t x : string) :
  t <> "" -> Py.strip t = t ->
  Py.contains t x = true -> Py.contains t (Py.strip x) = true.
Proof.
  intros Hne Ht H. unfold Py.strip.
  apply contains_rstrip; [exact Hne | now apply stripped_rstrip |].
  apply contains_lstrip; [now apply stripped_first | exact H].
Qed.

Lemma tier_1_names_stripped (t : string) :
  In t Tier1.TIER_1_TEAMS_LOWER -> t <> "" /\ Py.strip t = t.
Proof.
  assert (H : forallb (fun t => Py.truthy t && String.eqb (Py.strip t) t)
                Tier1.TIER_1_TEAMS_LOWER = true) by (vm_compute; reflexivity).
  rewrite forallb_forall in H. intros Hin. specialize (H t Hin).
  apply andb_prop in H. destruct H as [Hne Hs]. split.
  - intros E. subst t. discriminate.
  - now apply String.eqb_eq.
Qed.

(** For a name written in ASCII: the direct look-up adds nothing to the
    two containment tests, so a name is tier 1 exactly when it is not empty
    and its normal form contains a listed name or is contained in one.  Hence
    a non-empty name of white space only is tier 1, and so is every name in
    which a listed name or abbreviation occurs, in any letter case. *)
Theorem tier_1_by_containment :
  forall team_name,
    ascii_text team_name = true ->
    let team_lower := Py.strip (Py.lower team_name) in
    (Tier1.is_tier_1_team team_name = true <->
     team_name <> "" /\
     exists tier1_team,
       In tier1_team Tier1.TIER_1_TEAMS_LOWER /\
       (Py.contains tier1_team team_lower = true \/
        Py.contains team_lower tier1_team = true)) /\
    (team_name <> "" -> Py.strip team_name = "" ->
     Tier1.is_tier_1_team team_name = true) /\
    (forall tier1_team,
        In tier1_team Tier1.TIER_1_TEAMS_LOWER ->
        Py.contains tier1_team (Py.lower team_name) = true ->
        Tier1.is_tier_1_team team_name = true).
Proof.
  intros team_name _ team_lower.
  assert (Hiff : Tier1.is_tier_1_team team_name = true <->
     team_name <> "" /\
     exists tier1_team,
       In tier1_team Tier1.TIER_1_TEAMS_LOWER /\
       (Py.contains tier1_team team_lower = true \/
        Py.contains team_lower tier1_team = true)).
  { unfold Tier1.is_tier_1_team. fold team_lower.
    destruct team_name as [| c r].
    - cbn [Py.truthy negb]. split; [discriminate | intros [H _]; congruence].
    - cbn [Py.truthy negb].
      set (found := existsb (fun tier1_team =>
                      Py.contains tier1_team team_lower
                      || Py.contains team_lower tier1_team)
                    Tier1.TIER_1_TEAMS_LOWER).
      assert (Hfound : found = true <->
                exists tier1_team,
                  In tier1_team Tier1.TIER_1_TEAMS_LOWER /\
                  (Py.contains tier1_team team_lower = true \/
                   Py.contains team_lower tier1_team = true)).
      { unfold found. rewrite existsb_exists. split.
        - intros (t & Hin & H). exists t. split; [exact Hin |].
          now apply orb_prop.
        - intros (t & Hin & H). exists t. split; [exact Hin |].
          destruct H as [H | H]; rewrite H; [reflexivity | apply orb_true_r]. }
      destruct (mem team_lower Tier1.TIER_1_TEAMS_LOWER) eqn:Hm.
      + split; [intros _ | reflexivity]. split; [discriminate |].
        exists team_lower. split; [now apply mem_In |].
        left. apply contains_refl.
      + rewrite Hfound. split.
        * intros H. split; [discriminate | exact H].
        * intros [_ H]. exact H. }
  split; [exact Hiff |]. split.
  - intros Hne Hblank. apply Hiff. split; [exact Hne |].
    exists "sentinels". split; [now left |]. right.
    unfold team_lower. rewrite strip_lower, Hblank. reflexivity.
  - intros t Hin Hc.
    destruct (tier_1_names_stripped t Hin) as [Hne Hs].
    apply Hiff. split.
    + intros E. subst team_name. now rewrite contains_in_empty in Hc.
    + exists t. split; [exact Hin |]. left.
      unfold team_lower. now apply contains_strip.
Qed.

Lemma tier_1_by_containment_witness :
  Tier1.is_tier_1_team "   " = true /\
  Tier1.is_tier_1_team "Pathfinders Academy" = true.
Proof.
  split.
  - refine (proj1 (proj2 (tier_1_by_containment "   " _)) _ _);
      [reflexivity | discriminate | reflexivity].
  - refine (proj2 (proj2 (tier_1_by_containment "Pathfinders Academy" _)) "th" _ _);
      [reflexivity | | reflexivity].
    apply mem_In. vm_compute. reflexivity.
Defined.

(** ** The analyzer's expanded table against the builder's stints *)

Lemma expanded_of_stint_row (now : Date.t) (p : Player.t) (n len id num : Z)
    (e : list (string * string)) :
  Player.teams_count p = Some n ->
  Analyzer.expanded_row p (Entry e) =
  Ok (expanded_of_stint (Builder.stint_row now p len id num e)).
Proof.
  intros Hn. unfold Analyzer.expanded_row, expanded_of_stint, Builder.stint_row.
  cbn. rewrite Hn. reflexivity.
Qed.

Lemma analyzer_career_loop_rows (now : Date.t) (p : Player.t) (n len : Z)
    (entries : list raw_entry) :
  Player.teams_count p = Some n ->
  forall id num acc,
    fst (Analyzer.career_loop p entries acc) =
    (acc ++ map expanded_of_stint
              (rows_from now p len id num (good_prefix entries)))%list.
Proof.
  intros Hn. induction entries as [| [e |] more IH]; intros id num acc.
  - cbn. now rewrite app_nil_r.
  - cbn [Analyzer.career_loop good_prefix rows_from map].
    rewrite (expanded_of_stint_row now p n len id num e Hn).
    rewrite (IH (id + 1) (num + 1)). now rewrite <- app_assoc.
  - cbn [Analyzer.career_loop good_prefix rows_from map].
    unfold Analyzer.expanded_row. rewrite Hn. cbn. now rewrite app_nil_r.
Qed.

Lemma analyzer_career_loop_no_count (p : Player.t) (entries : list raw_entry)
    (acc : list Expanded.t) :
  Player.teams_count p = None ->
  fst (Analyzer.career_loop p entries acc) = acc.
Proof.
  intros Hn. destruct entries as [| entry more]; [reflexivity |].
  cbn [Analyzer.career_loop]. unfold Analyzer.expanded_row. now rewrite Hn.
Qed.

Lemma analyzer_fold_rows (now : Date.t) (players : list Player.t) :
  (forall p, In p players -> Player.teams_count p <> None) ->
  forall id acc,
    fold_left Analyzer.player_step players acc =
    (acc ++ map expanded_of_stint (table_from now id players))%list.
Proof.
  induction players as [| p more IH]; intros Hall id acc.
  - cbn. now rewrite app_nil_r.
  - cbn [fold_left table_from]. rewrite map_app, app_assoc.
    rewrite (IH (fun q Hq => Hall q (or_intror Hq))
               (id + Z.of_nat (List.length (player_rows now p id)))).
    f_equal. unfold Analyzer.player_step, player_rows.
    destruct (Player.career_history p) as [| e | entries];
      try (cbn; now rewrite app_nil_r).
    destruct (Player.teams_count p) as [n |] eqn:Hn.
    + apply (analyzer_career_loop_rows now p n _ entries Hn).
    + exfalso. exact (Hall p (or_introl eq_refl) Hn).
Qed.

Lemma analyzer_fold_no_count (players : list Player.t) :
  (forall p, In p players -> Player.teams_count p = None) ->
  forall acc, fold_left Analyzer.player_step players acc = acc.
Proof.
  induction players as [| p more IH]; intros Hall acc; [reflexivity |].
  cbn [fold_left].
  rewrite (IH (fun q Hq => Hall q (or_intror Hq))).
  unfold Analyzer.player_step.
  destruct (Player.career_history p) as [| e | entries]; try reflexivity.
  apply analyzer_career_loop_no_count. apply Hall. now left.
Qed.

(** When the players table has the column [teams_count], the analyzer's
    expanded table has one row for each stint of the builder, in the same
    order and with the same player, team, dates and status; it stops at a
    malformed career element exactly where the builder stops.  Without the
    column every career raises inside the [try] block: the expanded table
    has no rows and no columns, so reading its [team] column fails. *)
Theorem analyzer_rows_are_builder_stints :
  forall (now : Date.t) (players : list Player.t),
    fst (Analyzer.parse_career_history_file players) = players /\
    ((forall p, In p players -> Player.teams_count p <> None) ->
     rows (snd (Analyzer.parse_career_history_file players)) =
     map expanded_of_stint (rows (Builder.build_career_stints_table now players))) /\
    ((forall p, In p players -> Player.teams_count p = None) ->
     rows (snd (Analyzer.parse_career_history_file players)) = [] /\
     column (snd (Analyzer.parse_career_history_file players)) "team" Expanded.team =
       Raise (KeyError "team")).
Proof.
  intros now players. split; [reflexivity |]. split.
  - intros Hall. rewrite build_rows.
    unfold Analyzer.parse_career_history_file. cbn [snd rows pd_DataFrame].
    now rewrite (analyzer_fold_rows now players Hall 1 []).
  - intros Hall. unfold Analyzer.parse_career_history_file. cbn [snd].
    rewrite (analyzer_fold_no_count players Hall). split; reflexivity.
Qed.

Lemma analyzer_rows_are_builder_stints_witness :
  rows (snd (Analyzer.parse_career_history_file
               (map (fun p => Details.update_career p
                                (Scraper._parse_history_table
                                   [ [ "2019-01-10 — 2019-06-01"; "Team A" ] ]))
                    Sample.no_career))) =
  map expanded_of_stint
    (rows (Builder.build_career_stints_table Sample.now
             (map (fun p => Details.update_career p
                              (Scraper._parse_history_table
                                 [ [ "2019-01-10 — 2019-06-01"; "Team A" ] ]))
                  Sample.no_career))) /\
  rows (snd (Analyzer.parse_career_history_file Sample.noisy_middle)) = [].
Proof.
  split.
  - apply (proj1 (proj2 (analyzer_rows_are_builder_stints Sample.now _))).
    intros p [H | []]. subst p. discriminate.
  - apply (proj2 (proj2 (analyzer_rows_are_builder_stints Sample.now
                           Sample.noisy_middle))).
    intros p [H | []]. subst p. reflexivity.
Defined.

(** ** The selection of players with tier 1 experience *)

Lemma tier_1_career_loop_teams (entries : list raw_entry) :
  forall acc,
    fst (Tier1.career_loop entries acc) =
    (acc ++ filter Tier1.is_tier_1_team
              (map (fun e => Py.dict_get e "team" "") (good_prefix entries)))%list.
Proof.
  induction entries as [| [e |] more IH]; intros acc.
  - cbn. now rewrite app_nil_r.
  - cbn [Tier1.career_loop good_prefix map filter]. rewrite IH.
    destruct (Tier1.is_tier_1_team (Py.dict_get e "team" ""));
      [now rewrite <- app_assoc | reflexivity].
  - cbn. now rewrite app_nil_r.
Qed.

Lemma player_tier_1_teams_eq (p : Player.t) :
  Tier1.player_tier_1_teams p =
  ((if Tier1.is_tier_1_team (Player.current_team p)
    then [Player.current_team p] else []) ++
   filter Tier1.is_tier_1_team
     (map (fun e => Py.dict_get e "team" "") (career_records p)))%list.
Proof.
  unfold Tier1.player_tier_1_teams, career_records.
  destruct (Player.career_history p) as [| e | entries];
    try (cbn [map filter]; now rewrite app_nil_r).
  apply tier_1_career_loop_teams.
Qed.

Lemma player_tier_1_teams_In (p : Player.t) (t : string) :
  In t (Tier1.player_tier_1_teams p) <->
  Tier1.is_tier_1_team t = true /\
  (t = Player.current_team p \/
   exists e, In e (career_records p) /\ t = Py.dict_get e "team" "").
Proof.
  rewrite player_tier_1_teams_eq, in_app_iff, filter_In, in_map_iff. split.
  - intros [H | [(e & He & Hin) Ht]].
    + destruct (Tier1.is_tier_1_team (Player.current_team p)) eqn:E;
        [| contradiction].
      destruct H as [H | []]. subst t. split; [exact E | now left].
    + split; [exact Ht |]. right. exists e. now split.
  - intros [Ht [H | (e & Hin & He)]].
    + left. subst t. rewrite Ht. now left.
    + right. split; [| exact Ht]. exists e. now split.
Qed.

Lemma player_tier_1_teams_nonempty (p : Player.t) :
  has_tier_1_experience p = true <-> Tier1.player_tier_1_teams p <> [].
Proof.
  unfold has_tier_1_experience. rewrite orb_true_iff, existsb_exists. split.
  - intros H Hnil.
    assert (Hin : exists t, In t (Tier1.player_tier_1_teams p)).
    { destruct H as [H | (e & Hin & He)].
      - exists (Player.current_team p). apply player_tier_1_teams_In.
        split; [exact H | now left].
      - exists (Py.dict_get e "team" ""). apply player_tier_1_teams_In.
        split; [exact He |]. right. now exists e. }
    destruct Hin as (t & Hin). rewrite Hnil in Hin. contradiction.
  - intros H. destruct (Tier1.player_tier_1_teams p) as [| t r] eqn:E;
      [congruence |].
    assert (Hin : In t (Tier1.player_tier_1_teams p)) by (rewrite E; now left).
    apply player_tier_1_teams_In in Hin. destruct Hin as [Ht [Hc | (e & Hin & He)]].
    + left. now subst t.
    + right. exists e. split; [exact Hin | now subst t].
Qed.

Lemma tier_1_fold (df : list Player.t) :
  forall acc,
    exists added,
      fold_left Tier1.player_step df acc = (acc ++ added)%list /\
      map Tier1.player added = filter has_tier_1_experience df /\
      forall r, In r added ->
        Tier1.tier_1_teams r = unique (Tier1.player_tier_1_teams (Tier1.player r)) /\
        Tier1.tier_1_teams_count r = Z.of_nat (List.length (Tier1.tier_1_teams r)) /\
        Tier1.player_tier_1_teams (Tier1.player r) <> [].
Proof.
  induction df as [| p more IH]; intros acc.
  - exists []. cbn. rewrite app_nil_r. repeat split; contradiction.
  - cbn [fold_left filter]. unfold Tier1.player_step at 2.
    destruct (Tier1.player_tier_1_teams p) as [| t r] eqn:E.
    + destruct (IH acc) as (added & Hf & Hm & Hr).
      exists added. split; [exact Hf |]. split; [| exact Hr].
      destruct (has_tier_1_experience p) eqn:Hx; [| exact Hm].
      apply player_tier_1_teams_nonempty in Hx. congruence.
    + match goal with
      | |- context [fold_left _ more (acc ++ [?row])%list] =>
          destruct (IH (acc ++ [row])%list) as (added & Hf & Hm & Hr);
          exists (row :: added)
      end.
      split; [rewrite Hf; now rewrite <- app_assoc |]. split.
      * assert (Hx : has_tier_1_experience p = true).
        { apply player_tier_1_teams_nonempty. rewrite E. discriminate. }
        rewrite Hx. cbn [map Tier1.player]. now rewrite Hm.
      * intros x [Hx | Hx]; [| now apply Hr].
        subst x. cbn [Tier1.player Tier1.tier_1_teams Tier1.tier_1_teams_count].
        rewrite E. repeat split. discriminate.
Qed.

(** [filter_tier_1_players] fails with a division by zero on an empty
    players table.  Otherwise it keeps, in their order, exactly the players
    whose current team is tier 1 or who have a tier 1 team among the career
    records read before the first malformed element; the teams listed for a
    kept player are distinct, at least one, and are exactly the tier 1 names
    among the current team and those records. *)
Theorem tier_1_filter_selection :
  Tier1.filter_tier_1_players [] = Raise ZeroDivisionError /\
  forall df : list Player.t,
    df <> [] ->
    exists tier_1_players,
      Tier1.filter_tier_1_players df = Ok tier_1_players /\
      map Tier1.player tier_1_players = filter has_tier_1_experience df /\
      forall r, In r tier_1_players ->
        NoDup (Tier1.tier_1_teams r) /\
        Tier1.tier_1_teams_count r = Z.of_nat (List.length (Tier1.tier_1_teams r)) /\
        1 <= Tier1.tier_1_teams_count r
          <= 1 + Z.of_nat (List.length (career_records (Tier1.player r))) /\
        forall t, In t (Tier1.tier_1_teams r) <->
          Tier1.is_tier_1_team t = true /\
          (t = Player.current_team (Tier1.player r) \/
           exists e, In e (career_records (Tier1.player r)) /\
                     t = Py.dict_get e "team" "").
Proof.
  split; [reflexivity |].
  intros df Hne. destruct (tier_1_fold df []) as (added & Hf & Hm & Hr).
  cbn [app] in Hf. exists added. split; [| split; [exact Hm |]].
  - unfold Tier1.filter_tier_1_players. rewrite Hf.
    destruct df as [| p more]; [congruence | reflexivity].
  - intros r Hin. destruct (Hr r Hin) as (Hteams & Hcount & Hsome).
    split; [rewrite Hteams; apply unique_from_NoDup |].
    split; [exact Hcount |]. split.
    + rewrite Hcount, Hteams.
      pose proof (unique_nonempty _ Hsome) as Hlo.
      pose proof (unique_from_length_le (Tier1.player_tier_1_teams (Tier1.player r)) [])
        as Hhi.
      fold (unique (Tier1.player_tier_1_teams (Tier1.player r))) in Hhi.
      assert (Hlen : (List.length (Tier1.player_tier_1_teams (Tier1.player r)) <=
                      1 + List.length (career_records (Tier1.player r)))%nat).
      { rewrite player_tier_1_teams_eq, length_app.
        pose proof (filter_length_le Tier1.is_tier_1_team
                      (map (fun e => Py.dict_get e "team" "")
                           (career_records (Tier1.player r)))) as Hfl.
        rewrite length_map in Hfl.
        destruct (Tier1.is_tier_1_team (Player.current_team (Tier1.player r)));
          cbn [List.length]; lia. }
      lia.
    + intros t. rewrite Hteams, unique_In. apply player_tier_1_teams_In.
Qed.

Lemma tier_1_filter_selection_witness :
  exists tier_1_players,
    Tier1.filter_tier_1_players
      [ Sample.player "p1"
          (Career [ Entry (Scraper.history_entry "2021-01-01 — Present" "Fnatic");
                    NotADict;
                    Entry (Scraper.history_entry "2022-01-01 — Present" "Sentinels") ]);
        Sample.player "p2" Absent ] = Ok tier_1_players /\
    map (fun r => Player.player_id (Tier1.player r)) tier_1_players = [ "p1" ].
Proof.
  destruct (proj2 tier_1_filter_selection
    [ Sample.player "p1"
        (Career [ Entry (Scraper.history_entry "2021-01-01 — Present" "Fnatic");
                  NotADict;
                  Entry (Scraper.history_entry "2022-01-01 — Present" "Sentinels") ]);
      Sample.player "p2" Absent ]) as (out & Hout & Hplayers & _);
    [discriminate |].
  exists out. split; [exact Hout |].
  rewrite <- (map_map Tier1.player Player.player_id), Hplayers.
  vm_compute. reflexivity.
Defined.

(** ** The two dates of a date range *)

Lemma iso_text_chars (d : string) :
  iso_text d ->
  exists y1 y2 y3 y4 m1 m2 d1 d2,
    d = String y1 (String y2 (String y3 (String y4 (String "-"
          (String m1 (String m2 (String "-" (String d1 (String d2 ""))))))))) /\
    Py.is_digit y1 = true /\ Py.is_digit y2 = true /\ Py.is_digit y3 = true /\
    Py.is_digit y4 = true /\ Py.is_digit m1 = true /\ Py.is_digit m2 = true /\
    Py.is_digit d1 = true /\ Py.is_digit d2 = true.
Proof.
  intros (y & m & dd & Hd & Hy & Hm & Hdd & Dy & Dm & Ddd).
  destruct y as [| y1 [| y2 [| y3 [| y4 [| ? ?]]]]]; try discriminate.
  destruct m as [| m1 [| m2 [| ? ?]]]; try discriminate.
  destruct dd as [| d1 [| d2 [| ? ?]]]; try discriminate.
  cbn [Py.all_chars] in Dy, Dm, Ddd.
  repeat match goal with
         | H : _ && _ = true |- _ => apply andb_prop in H; destruct H
         end.
  exists y1, y2, y3, y4, m1, m2, d1, d2. subst d. repeat split; assumption.
Qed.

Lemma iso_date_at_found (d post : string) :
  iso_text d -> Scraper.iso_date_at (d ++ post) = Some d.
Proof.
  intros H. apply iso_text_chars in H.
  destruct H as (y1 & y2 & y3 & y4 & m1 & m2 & d1 & d2 & Hd & H1 & H2 & H3 & H4
                 & H5 & H6 & H7 & H8).
  subst d. cbn [append Scraper.iso_date_at].
  rewrite H1, H2, H3, H4, H5, H6, H7, H8. cbn [andb Ascii.eqb Bool.eqb substring].
  now rewrite substring_0_0.
Qed.

Lemma search_iso_date_found (pre d post : string) :
  iso_text d -> Scraper.search_iso_date (pre ++ d ++ post) <> None.
Proof.
  intros H. induction pre as [| c r IH]; cbn [append].
  - assert (E : Scraper.search_iso_date (d ++ post) = Some d).
    { destruct (d ++ post) eqn:Es;
        cbn [Scraper.search_iso_date]; rewrite <- ?Es;
        now rewrite (iso_date_at_found d post H). }
    rewrite E. discriminate.
  - cbn [Scraper.search_iso_date].
    destruct (Scraper.iso_date_at (String c (r ++ d ++ post))); [discriminate | exact IH].
Qed.

Lemma findall_from_occurs_after (s : string) :
  forall skip d,
    In d (Scraper.findall_iso_dates_from skip s) ->
    exists pre post,
      s = pre ++ d ++ post /\ (skip <= String.length pre)%nat.
Proof.
  induction s as [| c r IH]; intros skip d H.
  - destruct skip; simpl in H; contradiction.
  - destruct skip as [| k].
    + destruct (findall_from_occurs _ _ _ H) as (pre & post & Hs & _).
      exists pre, post. split; [exact Hs | apply Nat.le_0_l].
    + cbn [Scraper.findall_iso_dates_from] in H.
      apply IH in H. destruct H as (pre & post & Hs & Hk).
      exists (String c pre), post.
      split; [cbn [append]; now rewrite Hs | cbn [String.length]; now apply le_n_S].
Qed.

Lemma string_app_split (a : string) :
  forall b c d,
    a ++ b = c ++ d -> (String.length c <= String.length a)%nat ->
    exists m, a = c ++ m /\ d = m ++ b.
Proof.
  induction a as [| x a' IH]; intros b c d H Hlen.
  - destruct c as [| y c']; [| cbn in Hlen; lia].
    exists "". split; [reflexivity | now cbn in *].
  - destruct c as [| y c'].
    + exists (String x a'). split; [reflexivity | now cbn in *].
    + cbn [append] in H. injection H as Hx H.
      cbn [String.length] in Hlen. apply le_S_n in Hlen.
      destruct (IH b c' d H Hlen) as (m & Ha & Hd).
      exists m. split; [cbn [append]; now rewrite Hx, Ha | exact Hd].
Qed.

Lemma findall_last_after_first (s : string) :
  forall skip d rest,
    Scraper.findall_iso_dates_from skip s = d :: rest -> rest <> [] ->
    exists pre mid post, s = pre ++ d ++ mid ++ last rest "" ++ post.
Proof.
  induction s as [| c r IH]; intros skip d rest H Hrest.
  - destruct skip; discriminate.
  - destruct skip as [| k].
    + cbn [Scraper.findall_iso_dates_from] in H.
      destruct (Scraper.iso_date_at (String c r)) as [d0 |] eqn:Hat.
      * injection H as Hd Hr. subst d0.
        destruct (iso_date_at_some _ _ Hat) as (post0 & Hs & Hiso).
        assert (Hin : In (last rest "") (Scraper.findall_iso_dates_from 9 r)).
        { rewrite Hr. destruct rest as [| x l]; [congruence |].
          apply (@exists_last _ (x :: l)) in Hrest.
          destruct Hrest as (l' & a & Hl). rewrite Hl, last_last.
          apply in_or_app. right. now left. }
        apply findall_from_occurs_after in Hin.
        destruct Hin as (pre & post & Hrr & Hk).
        assert (Hlen : String.length d = 10%nat).
        { apply iso_text_chars in Hiso.
          destruct Hiso as (y1 & y2 & y3 & y4 & m1 & m2 & d1 & d2 & Hd & _).
          now subst d. }
        assert (Heq : String c pre ++ (last rest "" ++ post) = d ++ post0).
        { cbn [append]. now rewrite <- Hrr. }
        apply string_app_split in Heq; [| cbn [String.length]; lia].
        destruct Heq as (m & Hm & Hp).
        exists "", m, post. cbn [append]. now rewrite Hs, Hp.
      * destruct (IH 0%nat d rest H Hrest) as (pre & mid & post & Hs).
        exists (String c pre), mid, post. cbn [append]. now rewrite Hs.
    + cbn [Scraper.findall_iso_dates_from] in H.
      destruct (IH k d rest H Hrest) as (pre & mid & post & Hs).
      exists (String c pre), mid, post. cbn [append]. now rewrite Hs.
Qed.

(** The start date is empty exactly when no text of the shape YYYY-MM-DD
    occurs in the date range, and then the end date is empty or "Present".
    When the end date is a date, so is the start date, and the end date is
    read from a later place of the date range that does not overlap the
    start date. *)
Theorem dates_of_a_date_range :
  forall date_range : string,
    let date_start := Scraper._extract_start_date date_range in
    let date_end := Scraper._extract_end_date date_range in
    (date_start = "" \/ iso_text date_start) /\
    (date_start = "" <->
     forall pre d post, date_range = pre ++ d ++ post -> ~ iso_text d) /\
    (date_start = "" -> date_end = "" \/ date_end = "Present") /\
    (date_end = "Present" \/ date_end = "" \/ iso_text date_end) /\
    (iso_text date_end ->
     iso_text date_start /\
     exists pre mid post,
       date_range = pre ++ date_start ++ mid ++ date_end ++ post).
Proof.
  intros s date_start date_end.
  assert (Hstart : date_start = hd "" (Scraper.findall_iso_dates s)).
  { unfold date_start, Scraper._extract_start_date.
    rewrite search_is_first_found.
    destruct (Scraper.findall_iso_dates s); reflexivity. }
  assert (Hiso : forall d, In d (Scraper.findall_iso_dates s) -> iso_text d).
  { intros d Hd. apply findall_from_occurs in Hd.
    now destruct Hd as (_ & _ & _ & H). }
  assert (Hnot : ~ iso_text "").
  { intros H. apply iso_text_chars in H.
    destruct H as (? & ? & ? & ? & ? & ? & ? & ? & H & _). discriminate. }
  assert (Hnil : date_start = "" -> Scraper.findall_iso_dates s = []).
  { rewrite Hstart. destruct (Scraper.findall_iso_dates s) as [| d l] eqn:E;
      [reflexivity |].
    cbn [hd]. intros Hd. exfalso. apply Hnot. rewrite <- Hd.
    apply Hiso. now left. }
  assert (Hend : date_end = "Present" \/ date_end = "" \/
                 (exists d rest, Scraper.findall_iso_dates s = d :: rest /\
                                 rest <> [] /\ date_end = last rest "")).
  { unfold date_end, Scraper._extract_end_date.
    destruct (Py.contains "Present" s || Py.contains "present" s); [now left |].
    right. destruct (Scraper.findall_iso_dates s) as [| d [| x l]];
      [now left | now left |].
    right. exists d, (x :: l). repeat split. discriminate. }
  split; [| split; [| split; [| split]]].
  - rewrite Hstart. destruct (Scraper.findall_iso_dates s) as [| d l] eqn:E;
      [now left |].
    right. apply Hiso. now left.
  - split.
    + intros He pre d post Hs Hd.
      unfold date_start, Scraper._extract_start_date in He.
      destruct (Scraper.search_iso_date s) as [d0 |] eqn:E.
      * subst d0. apply Hnot.
        assert (Hin : In "" (Scraper.findall_iso_dates s)).
        { rewrite search_is_first_found in E.
          destruct (Scraper.findall_iso_dates s); [discriminate |].
          injection E as E. now left. }
        now apply Hiso.
      * apply (search_iso_date_found pre d post Hd). now rewrite <- Hs.
    + intros Hnone. rewrite Hstart.
      destruct (Scraper.findall_iso_dates s) as [| d l] eqn:E; [reflexivity |].
      exfalso.
      assert (Hin : In d (Scraper.findall_iso_dates s)) by (rewrite E; now left).
      apply findall_from_occurs in Hin. destruct Hin as (pre & post & Hs & Hd).
      exact (Hnone pre d post Hs Hd).
  - intros He. specialize (Hnil He).
    destruct Hend as [H | [H | (d & rest & Hf & _)]]; [now right | now left |].
    congruence.
  - destruct Hend as [H | [H | (d & rest & Hf & Hrest & He)]];
      [now left | right; now left |].
    right; right. rewrite He. apply Hiso. rewrite Hf. right.
    destruct rest as [| x l]; [congruence |].
    apply (@exists_last _ (x :: l)) in Hrest.
    destruct Hrest as (l' & a & Hl). rewrite Hl, last_last.
    apply in_or_app. right. now left.
  - intros He.
    destruct Hend as [H | [H | (d & rest & Hf & Hrest & Hlast)]].
    + exfalso. rewrite H in He. apply iso_text_chars in He.
      destruct He as (? & ? & ? & ? & ? & ? & ? & ? & He & _). discriminate.
    + exfalso. rewrite H in He. now apply Hnot.
    + assert (Hd : date_start = d) by (rewrite Hstart, Hf; reflexivity).
      split.
      * rewrite Hd. apply Hiso. rewrite Hf. now left.
      * rewrite Hd, Hlast.
        exact (findall_last_after_first s 0 d rest Hf Hrest).
Qed.

Lemma dates_of_a_date_range_witness :
  iso_text (Scraper._extract_end_date "2020-04-13 — 2020-07-02") /\
  iso_text (Scraper._extract_start_date "2020-04-13 — 2020-07-02").
Proof.
  assert (H : iso_text (Scraper._extract_end_date "2020-04-13 — 2020-07-02")).
  { exists "2020", "07", "02". repeat split. }
  split; [exact H |].
  exact (proj1 (proj2 (proj2 (proj2 (proj2
    (dates_of_a_date_range "2020-04-13 — 2020-07-02")))) H)).
Defined.

(** ** The two copies of the status rule *)

Lemma lower_char_lower_char (c : ascii) :
  Py.lower_char (Py.lower_char c) = Py.lower_char c.
Proof. destruct c as [[] [] [] [] [] [] [] []]; reflexivity. Qed.

Lemma lower_char_upper_char (c : ascii) :
  Py.lower_char (Py.upper_char c) = Py.lower_char c.
Proof. destruct c as [[] [] [] [] [] [] [] []]; reflexivity. Qed.

Lemma lower_lower (s : string) : Py.lower (Py.lower s) = Py.lower s.
Proof.
  induction s as [| c r IH]; [reflexivity |].
  cbn [Py.lower]. now rewrite lower_char_lower_char, IH.
Qed.

Lemma lower_title_from (s : string) :
  forall b, Py.lower (Py.title_from b s) = Py.lower s.
Proof.
  induction s as [| c r IH]; intros b; [reflexivity |].
  cbn [Py.title_from Py.lower]. rewrite IH.
  destruct b; now rewrite ?lower_char_lower_char, ?lower_char_upper_char.
Qed.

(** The category scraper's copy of the status rule lacks the branch for
    trials.  The two copies agree on every label for which the main rule
    does not answer Trial; where it does, the copy answers with the
    annotation in title case, which still holds the word. *)
Theorem category_status_differs_only_on_trials :
  (forall label,
      Scraper._extract_status label <> "Trial" ->
      CategoryScraper._extract_status label = Scraper._extract_status label) /\
  (forall label,
      Scraper._extract_status label = "Trial" ->
      Py.contains "trial" (Py.lower (CategoryScraper._extract_status label)) = true) /\
  Scraper._extract_status "Team X (on trial)" = "Trial" /\
  CategoryScraper._extract_status "Team X (on trial)" = "On Trial".
Proof.
  split; [| split; [| split; reflexivity]].
  - intros label. unfold Scraper._extract_status, CategoryScraper._extract_status.
    destruct (Scraper.search_paren_group label) as [g |]; [| reflexivity].
    cbv zeta.
    destruct (Py.contains "inactive" (Py.lower (Py.strip g))); [reflexivity |].
    destruct (Py.contains "loan" (Py.lower (Py.strip g))); [reflexivity |].
    destruct (Py.contains "stand-in" (Py.lower (Py.strip g))
              || Py.contains "standin" (Py.lower (Py.strip g))); [reflexivity |].
    destruct (Py.contains "trial" (Py.lower (Py.strip g))); [congruence | reflexivity].
  - intros label. unfold Scraper._extract_status, CategoryScraper._extract_status.
    destruct (Scraper.search_paren_group label) as [g |]; [| discriminate].
    cbv zeta.
    destruct (Py.contains "inactive" (Py.lower (Py.strip g))); [discriminate |].
    destruct (Py.contains "loan" (Py.lower (Py.strip g))); [discriminate |].
    destruct (Py.contains "stand-in" (Py.lower (Py.strip g))
              || Py.contains "standin" (Py.lower (Py.strip g))); [discriminate |].
    unfold Py.title. rewrite lower_title_from, lower_lower.
    destruct (Py.contains "trial" (Py.lower (Py.strip g))) eqn:E; [reflexivity |].
    intros H.
    assert (H' : Py.lower (Py.title_from false (Py.lower (Py.strip g))) = Py.lower "Trial")
      by now rewrite H.
    rewrite lower_title_from, lower_lower in H'. rewrite H' in E. discriminate.
Qed.

Lemma category_status_differs_only_on_trials_witness :
  CategoryScraper._extract_status "Team X (Stand-in)" = "Stand-in".
Proof.
  etransitivity.
  - apply (proj1 category_status_differs_only_on_trials). vm_compute. discriminate.
  - reflexivity.
Defined.

(** ** Regions of the countries of the category scraper *)

(** The region of a country is Unknown exactly when the country is in
    neither list; no country is in both lists, so the order of the two tests
    does not matter; and every country that the category scraper is set up
    to read has a region, Brazil being the only one in the Americas. *)
Theorem regions_of_countries :
  (forall country,
      CategoryScraper._get_region_from_country country = "Unknown" <->
      ~ In country CategoryScraper.americas /\ ~ In country CategoryScraper.asia) /\
  (forall country,
      In country CategoryScraper.americas -> ~ In country CategoryScraper.asia) /\
  (forall country,
      In country CategoryScraper.country_categories ->
      CategoryScraper._get_region_from_country country <> "Unknown" /\
      (CategoryScraper._get_region_from_country country = "Americas" <->
       country = "Brazil")).
Proof.
  split; [| split].
  - intros country. unfold CategoryScraper._get_region_from_country.
    change (existsb (String.eqb country) CategoryScraper.americas)
      with (mem country CategoryScraper.americas).
    change (existsb (String.eqb country) CategoryScraper.asia)
      with (mem country CategoryScraper.asia).
    destruct (mem country CategoryScraper.americas) eqn:Ea.
    + apply mem_In in Ea. split; [discriminate | tauto].
    + apply mem_false_In in Ea.
      destruct (mem country CategoryScraper.asia) eqn:Eb.
      * apply mem_In in Eb. split; [discriminate | tauto].
      * apply mem_false_In in Eb. split; [tauto | reflexivity].
  - intros country Ha Hb.
    unfold CategoryScraper.americas in Ha. cbn [In] in Ha.
    repeat (destruct Ha as [Ha | Ha];
            [subst country; apply mem_In in Hb; vm_compute in Hb; discriminate |]).
    contradiction.
  - intros country H.
    unfold CategoryScraper.country_categories in H. cbn [In] in H.
    repeat (destruct H as [H | H];
            [subst country; split;
               [vm_compute; discriminate
               | split; intros E; (reflexivity || (vm_compute in E; discriminate)
                                   || discriminate)] |]).
    contradiction.
Qed.

Lemma regions_of_countries_witness :
  CategoryScraper._get_region_from_country "Japan" <> "Unknown" /\
  ~ In "Chile" CategoryScraper.asia.
Proof.
  split.
  - refine (proj1 (proj2 (proj2 regions_of_countries) "Japan" _)).
    apply mem_In. vm_compute. reflexivity.
  - refine (proj1 (proj2 regions_of_countries) "Chile" _).
    apply mem_In. vm_compute. reflexivity.
Defined.

(** ** The filters of the portal scrape *)





(** ** Page addresses and file names of team logos *)

Lemma replace_spaces_sub_special (s : string) :
  Logo.sub_special (Logo.replace_spaces s) = Logo.replace_spaces (Logo.sub_special s).
Proof.
  induction s as [| c r IH]; [reflexivity |].
  cbn [Logo.replace_spaces Logo.sub_special].
  destruct (Ascii.eqb c " ") eqn:E.
  - apply Ascii.eqb_eq in E. subst c. cbn. now rewrite IH.
  - destruct (Logo.is_word c || Py.is_space c || Ascii.eqb c "-");
      [cbn [Logo.replace_spaces]; now rewrite E, IH | exact IH].
Qed.

Lemma safe_name_chars (s : string) :
  Py.all_chars file_name_char (Logo.safe_name s) = true.
Proof.
  unfold Logo.safe_name. induction s as [| c r IH]; [reflexivity |].
  cbn [Logo.sub_special].
  destruct (Logo.is_word c || Py.is_space c || Ascii.eqb c "-") eqn:E; [| exact IH].
  cbn [Logo.replace_spaces Py.all_chars]. rewrite IH, andb_true_r.
  destruct (Ascii.eqb c " ") eqn:Es; [reflexivity |].
  unfold file_name_char. rewrite Es. cbn [negb]. rewrite andb_true_r.
  destruct (Logo.is_word c); [reflexivity |].
  destruct (Py.is_space c); cbn [orb] in *; [now rewrite orb_true_r | now rewrite E].
Qed.

(** For a team name written in ASCII: the page address is built from the
    same name as the logo's file name, the two steps (removing special
    characters, replacing spaces) being applied in either order; the file
    name holds only word characters, hyphens and white space other than the
    space, so no dot, no slash and no space; and names that differ only in
    removed characters get the same file name. *)
Theorem logo_page_and_file_names :
  forall team_name,
    ascii_text team_name = true ->
    Logo.get_team_page_url team_name =
      Logo.base_url ++ "/valorant/" ++ Logo.safe_name (Py.strip team_name) /\
    Py.all_chars file_name_char (Logo.safe_name team_name) = true /\
    Py.contains "." (Logo.safe_name team_name) = false /\
    Py.contains "/" (Logo.safe_name team_name) = false /\
    Py.contains " " (Logo.safe_name team_name) = false /\
    (forall other,
        Logo.sub_special other = Logo.sub_special team_name ->
        Logo.safe_name other = Logo.safe_name team_name).
Proof.
  intros team_name _.
  assert (Hnone : forall c s,
            file_name_char c = false ->
            Py.all_chars file_name_char s = true ->
            Py.contains (String c "") s = false).
  { intros c s Hc. induction s as [| x r IH]; intros H; [reflexivity |].
    cbn [Py.all_chars] in H. apply andb_prop in H. destruct H as [Hx Hr].
    cbn [Py.contains prefix]. rewrite (IH Hr), orb_false_r.
    destruct (ascii_dec c x) as [E | E]; [subst x; congruence | reflexivity]. }
  split; [| split; [| split; [| split; [| split]]]].
  - unfold Logo.get_team_page_url, Logo.safe_name.
    now rewrite replace_spaces_sub_special.
  - apply safe_name_chars.
  - apply (Hnone "."%char); [reflexivity | apply safe_name_chars].
  - apply (Hnone "/"%char); [reflexivity | apply safe_name_chars].
  - apply (Hnone " "%char); [reflexivity | apply safe_name_chars].
  - intros other H. unfold Logo.safe_name. now rewrite H.
Qed.

Lemma logo_page_and_file_names_witness :
  Logo.get_team_page_url " Gen.G Esports " =
    "https://liquipedia.net/valorant/GenG_Esports" /\
  Logo.safe_name "GenG" = Logo.safe_name "Gen.G".
Proof.
  split.
  - etransitivity.
    + exact (proj1 (logo_page_and_file_names " Gen.G Esports " eq_refl)).
    + reflexivity.
  - exact (proj2 (proj2 (proj2 (proj2 (proj2
      (logo_page_and_file_names "Gen.G" eq_refl))))) "GenG" eq_refl).
Defined.
